(** * NoteOrganiser: the folder scanner and the Library / Preview frames

    A shallow embedding of [noteorganiser/configuration.py] and of the
    logic of [noteorganiser/frames.py] (classes [Preview] and [Shelves],
    and the tabs of [Editing]), followed by the properties proved about
    them.

    Conventions of the embedding.
    - Python text is a Rocq [string] (8-bit characters); the case
      conversions of [str.capitalize] act on the ASCII letters.
    - A Python exception is a constructor of [exn]; a computation that may
      raise returns a [result].
    - Code that mutates the application (the file system, the attributes
      of [info], the widgets) is a function from the state before to a
      [result] together with the state after: what was written before an
      exception was raised stays written.
    - Collaborators that are not part of these two files (the note
      converter [text_processing], the document converter [pypandoc], the
      dialogs of [popups], the value of [constants.EXTENSION]) are
      arguments of the functions that use them. *)

From Stdlib Require Import String Ascii List Bool Arith ZArith Lia.
Import ListNotations.
Set Warnings "-register-all".
Open Scope string_scope.
Open Scope list_scope.

(* ===================================================================== *)
(** * Python values: exceptions, strings, lists                            *)
(* ===================================================================== *)

Module Py.

(** The exception classes the two files raise, catch or let through. *)
Inductive exn : Type :=
| TypeError
| IndexError
| ValueError
| SyntaxError
| UnboundLocalError
| OSError.

Inductive result (A : Type) : Type :=
| Ok (a : A)
| Raise (e : exn).

Arguments Ok {A} a.
Arguments Raise {A} e.

Definition exn_eqb (a b : exn) : bool :=
  match a, b with
  | TypeError, TypeError | IndexError, IndexError | ValueError, ValueError
  | SyntaxError, SyntaxError | UnboundLocalError, UnboundLocalError
  | OSError, OSError => true
  | _, _ => false
  end.

(** ** Computations over a state [S] that may raise *)

Definition M (S A : Type) : Type := S -> result A * S.

Definition ret {S A} (a : A) : M S A := fun s => (Ok a, s).

Definition raise {S A} (e : exn) : M S A := fun s => (Raise e, s).

Definition bind {S A B} (m : M S A) (f : A -> M S B) : M S B :=
  fun s =>
    match m s with
    | (Ok a, s') => f a s'
    | (Raise e, s') => (Raise e, s')
    end.

(** [try: m except <handles>: handler]. *)
Definition try_except {S A} (m : M S A) (handles : exn -> bool)
  (handler : exn -> M S A) : M S A :=
  fun s =>
    match m s with
    | (Ok a, s') => (Ok a, s')
    | (Raise e, s') => if handles e then handler e s' else (Raise e, s')
    end.

Definition get_state {S} : M S S := fun s => (Ok s, s).

Definition modify {S} (f : S -> S) : M S unit := fun s => (Ok tt, f s).

(** A pure computation that may raise, run inside [M]. *)
Definition lift {S A} (r : result A) : M S A := fun s => (r, s).

(** ** Characters *)

Definition LF : ascii := ascii_of_nat 10.
Definition CR : ascii := ascii_of_nat 13.

Definition is_upper (c : ascii) : bool :=
  let n := nat_of_ascii c in ((65 <=? n) && (n <=? 90))%nat.

Definition is_lower (c : ascii) : bool :=
  let n := nat_of_ascii c in ((97 <=? n) && (n <=? 122))%nat.

Definition to_upper (c : ascii) : ascii :=
  if is_lower c then ascii_of_nat (nat_of_ascii c - 32) else c.

Definition to_lower (c : ascii) : ascii :=
  if is_upper c then ascii_of_nat (nat_of_ascii c + 32) else c.


(** ** Strings *)

Fixpoint str_map (f : ascii -> ascii) (s : string) : string :=
  match s with
  | EmptyString => EmptyString
  | String c r => String (f c) (str_map f r)
  end.

Fixpoint str_forallb (p : ascii -> bool) (s : string) : bool :=
  match s with
  | EmptyString => true
  | String c r => p c && str_forallb p r
  end.

Fixpoint str_existsb (p : ascii -> bool) (s : string) : bool :=
  match s with
  | EmptyString => false
  | String c r => p c || str_existsb p r
  end.

(** [c * n]. *)
Fixpoint str_repeat (c : ascii) (n : nat) : string :=
  match n with
  | O => EmptyString
  | S k => String c (str_repeat c k)
  end.

(** [s.find(sub)]: the lowest index where [sub] starts in [s], or -1. *)
Definition find (s sub : string) : Z :=
  match String.index 0 sub s with
  | Some i => Z.of_nat i
  | None => (-1)%Z
  end.

(** [s.endswith(suffix)]. *)
Definition endswith (s suffix : string) : bool :=
  let n := String.length s in
  let m := String.length suffix in
  (m <=? n)%nat && String.eqb (substring (n - m) m s) suffix.

(** [s.startswith(p)]. *)
Definition startswith (s p : string) : bool := String.prefix p s.

(** [s.rfind(c)] for a one-character [c]: the highest index of [c], or -1. *)
Fixpoint rfind_char (c : ascii) (s : string) : Z :=
  match s with
  | EmptyString => (-1)%Z
  | String d r =>
      let k := rfind_char c r in
      if (0 <=? k)%Z then (k + 1)%Z
      else if Ascii.eqb d c then 0%Z else (-1)%Z
  end.

(** [s[:n]] and [s[n:]] for [0 <= n]. *)
Definition take (n : nat) (s : string) : string := substring 0 n s.

Definition drop (n : nat) (s : string) : string :=
  substring n (String.length s - n) s.

(** [s[:-n]] for a length [n]: Python reads [s[:-0]] as [s[:0]]. *)
Definition slice_to_minus (s : string) (n : nat) : string :=
  take (String.length s - n) (match n with O => EmptyString | _ => s end).

(** [s.capitalize()]: the first character upper-cased, the others
    lower-cased. *)
Definition capitalize (s : string) : string :=
  match s with
  | EmptyString => EmptyString
  | String c r => String (to_upper c) (str_map to_lower r)
  end.

(** [sep.join(parts)]. *)
Definition join (sep : string) (parts : list string) : string :=
  String.concat sep parts.

(** [html.replace('\r\n', '\n')]: every occurrence of the pair, found from
    the left and without overlap, becomes a line feed. *)
Fixpoint replace_crlf (s : string) : string :=
  match s with
  | EmptyString => EmptyString
  | String c r =>
      match r with
      | EmptyString => String c EmptyString
      | String d r' =>
          if Ascii.eqb c CR && Ascii.eqb d LF
          then String LF (replace_crlf r')
          else String c (replace_crlf r)
      end
  end.


(** [s.split('\n')]: never empty, [''.split('\n') == ['']]. *)
Fixpoint split_lines (s : string) : list string :=
  match s with
  | EmptyString => [EmptyString]
  | String c r =>
      if Ascii.eqb c LF then EmptyString :: split_lines r
      else
        match split_lines r with
        | l :: ls => String c l :: ls
        | [] => [String c EmptyString]
        end
  end.

(** The pieces of [s] between characters that satisfy [sep], empty pieces
    left out; [cur] holds the piece being read. *)
Fixpoint fields_from (sep : ascii -> bool) (cur : string) (s : string)
  : list string :=
  match s with
  | EmptyString => match cur with EmptyString => [] | _ => [cur] end
  | String c r =>
      if sep c
      then match cur with
           | EmptyString => fields_from sep EmptyString r
           | _ => cur :: fields_from sep EmptyString r
           end
      else fields_from sep (cur ++ String c EmptyString)%string r
  end.

(** ** Lists *)

Definition str_in (x : string) (l : list string) : bool :=
  existsb (String.eqb x) l.

(** [l[-1]]. *)
Definition last_item {A} (l : list A) : result A :=
  match rev l with
  | x :: _ => Ok x
  | [] => Raise IndexError
  end.

(** [l.index(x)]: the position of the first [x]. *)
Fixpoint list_index (x : string) (l : list string) : result nat :=
  match l with
  | [] => Raise ValueError
  | y :: r =>
      if String.eqb y x then Ok 0
      else match list_index x r with
           | Ok i => Ok (S i)
           | Raise e => Raise e
           end
  end.

(** [l.pop(i)] for [0 <= i]: the element and the list without it. *)
Fixpoint list_pop {A} (i : nat) (l : list A) : result (A * list A) :=
  match l, i with
  | [], _ => Raise IndexError
  | x :: r, O => Ok (x, r)
  | x :: r, S k =>
      match list_pop k r with
      | Ok (y, r') => Ok (y, x :: r')
      | Raise e => Raise e
      end
  end.

(** [l] without its first [x]. *)
Fixpoint remove_first (x : string) (l : list string) : list string :=
  match l with
  | [] => []
  | y :: r => if String.eqb y x then r else y :: remove_first x r
  end.

(** [l[i]] for an integer [i]: a negative index counts from the end, and
    an index outside the list raises [IndexError]. *)
Definition list_get {A} (l : list A) (i : Z) : result A :=
  let n := Z.of_nat (length l) in
  let j := if (i <? 0)%Z then (i + n)%Z else i in
  if ((0 <=? j) && (j <? n))%Z
  then match nth_error l (Z.to_nat j) with
       | Some x => Ok x
       | None => Raise IndexError
       end
  else Raise IndexError.

(** ** Positional calls

    [f(a1, ..., an)] for a function declared [def f(p1, ..., pk)] with
    neither defaults nor [*args]: the arguments are bound to the parameters
    in order, and a different count raises [TypeError] before the body
    runs. *)
Definition bind_positional {V} (params : list string) (args : list V)
  : result (list (string * V)) :=
  if (length args =? length params)%nat then Ok (combine params args)
  else Raise TypeError.

End Py.

Export Py.

Notation "x <- m ;; k" := (bind m (fun x => k))
  (at level 61, m at next level, right associativity).
Notation "m ;;; k" := (bind m (fun _ => k))
  (at level 61, right associativity).

(* ===================================================================== *)
(** * The file system, as [os] and [os.path] show it                      *)
(* ===================================================================== *)

Module FS.

(** The disk is a tree, on a POSIX system. A directory lists its entries
    in the order [os.listdir] returns them. [Special] stands for what is
    neither a regular file nor a directory (a socket, a device, a dangling
    link): [os.path.isfile] and [os.path.isdir] are both false on it.
    Paths are the strings the program builds; they are read from the root
    of the tree (the working directory is the root), and links and access
    rights are not modelled. *)
Inductive node : Type :=
| File (content : string)
| Dir (entries : list (string * node))
| Special.

Definition SEP : ascii := "/"%char.

(** The components of a path: the text between separators, empty
    components (a leading, doubled or trailing separator) left out. *)
Definition components (p : string) : list string :=
  fields_from (Ascii.eqb SEP) EmptyString p.

(** [os.path.join(a, b)]. *)
Definition path_join (a b : string) : string :=
  if startswith b "/" then b
  else if String.eqb a "" || endswith a "/" then (a ++ b)%string
  else (a ++ "/" ++ b)%string.

(** [os.path.basename(p)]: what follows the last separator. *)
Definition basename (p : string) : string :=
  drop (Z.to_nat (rfind_char SEP p + 1)) p.

(** [os.path.dirname(p)]: what precedes the last separator, trailing
    separators removed unless nothing but separators is left. *)
Fixpoint rstrip_sep (s : string) : string :=
  match s with
  | EmptyString => EmptyString
  | String c r =>
      match rstrip_sep r with
      | EmptyString => if Ascii.eqb c SEP then EmptyString else String c EmptyString
      | r' => String c r'
      end
  end.

Definition dirname (p : string) : string :=
  let head := take (Z.to_nat (rfind_char SEP p + 1)) p in
  if str_forallb (Ascii.eqb SEP) head then head else rstrip_sep head.

(** [os.path.splitext(p)]: the extension starts at the last dot of the
    last component, unless that component has only dots before it. *)
Definition splitext (p : string) : string * string :=
  let sepIndex := rfind_char SEP p in
  let dotIndex := rfind_char "."%char p in
  if (sepIndex <? dotIndex)%Z then
    let stem := substring (Z.to_nat (sepIndex + 1))
                  (Z.to_nat (dotIndex - (sepIndex + 1))) p in
    if str_forallb (Ascii.eqb "."%char) stem then (p, EmptyString)
    else (take (Z.to_nat dotIndex) p, drop (Z.to_nat dotIndex) p)
  else (p, EmptyString).

(** ** Looking a path up *)

Fixpoint entry_named (name : string) (es : list (string * node))
  : option node :=
  match es with
  | [] => None
  | (n, x) :: r => if String.eqb n name then Some x else entry_named name r
  end.

Fixpoint walk (n : node) (cs : list string) : option node :=
  match cs with
  | [] => Some n
  | c :: r =>
      match n with
      | Dir es =>
          match entry_named c es with
          | Some x => walk x r
          | None => None
          end
      | _ => None
      end
  end.

(** The node a path names, from the root [fs]. *)
Definition lookup (fs : node) (p : string) : option node :=
  walk fs (components p).

Definition isdir (fs : node) (p : string) : bool :=
  match lookup fs p with Some (Dir _) => true | _ => false end.

Definition isfile (fs : node) (p : string) : bool :=
  match lookup fs p with Some (File _) => true | _ => false end.

(** [os.stat(p).st_size]: the length of a regular file; what the system
    reports for a directory is not modelled beyond being non-zero. *)
Definition st_size (fs : node) (p : string) : result nat :=
  match lookup fs p with
  | Some (File c) => Ok (String.length c)
  | Some _ => Ok 1
  | None => Raise OSError
  end.

(** ** Changing the tree *)

Fixpoint set_entry (name : string) (x : node) (es : list (string * node))
  : list (string * node) :=
  match es with
  | [] => [(name, x)]
  | (n, y) :: r =>
      if String.eqb n name then (n, x) :: r else (n, y) :: set_entry name x r
  end.

Fixpoint del_entry (name : string) (es : list (string * node))
  : list (string * node) :=
  match es with
  | [] => []
  | (n, y) :: r =>
      if String.eqb n name then del_entry name r
      else (n, y) :: del_entry name r
  end.

(** Every entry name, at every depth, is a non-empty string, as the names
    [os.listdir] returns are. *)
Fixpoint names_ok (n : node) : bool :=
  match n with
  | Dir es =>
      forallb (fun e => negb (String.eqb (fst e) "") && names_ok (snd e)) es
  | _ => true
  end.

(** Apply [f] to the directory that [cs] names; [None] when [cs] does not
    name a directory or [f] refuses. *)
Fixpoint in_dir (f : list (string * node) -> option (list (string * node)))
  (n : node) (cs : list string) : option node :=
  match n with
  | Dir es =>
      match cs with
      | [] => option_map Dir (f es)
      | c :: r =>
          match entry_named c es with
          | Some x =>
              match in_dir f x r with
              | Some x' => Some (Dir (set_entry c x' es))
              | None => None
              end
          | None => None
          end
      end
  | _ => None
  end.

Definition parent_and_name (p : string) : option (list string * string) :=
  match rev (components p) with
  | [] => None
  | name :: rparent => Some (rev rparent, name)
  end.

(** [os.mkdir(p)]: the parent must be a directory and [p] must not exist,
    else [OSError]. *)
Definition mkdir (p : string) : M node unit :=
  fun fs =>
    match parent_and_name p with
    | None => (Raise OSError, fs)
    | Some (parent, name) =>
        match in_dir (fun es => match entry_named name es with
                                | Some _ => None
                                | None => Some (es ++ [(name, Dir [])])
                                end) fs parent with
        | Some fs' => (Ok tt, fs')
        | None => (Raise OSError, fs)
        end
    end.

(** [with io.open(p, 'w') as f: f.write(text)]: the parent must be a
    directory and [p] must not be one. The text is stored as written (on
    POSIX, text mode leaves line feeds alone). *)
Definition write_file (p : string) (text : string) : M node unit :=
  fun fs =>
    match parent_and_name p with
    | None => (Raise OSError, fs)
    | Some (parent, name) =>
        match in_dir (fun es => match entry_named name es with
                                | Some (Dir _) => None
                                | _ => Some (set_entry name (File text) es)
                                end) fs parent with
        | Some fs' => (Ok tt, fs')
        | None => (Raise OSError, fs)
        end
    end.

(** [os.remove(p)]: [p] must exist and must not be a directory. *)
Definition remove (p : string) : M node unit :=
  fun fs =>
    match parent_and_name p with
    | None => (Raise OSError, fs)
    | Some (parent, name) =>
        match in_dir (fun es => match entry_named name es with
                                | Some (Dir _) | None => None
                                | Some _ => Some (del_entry name es)
                                end) fs parent with
        | Some fs' => (Ok tt, fs')
        | None => (Raise OSError, fs)
        end
    end.

(** [os.listdir(p)]: the names a directory lists; [OSError] when [p] names
    no directory. *)
Definition listdir (fs : node) (p : string) : result (list string) :=
  match lookup fs p with
  | Some (Dir es) => Ok (map fst es)
  | _ => Raise OSError
  end.

(** [shutil.rmtree(p, ignore_errors=True)]: a directory goes with all it
    holds; anything else (a regular file, a missing path) is an error,
    which is ignored. Of the root only the content can go. *)
Definition rmtree (p : string) : M node unit :=
  fun fs =>
    match lookup fs p with
    | Some (Dir _) =>
        match parent_and_name p with
        | None => (Ok tt, Dir [])
        | Some (parent, name) =>
            match in_dir (fun es => Some (del_entry name es)) fs parent with
            | Some fs' => (Ok tt, fs')
            | None => (Ok tt, fs)
            end
        end
    | _ => (Ok tt, fs)
    end.

End FS.

(* ===================================================================== *)
(** * configuration.py                                                     *)
(* ===================================================================== *)

Module configuration.

Section WithExtension.

(** [constants.EXTENSION], the suffix of a notebook file. *)
Variable EXTENSION : string.

(** The test of line 49: [elem.find(EXTENSION) != -1]. *)
Definition valid_notebook_name (elem : string) : bool :=
  negb (find elem EXTENSION =? -1)%Z.

(** [elem[0] != '.']. *)
Definition not_hidden (elem : string) : result bool :=
  match elem with
  | EmptyString => Raise IndexError
  | String c _ => Ok (negb (Ascii.eqb c "."%char))
  end.

(** The loop of lines 46 to 61 over [os.listdir(main)], with the two
    lists it appends to. [child] is the node that [os.path.join(main,
    elem)] names, and [rec] is the function itself, called on a
    sub-folder. *)
Section Loop.

Variable rec : string -> FS.node -> result (list string * list string).
Variable main : string.

Fixpoint search_loop (es : list (string * FS.node))
  (notebooks folders : list string) {struct es}
  : result (list string * list string) :=
  match es with
  | [] => Ok (notebooks, folders)
  | (elem, child) :: rest =>
      match child with
      | FS.File _ =>
          if valid_notebook_name elem
          then search_loop rest (notebooks ++ [elem]) folders
          else search_loop rest notebooks folders
      | FS.Dir _ =>
          match not_hidden elem with
          | Raise e => Raise e
          | Ok false => search_loop rest notebooks folders
          | Ok true =>
              match rec (FS.path_join main elem) child with
              | Raise e => Raise e
              | Ok (temp, _) =>
                  match temp with
                  | [] => search_loop rest notebooks folders
                  | _ :: _ =>
                      search_loop rest notebooks
                        (folders ++ [FS.path_join main elem])
                  end
              end
          end
      | FS.Special => search_loop rest notebooks folders
      end
  end.

End Loop.

(** [search_folder_recursively(logger, main)] when [main] names the node
    [n]. On a node that is no directory the function goes to
    [os.mkdir(main)], which raises since [main] exists. *)
Fixpoint search_node (main : string) (n : FS.node) {struct n}
  : result (list string * list string) :=
  match n with
  | FS.Dir es => search_loop search_node main es [] []
  | _ => Raise OSError
  end.

(** [search_folder_recursively(logger, main)] on the file system [fs]. *)
Definition search_folder_recursively (main : string)
  : M FS.node (list string * list string) :=
  fun fs =>
    match FS.lookup fs main with
    | Some n => (search_node main n, fs)
    | None => (FS.mkdir main ;;; ret ([], [])) fs
    end.

(** [initialise(logger)]; [home] is what [os.path.expanduser("~")]
    returns. *)
Definition initialise (home : string)
  : M FS.node (string * list string * list string) :=
  let main := FS.path_join home ".noteorganiser" in
  r <- search_folder_recursively main ;;
  ret (main, fst r, snd r).

(** What the docstring and the comments promise, read off one directory
    listing: the regular files with a valid name, and the sub-folders that
    are not hidden and hold such a file themselves. *)
Definition direct_notebooks (es : list (string * FS.node)) : list string :=
  map fst
    (filter (fun e => match snd e with
                      | FS.File _ => valid_notebook_name (fst e)
                      | _ => false
                      end) es).

Definition hidden (elem : string) : bool := startswith elem ".".

Definition holds_notebooks (n : FS.node) : bool :=
  match n with
  | FS.Dir sub => match direct_notebooks sub with [] => false | _ => true end
  | _ => false
  end.

Definition direct_folders (main : string) (es : list (string * FS.node))
  : list string :=
  map (fun e => FS.path_join main (fst e))
    (filter (fun e => match snd e with
                      | FS.Dir _ => negb (hidden (fst e))
                                    && holds_notebooks (snd e)
                      | _ => false
                      end) es).

(** A listing without its hidden folders, which the loop passes over. *)
Definition visible (es : list (string * FS.node)) : list (string * FS.node) :=
  filter (fun e => match snd e with
                   | FS.Dir _ => negb (hidden (fst e))
                   | _ => true
                   end) es.

(** The parameters of [def search_folder_recursively(logger, main)]. *)
Definition search_folder_recursively_params : list string :=
  ["logger"; "main"].

End WithExtension.

(** [class Information], with the attributes the frames read besides the
    ones [__init__] sets ([display_empty] and [use_TOC] are set by the
    application's start-up code). *)
Record Information : Type := {
  root : string;
  level : string;
  notebooks : list string;
  folders : list string;
  current_notebook : string;
  display_empty : bool;
  use_TOC : bool
}.

End configuration.

(* ===================================================================== *)
(** * text_processing: the note format                                     *)
(* ===================================================================== *)

(** The module [noteorganiser.text_processing] is not among the files
    embedded here; the frames only call it. Its parser and emitter are
    modelled from the specification (sections 3, 4.2 and 4.4), with the
    concrete tokens of the specification's scenario: entries are underlined
    with dashes and the tag line starts with [Tags:]. *)

Module text_processing.


(** An ordered mapping from tag label to count ([collections.OrderedDict]
    in the frames): the pairs in insertion order. *)
Definition od : Type := list (string * nat).

Definition od_keys (m : od) : list string := map fst m.

(** [key in m]. *)
Definition od_mem (key : string) (m : od) : bool := str_in key (od_keys m).

(** ** Parser *)















(** ** Emitter *)








(** ** What a round trip needs of an entry *)

Definition one_line (l : string) : Prop :=
  str_existsb (Ascii.eqb LF) l = false.





End text_processing.

(* ===================================================================== *)
(** * frames.py: the Preview and Shelves frames                            *)
(* ===================================================================== *)

Module frames.

Import configuration.
Import text_processing.

(** ** Widgets *)

(** A [QPushButton], as far as the frames use it. The toolkit's rules:
    a click toggles the check mark of a checkable button and then emits
    [clicked]; [setCheckable] with a new value leaves the button unchecked,
    with the present value it does nothing. *)
Record Button : Type := {
  flat : bool;
  checkable : bool;
  checked : bool
}.

Definition QPushButton : Button :=
  {| flat := false; checkable := false; checked := false |}.

Definition setFlat (v : bool) (b : Button) : Button :=
  {| flat := v; checkable := checkable b; checked := checked b |}.

Definition setCheckable (v : bool) (b : Button) : Button :=
  if Bool.eqb (checkable b) v then b
  else {| flat := flat b; checkable := v; checked := false |}.

Definition toggled (b : Button) : Button :=
  if checkable b
  then {| flat := flat b; checkable := true; checked := negb (checked b) |}
  else b.

(** [QMessageBox.Yes] and [QMessageBox.No]. *)
Inductive Reply : Type := Yes | No.

(** The arguments the frames pass to [search_folder_recursively]. *)
Inductive pyval : Type :=
| VLogger
| VStr (s : string)
| VBool (b : bool).

(** ** The application state the two frames share

    [info] is the one [Information] object every frame holds a reference
    to; [fs] is the disk. Then the attributes of [Preview], then those of
    [Shelves]. [dialogs] records the message boxes shown, oldest first;
    [refreshes] counts the calls of [Shelves.refresh]. *)
Record App : Type := {
  info : Information;
  fs : FS.node;
  website_root : string;
  temp_root : string;
  css : string;
  template : string;
  extracted_tags : od;
  filters : list string;
  remaining_tags : od;
  tagButtons : list (string * Button);
  web : option string;
  reply : Reply;
  saved_display_empty : option bool;
  dialogs : list string;
  refreshes : nat
}.

Definition with_info (f : Information -> Information) (a : App) : App :=
  {| info := f (info a); fs := fs a; website_root := website_root a;
     temp_root := temp_root a; css := css a; template := template a;
     extracted_tags := extracted_tags a; filters := filters a;
     remaining_tags := remaining_tags a; tagButtons := tagButtons a;
     web := web a; reply := reply a;
     saved_display_empty := saved_display_empty a; dialogs := dialogs a;
     refreshes := refreshes a |}.

Definition with_fs (x : FS.node) (a : App) : App :=
  {| info := info a; fs := x; website_root := website_root a;
     temp_root := temp_root a; css := css a; template := template a;
     extracted_tags := extracted_tags a; filters := filters a;
     remaining_tags := remaining_tags a; tagButtons := tagButtons a;
     web := web a; reply := reply a;
     saved_display_empty := saved_display_empty a; dialogs := dialogs a;
     refreshes := refreshes a |}.

Definition with_roots (w t : string) (a : App) : App :=
  {| info := info a; fs := fs a; website_root := w; temp_root := t;
     css := css a; template := template a;
     extracted_tags := extracted_tags a; filters := filters a;
     remaining_tags := remaining_tags a; tagButtons := tagButtons a;
     web := web a; reply := reply a;
     saved_display_empty := saved_display_empty a; dialogs := dialogs a;
     refreshes := refreshes a |}.

Definition with_extracted_tags (x : od) (a : App) : App :=
  {| info := info a; fs := fs a; website_root := website_root a;
     temp_root := temp_root a; css := css a; template := template a;
     extracted_tags := x; filters := filters a;
     remaining_tags := remaining_tags a; tagButtons := tagButtons a;
     web := web a; reply := reply a;
     saved_display_empty := saved_display_empty a; dialogs := dialogs a;
     refreshes := refreshes a |}.

Definition with_filters (x : list string) (a : App) : App :=
  {| info := info a; fs := fs a; website_root := website_root a;
     temp_root := temp_root a; css := css a; template := template a;
     extracted_tags := extracted_tags a; filters := x;
     remaining_tags := remaining_tags a; tagButtons := tagButtons a;
     web := web a; reply := reply a;
     saved_display_empty := saved_display_empty a; dialogs := dialogs a;
     refreshes := refreshes a |}.

Definition with_remaining_tags (x : od) (a : App) : App :=
  {| info := info a; fs := fs a; website_root := website_root a;
     temp_root := temp_root a; css := css a; template := template a;
     extracted_tags := extracted_tags a; filters := filters a;
     remaining_tags := x; tagButtons := tagButtons a;
     web := web a; reply := reply a;
     saved_display_empty := saved_display_empty a; dialogs := dialogs a;
     refreshes := refreshes a |}.

Definition with_tagButtons (x : list (string * Button)) (a : App) : App :=
  {| info := info a; fs := fs a; website_root := website_root a;
     temp_root := temp_root a; css := css a; template := template a;
     extracted_tags := extracted_tags a; filters := filters a;
     remaining_tags := remaining_tags a; tagButtons := x;
     web := web a; reply := reply a;
     saved_display_empty := saved_display_empty a; dialogs := dialogs a;
     refreshes := refreshes a |}.

Definition with_web (x : option string) (a : App) : App :=
  {| info := info a; fs := fs a; website_root := website_root a;
     temp_root := temp_root a; css := css a; template := template a;
     extracted_tags := extracted_tags a; filters := filters a;
     remaining_tags := remaining_tags a; tagButtons := tagButtons a;
     web := x; reply := reply a;
     saved_display_empty := saved_display_empty a; dialogs := dialogs a;
     refreshes := refreshes a |}.

Definition with_reply (x : Reply) (a : App) : App :=
  {| info := info a; fs := fs a; website_root := website_root a;
     temp_root := temp_root a; css := css a; template := template a;
     extracted_tags := extracted_tags a; filters := filters a;
     remaining_tags := remaining_tags a; tagButtons := tagButtons a;
     web := web a; reply := x;
     saved_display_empty := saved_display_empty a; dialogs := dialogs a;
     refreshes := refreshes a |}.

Definition with_saved_display_empty (x : option bool) (a : App) : App :=
  {| info := info a; fs := fs a; website_root := website_root a;
     temp_root := temp_root a; css := css a; template := template a;
     extracted_tags := extracted_tags a; filters := filters a;
     remaining_tags := remaining_tags a; tagButtons := tagButtons a;
     web := web a; reply := reply a;
     saved_display_empty := x; dialogs := dialogs a;
     refreshes := refreshes a |}.

Definition with_dialogs (x : list string) (a : App) : App :=
  {| info := info a; fs := fs a; website_root := website_root a;
     temp_root := temp_root a; css := css a; template := template a;
     extracted_tags := extracted_tags a; filters := filters a;
     remaining_tags := remaining_tags a; tagButtons := tagButtons a;
     web := web a; reply := reply a;
     saved_display_empty := saved_display_empty a; dialogs := x;
     refreshes := refreshes a |}.

Definition with_refreshes (x : nat) (a : App) : App :=
  {| info := info a; fs := fs a; website_root := website_root a;
     temp_root := temp_root a; css := css a; template := template a;
     extracted_tags := extracted_tags a; filters := filters a;
     remaining_tags := remaining_tags a; tagButtons := tagButtons a;
     web := web a; reply := reply a;
     saved_display_empty := saved_display_empty a; dialogs := dialogs a;
     refreshes := x |}.

(** Assignments to attributes of [info]. *)
Definition set_level (x : string) (i : Information) : Information :=
  {| root := root i; level := x; notebooks := notebooks i;
     folders := folders i; current_notebook := current_notebook i;
     display_empty := display_empty i; use_TOC := use_TOC i |}.

Definition set_listing (n f : list string) (i : Information) : Information :=
  {| root := root i; level := level i; notebooks := n; folders := f;
     current_notebook := current_notebook i;
     display_empty := display_empty i; use_TOC := use_TOC i |}.

Definition set_current_notebook (x : string) (i : Information)
  : Information :=
  {| root := root i; level := level i; notebooks := notebooks i;
     folders := folders i; current_notebook := x;
     display_empty := display_empty i; use_TOC := use_TOC i |}.

Definition set_display_empty (x : bool) (i : Information) : Information :=
  {| root := root i; level := level i; notebooks := notebooks i;
     folders := folders i; current_notebook := current_notebook i;
     display_empty := x; use_TOC := use_TOC i |}.

(** An action on the disk, run on the application. *)
Definition on_fs {A} (m : M FS.node A) : M App A :=
  fun a => let (r, x) := m (fs a) in (r, with_fs x a).

(** A message box is shown. *)
Definition show_dialog (text : string) : M App unit :=
  modify (fun a => with_dialogs (dialogs a ++ [text]) a).

Section WithCollaborators.

(** [constants.EXTENSION]. *)
Variable EXTENSION : string.

(** [tp.from_notes_to_markdown(path, input_tags=tags)]: it reads the
    notebook at [path] from the disk and returns the markdown lines with
    the remaining tags, or raises. *)
Variable from_notes_to_markdown :
  FS.node -> string -> list string -> result (list string * od).

(** The truth value of what [QMessageBox.exec_()] returns. *)
Variable popup_exec : bool.

(** [pa.convert(temp_path, 'html', encoding='utf-8', extra_args=...)],
    from the text of the file at [temp_path] and the extra arguments. *)
Variable pandoc : string -> list string -> result string.

(** ** class Preview *)

(** [if not os.path.isdir(path): os.mkdir(path)]. *)
Definition ensure_dir (path : string) : M App unit :=
  a <- get_state ;;
  if FS.isdir (fs a) path then ret tt else on_fs (FS.mkdir path).

(** [Preview.initLogic]. (The keyboard shortcut it installs is left out.) *)
Definition initLogic : M App unit :=
  a <- get_state ;;
  let w := FS.path_join (level (info a)) ".website" in
  let t := FS.path_join (level (info a)) ".temp" in
  modify (with_roots w t) ;;;
  ensure_dir w ;;;
  ensure_dir t ;;;
  modify (with_extracted_tags []) ;;;
  modify (with_filters []).

(** The loop of [Preview.initUI] over [self.extracted_tags]: one enabled,
    unchecked button per tag. *)
Definition new_tag_button : Button :=
  setCheckable true (setFlat false QPushButton).

(** [Preview.initUI]: a new web view, and the tag buttons. *)
Definition initUI : M App unit :=
  modify (with_web None) ;;;
  a <- get_state ;;
  modify (with_tagButtons
            (map (fun kv => (fst kv, new_tag_button)) (extracted_tags a))).

(** [CustomFrame.clearUI]: the widgets leave the layout; no attribute of
    the frame changes. *)
Definition clearUI : M App unit := ret tt.

Definition setWebpage (page : string) : M App unit :=
  modify (with_web (Some page)).

Definition NEWLINE : string := String LF EmptyString.

(** The [try] statement of [Preview.convert]: each handler shows a
    message box (with the traceback, or the message of the exception) and
    raises if the box returns a true value. [None] stands for the way out
    of a handler whose box returned a false value: [markdown] and
    [remaining_tags] are then unbound. *)
Definition try_from_notes_to_markdown (path : string) (tags : list string)
  : M App (option (list string * od)) :=
  try_except
    (a <- get_state ;;
     r <- lift (from_notes_to_markdown (fs a) path tags) ;;
     ret (Some r))
    (fun e => exn_eqb e IndexError || exn_eqb e UnboundLocalError
              || exn_eqb e ValueError)
    (fun e =>
       if exn_eqb e ValueError
       then show_dialog "Oups, you (probably) did a syntax error!" ;;;
            if popup_exec then raise SyntaxError else ret None
       else show_dialog
              "The conversion to markdown has unexpectedly failed!" ;;;
            if popup_exec then raise ValueError else ret None).

(** The text [Preview.convert] writes to the page: pandoc's output with
    the Windows line ends converted. *)
Definition page_text (html : string) : string := replace_crlf html.

(** [Preview.convert(path, tags)]. *)
Definition convert (path : string) (tags : list string)
  : M App (string * od) :=
  bound <- try_from_notes_to_markdown path tags ;;
  a <- get_state ;;
  let base0 := slice_to_minus (FS.basename path) (String.length EXTENSION) in
  let base := match tags with
              | [] => base0
              | _ :: _ => (base0 ++ "_" ++ join "_" tags)%string
              end in
  let temp_path := FS.path_join (temp_root a) (base ++ EXTENSION)%string in
  match bound with
  | None =>
      (* the file is opened, then ['\n'.join(markdown)] reads an unbound
         name *)
      on_fs (FS.write_file temp_path EmptyString) ;;;
      raise UnboundLocalError
  | Some (markdown, remaining) =>
      on_fs (FS.write_file temp_path (join NEWLINE markdown)) ;;;
      let extra_args :=
        ["--highlight-style"; "pygments"; "-s"; "-c"; css a;
         "--template"; template a]
          ++ (if use_TOC (info a) then ["--toc"] else []) in
      html <- lift (pandoc (join NEWLINE markdown) extra_args) ;;
      let url := FS.path_join (website_root a) (base ++ ".html")%string in
      on_fs (FS.write_file url (page_text html)) ;;;
      ret (url, remaining)
  end.

(** [Preview.loadNotebook(notebook)]. *)
Definition loadNotebook (notebook : string) : M App bool :=
  initLogic ;;;
  modify (with_info (set_current_notebook notebook)) ;;;
  a <- get_state ;;
  r <- try_except
         (x <- convert (FS.path_join (level (info a)) notebook) [] ;;
          ret (Some x))
         (fun e => exn_eqb e ValueError || exn_eqb e SyntaxError)
         (fun _ => ret None) ;;
  match r with
  | None => ret false
  | Some (url, tags) =>
      modify (with_extracted_tags tags) ;;;
      clearUI ;;;
      initUI ;;;
      setWebpage url ;;;
      ret true
  end.

Definition disableButton (button : Button) : Button :=
  setCheckable false (setFlat true button).

Definition enableButton (button : Button) : Button :=
  setCheckable true (setFlat false button).

(** The loop "Grey out not useful buttons" of [addFilter] and [reload]. *)
Definition grey_out (remaining : od) (buttons : list (string * Button))
  : list (string * Button) :=
  map (fun kb =>
         (fst kb,
          if od_mem (fst kb) remaining then enableButton (snd kb)
          else disableButton (snd kb)))
      buttons.

(** What [addFilter] and [reload] share: the conversion with the present
    filters, the buttons, the page. *)
Definition evaluate_filters : M App unit :=
  a <- get_state ;;
  r <- convert (FS.path_join (level (info a)) (current_notebook (info a)))
         (filters a) ;;
  modify (with_remaining_tags (snd r)) ;;;
  modify (fun a' => with_tagButtons (grey_out (snd r) (tagButtons a')) a') ;;;
  setWebpage (fst r).

(** [Preview.addFilter], run for the click of the button at position
    [sender] of [self.tagButtons], whose text is its tag. *)
Definition addFilter (sender : nat) : M App unit :=
  a <- get_state ;;
  match nth_error (tagButtons a) sender with
  | None => ret tt
  | Some (text, button) =>
      if negb (flat button) then
        (if checked button
         then modify (with_filters (filters a ++ [text]))
         else i <- lift (list_index text (filters a)) ;;
              p <- lift (list_pop i (filters a)) ;;
              modify (with_filters (snd p))) ;;;
        evaluate_filters
      else ret tt
  end.

(** [Preview.reload]. *)
Definition reload : M App unit := evaluate_filters.

(** The toolkit's part of a click on the button at position [i]: the
    check mark of a checkable button toggles, then [clicked] reaches
    [addFilter]. *)
Fixpoint toggle_at (i : nat) (buttons : list (string * Button))
  : list (string * Button) :=
  match buttons, i with
  | [], _ => []
  | (key, b) :: r, O => (key, toggled b) :: r
  | kb :: r, S j => kb :: toggle_at j r
  end.

Definition click (i : nat) : M App unit :=
  modify (fun a => with_tagButtons (toggle_at i (tagButtons a)) a) ;;;
  addFilter i.

(** ** class Shelves *)

(** [Shelves.refresh]: the frame is redrawn and [refreshSignal] fires. *)
Definition refresh : M App unit :=
  modify (fun a => with_refreshes (S (refreshes a)) a).

(** The text [createNotebook] writes for the name [desired_name]. *)
Definition initial_content (desired_name : string) : string :=
  let clean_name := fst (FS.splitext desired_name) in
  (capitalize clean_name ++ NEWLINE
     ++ str_repeat "="%char (String.length clean_name)
     ++ NEWLINE ++ NEWLINE)%string.

(** [Shelves.createNotebook]. [NewNotebook] is the dialog: it may change
    [info] (it appends the chosen name to [info.notebooks]) and tells
    whether it was accepted. *)
Definition createNotebook (NewNotebook : Information -> bool * Information)
  : M App unit :=
  a <- get_state ;;
  let (ok, info') := NewNotebook (info a) in
  modify (with_info (fun _ => info')) ;;;
  if ok then
    desired_name <- lift (last_item (notebooks info')) ;;
    on_fs (FS.write_file (FS.path_join (level info') desired_name)
             (initial_content desired_name)) ;;;
    refresh
  else ret tt.

(** A call [search_folder_recursively(a1, ..., an)] from the frames. *)
Definition call_search_folder_recursively (args : list pyval)
  : M FS.node (list string * list string) :=
  match bind_positional search_folder_recursively_params args with
  | Raise e => raise e
  | Ok [(_, _); (_, VStr main)] => search_folder_recursively EXTENSION main
  | Ok _ => raise TypeError
  end.

(** [self.info.notebooks, self.info.folders = search_folder_recursively(
    self.log, folder_path, self.info.display_empty)]. *)
Definition read_folder (folder_path : string) : M App unit :=
  a <- get_state ;;
  r <- on_fs (call_search_folder_recursively
                [VLogger; VStr folder_path;
                 VBool (display_empty (info a))]) ;;
  modify (with_info (set_listing (fst r) (snd r))).

(** [Shelves.createFolder], with the dialog [NewFolder]. *)
Definition createFolder (NewFolder : Information -> bool * Information)
  : M App unit :=
  a <- get_state ;;
  let (ok, info') := NewFolder (info a) in
  modify (with_info (fun _ => info')) ;;;
  if ok then
    folder_name <- lift (last_item (folders info')) ;;
    try_except
      (on_fs (FS.mkdir (FS.path_join (level info') folder_name)))
      (fun e => exn_eqb e OSError)
      (fun _ => ret tt) ;;;
    let folder_path := FS.path_join (root info') folder_name in
    read_folder folder_path ;;;
    modify (with_info (set_level folder_path)) ;;;
    refresh
  else ret tt.

(** [Shelves.toggleDisplayEmpty]. *)
Definition toggleDisplayEmpty : M App unit :=
  modify (with_info
            (fun i => set_display_empty (negb (display_empty i)) i)) ;;;
  a <- get_state ;;
  read_folder (level (info a)) ;;;
  a' <- get_state ;;
  modify (with_saved_display_empty (Some (display_empty (info a')))) ;;;
  refresh.

(** [Shelves.folderClicked], for the folder button labelled [label]. *)
Definition folderClicked (label : string) : M App unit :=
  a <- get_state ;;
  let folder_path := FS.path_join (root (info a)) label in
  read_folder folder_path ;;;
  modify (with_info (set_level folder_path)) ;;;
  refresh.

(** [Shelves.upFolder]. *)
Definition upFolder : M App unit :=
  a <- get_state ;;
  let folder_path := FS.dirname (level (info a)) in
  read_folder folder_path ;;;
  modify (with_info (set_level folder_path)) ;;;
  refresh.

(** [Shelves.removeNotebook(notebook)]; [answer] is what the user replies
    when the question is asked. *)
Definition removeNotebook (answer : Reply) (notebook : string)
  : M App unit :=
  a <- get_state ;;
  let path := FS.path_join (level (info a)) (notebook ++ EXTENSION)%string in
  size <- lift (FS.st_size (fs a) path) ;;
  (if negb (size =? 0)%nat
   then show_dialog ("Are you sure you want to delete " ++ notebook ++ "?")
        ;;; modify (with_reply answer)
   else modify (with_reply Yes)) ;;;
  a1 <- get_state ;;
  match reply a1 with
  | Yes =>
      on_fs (FS.remove path) ;;;
      index <- lift (list_index (notebook ++ EXTENSION)%string
                       (notebooks (info a1))) ;;
      p <- lift (list_pop index (notebooks (info a1))) ;;
      modify (with_info (fun i => set_listing (snd p) (folders i) i)) ;;;
      refresh
  | No => ret tt
  end.

(** [all(os.path.isdir(e) and e[0] == '.' for e in os.listdir(path))],
    over the names [os.listdir] returned. [os.path.isdir] is given the bare
    name [e], which the system reads from the working directory [cwd]. The
    first name that fails the test ends the loop. *)
Fixpoint all_hidden_folders (cwd : string) (fs : FS.node)
  (names : list string) : result bool :=
  match names with
  | [] => Ok true
  | e :: rest =>
      if FS.isdir fs (FS.path_join cwd e) then
        match e with
        | EmptyString => Raise IndexError
        | String c _ =>
            if Ascii.eqb c "."%char then all_hidden_folders cwd fs rest
            else Ok false
        end
      else Ok false
  end.

(** [Shelves.removeFolder(folder)]; [cwd] is the working directory of the
    application and [answer] is what the user replies when the question is
    asked. *)
Definition removeFolder (cwd : string) (answer : Reply) (folder : string)
  : M App unit :=
  a <- get_state ;;
  let path := FS.path_join (level (info a)) folder in
  names <- lift (FS.listdir (fs a) path) ;;
  empty <- lift (all_hidden_folders cwd (fs a) names) ;;
  (if negb empty
   then show_dialog (folder ++ " still contains notebooks, "
                       ++ "are you sure you want to delete it?")
        ;;; modify (with_reply answer)
   else modify (with_reply Yes)) ;;;
  a1 <- get_state ;;
  match reply a1 with
  | Yes =>
      on_fs (FS.rmtree path) ;;;
      index <- lift (list_index path (folders (info a1))) ;;
      p <- lift (list_pop index (folders (info a1))) ;;
      modify (with_info (fun i => set_listing (notebooks i) (snd p) i)) ;;;
      refresh
  | No => ret tt
  end.

(** The buttons [Shelves.createLines] puts on the shelves: its label and
    its kind for every notebook, then for every folder. *)
Definition createLines (i : Information) : list (string * string) :=
  map (fun notebook => (fst (FS.splitext notebook), "notebook"))
      (notebooks i)
    ++ map (fun folder => (FS.basename folder, "folder")) (folders i).

(** [Shelves.previewNotebook(notebook)]: the path [previewSignal] is
    emitted with. *)
Definition previewNotebook (i : Information) (notebook : string) : string :=
  FS.path_join (level i) (notebook ++ EXTENSION)%string.

End WithCollaborators.

(** A click together with what the collaborators do while it is handled:
    the notebook is read again at every conversion. *)
Record Event : Type := {
  ev_button : nat;
  ev_from_notes_to_markdown :
    FS.node -> string -> list string -> result (list string * od);
  ev_popup_exec : bool;
  ev_pandoc : string -> list string -> result string
}.

(** The event loop: every click is handled in turn; an exception that
    leaves a slot is reported and the loop goes on. *)
Fixpoint run_clicks (EXTENSION : string) (events : list Event) (a : App)
  : App :=
  match events with
  | [] => a
  | e :: r =>
      run_clicks EXTENSION r
        (snd (click EXTENSION (ev_from_notes_to_markdown e)
                (ev_popup_exec e) (ev_pandoc e) (ev_button e) a))
  end.

(** ** What the claims about the tag buttons speak of *)


(** Only the disk and the list of dialogs shown differ. *)
Definition same_widgets (a a' : App) : Prop :=
  info a' = info a /\ filters a' = filters a /\
  tagButtons a' = tagButtons a /\ remaining_tags a' = remaining_tags a /\
  web a' = web a /\ extracted_tags a' = extracted_tags a.

(** The path [addFilter] and [reload] convert. *)
Definition notebook_path (a : App) : string :=
  FS.path_join (level (info a)) (current_notebook (info a)).

(** Every button is enabled when its tag is a key of [remaining], and
    disabled when it is not. *)
Definition greyed_by (remaining : od) (buttons : list (string * Button))
  : Prop :=
  forall key b, In (key, b) buttons ->
    (od_mem key remaining = true -> flat b = false /\ checkable b = true) /\
    (od_mem key remaining = false -> flat b = true /\ checkable b = false).

(** Some tag button labelled [key] is checked. *)
Definition label_checked (buttons : list (string * Button)) (key : string)
  : Prop :=
  exists b, In (key, b) buttons /\ checked b = true.

(** The filter list behaves as the set of the checked labels. *)
Definition filters_match_buttons (a : App) : Prop :=
  NoDup (filters a) /\
  forall key, In key (filters a) <-> label_checked (tagButtons a) key.

(** The Preview as [loadNotebook] leaves it: no filter, and one new
    button per key of an ordered dictionary. *)
Definition fresh_preview (a : App) : Prop :=
  filters a = [] /\
  NoDup (map fst (tagButtons a)) /\
  Forall (fun kb => snd kb = new_tag_button) (tagButtons a).

(** What holds of the buttons and the filter list between two clicks: the
    labels are distinct, the filter list has no repetition and holds the
    labels of the checked buttons, and a button is flat exactly when it is
    not checkable, in which case it is unchecked. *)
Definition buttons_ok (buttons : list (string * Button))
  (selected : list string) : Prop :=
  NoDup (map fst buttons) /\ NoDup selected /\
  (forall key b, In (key, b) buttons ->
     (checked b = true <-> In key selected) /\
     flat b = negb (checkable b) /\
     (checkable b = false -> checked b = false)) /\
  (forall key, In key selected -> In key (map fst buttons)).

(** The filter list a click on the button at position [i] leads to, and
    whether the click leads to a conversion at all. *)
Definition click_converts (i : nat) (a : App) : bool :=
  match nth_error (tagButtons a) i with
  | None => false
  | Some (_, b) => negb (flat b)
  end.

Definition selected_after_click (i : nat) (a : App) : list string :=
  match nth_error (tagButtons a) i with
  | None => filters a
  | Some (text, b) =>
      if flat b then filters a
      else if checked (toggled b) then filters a ++ [text]
           else remove_first text (filters a)
  end.

(** The conversion an event leads to, if it returns, names every selected
    tag among the remaining ones: no checked button is greyed out. *)
Definition conversion_keeps_selection (e : Event) (a : App) : Prop :=
  click_converts (ev_button e) a = true ->
  forall markdown remaining,
    ev_from_notes_to_markdown e (fs a) (notebook_path a)
      (selected_after_click (ev_button e) a) = Ok (markdown, remaining) ->
    forall x, In x (selected_after_click (ev_button e) a) ->
              od_mem x remaining = true.

Fixpoint conversions_keep_selection (EXTENSION : string)
  (events : list Event) (a : App) : Prop :=
  match events with
  | [] => True
  | e :: r =>
      conversion_keeps_selection e a /\
      conversions_keep_selection EXTENSION r
        (snd (click EXTENSION (ev_from_notes_to_markdown e)
                (ev_popup_exec e) (ev_pandoc e) (ev_button e) a))
  end.

End frames.

(* ===================================================================== *)
(** * frames.py: the tabs of the Editing frame                             *)
(* ===================================================================== *)

Module Editing.

Import configuration.

(** The [QTabWidget] of the frame, as far as [switchNotebook] and
    [preview] use it: the number of tabs and the index of the current one,
    which is -1 while there is no tab. The toolkit's rules: the first tab
    added becomes the current one, and [setCurrentIndex] with an index that
    names no tab does nothing. *)
Record QTabWidget : Type := {
  count : nat;
  currentIndex : Z
}.

Definition new_QTabWidget : QTabWidget := {| count := 0; currentIndex := -1 |}.

Definition addTab (t : QTabWidget) : QTabWidget :=
  {| count := S (count t);
     currentIndex := match count t with O => 0%Z | S _ => currentIndex t end |}.

Definition setCurrentIndex (i : Z) (t : QTabWidget) : QTabWidget :=
  if ((0 <=? i) && (i <? Z.of_nat (count t)))%Z
  then {| count := count t; currentIndex := i |}
  else t.

(** The tab widget [Editing.initUI] has built when it returns: one tab per
    notebook of the current folder. (The editors in the tabs, which read
    the notebooks from the disk, are left out.) *)
Definition initUI_tabs (i : Information) : QTabWidget :=
  fold_left (fun t _ => addTab t) (notebooks i) new_QTabWidget.

Section WithExtension.

Variable EXTENSION : string.

(** [Editing.switchNotebook(notebook)]. *)
Definition switchNotebook (i : Information) (notebook : string)
  (tabs : QTabWidget) : result QTabWidget :=
  match list_index (notebook ++ EXTENSION)%string (notebooks i) with
  | Ok index => Ok (setCurrentIndex (Z.of_nat index) tabs)
  | Raise e => Raise e
  end.

End WithExtension.

(** [Editing.preview]: the notebook the signal [loadNotebook] is emitted
    with. *)
Definition preview (i : Information) (tabs : QTabWidget) : result string :=
  list_get (notebooks i) (currentIndex tabs).

End Editing.

(* ===================================================================== *)
(** * Concrete states for the examples                                     *)
(* ===================================================================== *)

Module examples.

(** A notes folder with two files whose name contains [.md], a folder
    with a notebook, a hidden folder, and a folder whose only notebook
    lies one level deeper. *)
Definition notes_listing : list (string * FS.node) :=
  [("a.md.bak", FS.File "x");
   ("b.md", FS.File "");
   ("sub", FS.Dir [("c.md", FS.File "")]);
   (".hid", FS.Dir [("d.md", FS.File "")]);
   ("outer", FS.Dir [("deep", FS.Dir [("e.md", FS.File "")])])].

Definition example_disk : FS.node :=
  FS.Dir [("home", FS.Dir [("notes", FS.Dir notes_listing)])].




(** The notebook of the specification's scenario. *)
Definition todo_text : string :=
  join (String LF EmptyString)
    ["My Notebook"; "==========="; "";
     "First Entry"; "-----------"; "Tags: work, urgent"; "";
     "Finish the report."; "";
     "Second Entry"; "------------"; "Tags: personal"; "";
     "Buy groceries."; ""].

Definition shelf_disk : FS.node :=
  FS.Dir
    [("home",
      FS.Dir
        [("notes",
          FS.Dir
            [("todo.md", FS.File todo_text);
             ("empty.md", FS.File "");
             (".website", FS.Dir []);
             (".temp", FS.Dir [])])])].

Definition shelf_info : configuration.Information :=
  {| configuration.root := "/home/notes";
     configuration.level := "/home/notes";
     configuration.notebooks := ["todo.md"; "empty.md"];
     configuration.folders := [];
     configuration.current_notebook := "todo.md";
     configuration.display_empty := false;
     configuration.use_TOC := false |}.

(** The application after [todo.md] was loaded in the Preview. *)
Definition shelf_app : frames.App :=
  {| frames.info := shelf_info;
     frames.fs := shelf_disk;
     frames.website_root := "/home/notes/.website";
     frames.temp_root := "/home/notes/.temp";
     frames.css := "bootstrap.css";
     frames.template := "bootstrap-blog.html";
     frames.extracted_tags := [("work", 1); ("urgent", 1); ("personal", 1)];
     frames.filters := [];
     frames.remaining_tags := [];
     frames.tagButtons :=
       [("work", frames.new_tag_button);
        ("urgent", frames.new_tag_button);
        ("personal", frames.new_tag_button)];
     frames.web := Some "/home/notes/.website/todo.html";
     frames.reply := frames.No;
     frames.saved_display_empty := None;
     frames.dialogs := [];
     frames.refreshes := 0 |}.

(** The Library on the notes folder of [example_disk], as a scan of it
    leaves [info]; and the same with a list of notebooks that does not name
    the files of the folder. *)
Definition library_info : configuration.Information :=
  {| configuration.root := "/home/notes";
     configuration.level := "/home/notes";
     configuration.notebooks := ["a.md.bak"; "b.md"];
     configuration.folders := ["/home/notes/sub"];
     configuration.current_notebook := "";
     configuration.display_empty := false;
     configuration.use_TOC := false |}.

Definition library_app : frames.App :=
  frames.with_fs example_disk
    (frames.with_info (fun _ => library_info) shelf_app).

Definition stale_app : frames.App :=
  frames.with_info (frames.set_listing [] []) library_app.

(** Collaborators: a converter that returns given lines and tags, one
    that raises, and a document converter that wraps the text it is
    given. *)
Definition converter_returning (markdown : list string)
  (remaining : text_processing.od)
  : FS.node -> string -> list string
    -> result (list string * text_processing.od) :=
  fun _ _ _ => Ok (markdown, remaining).

Definition converter_raising (e : exn)
  : FS.node -> string -> list string
    -> result (list string * text_processing.od) :=
  fun _ _ _ => Raise e.

Definition wrapping_pandoc : string -> list string -> result string :=
  fun text _ => Ok ("<p>" ++ text ++ "</p>")%string.

(** The dialogs: the user names a notebook or a folder and accepts. *)
Definition accept_notebook (name : string)
  : configuration.Information -> bool * configuration.Information :=
  fun i =>
    (true,
     frames.set_listing (configuration.notebooks i ++ [name])
       (configuration.folders i) i).

Definition accept_folder (name : string)
  : configuration.Information -> bool * configuration.Information :=
  fun i =>
    (true,
     frames.set_listing (configuration.notebooks i)
       (configuration.folders i ++ [name]) i).

(** A click on the button at position [i], answered by a converter that
    returns the tags [remaining]. *)
Definition click_answered (i : nat) (remaining : text_processing.od)
  : frames.Event :=
  {| frames.ev_button := i;
     frames.ev_from_notes_to_markdown := converter_returning ["x"] remaining;
     frames.ev_popup_exec := true;
     frames.ev_pandoc := wrapping_pandoc |}.

End examples.

(* ===================================================================== *)
(** * Properties                                                           *)
(* ===================================================================== *)

Import configuration.
Import text_processing.
Import frames.
Import examples.

(** ** Running a computation *)


Lemma bind_raise {S A B} (m : M S A) (f : A -> M S B) s e s' :
  m s = (Raise e, s') -> bind m f s = (Raise e, s').
Proof. intros H. unfold bind. now rewrite H. Qed.


(** ** Strings *)













Lemma substring_full s : substring 0 (String.length s) s = s.
Proof. induction s as [|c r IH]; simpl; auto. now rewrite IH. Qed.


Lemma append_empty_r s : (s ++ "")%string = s.
Proof. induction s as [|c r IH]; simpl; auto. now rewrite IH. Qed.

Lemma append_assoc s t u : ((s ++ t) ++ u)%string = (s ++ (t ++ u))%string.
Proof. induction s as [|c r IH]; simpl; auto. now rewrite IH. Qed.

(** [split('\n')] undoes a join of lines that hold no line feed. *)
Lemma split_lines_one_line l : one_line l -> split_lines l = [l].
Proof.
  unfold one_line. induction l as [|c r IH]; auto.
  cbn [str_existsb split_lines]. rewrite (Ascii.eqb_sym c LF).
  intros H. apply orb_false_iff in H as [-> H]. now rewrite IH.
Qed.

Lemma split_lines_app l rest :
  one_line l ->
  split_lines (l ++ String LF rest) = l :: split_lines rest.
Proof.
  unfold one_line. induction l as [|c r IH].
  - intros _. cbn [append split_lines]. now rewrite Ascii.eqb_refl.
  - cbn [str_existsb append split_lines]. rewrite (Ascii.eqb_sym c LF).
    intros H. apply orb_false_iff in H as [-> H]. now rewrite IH.
Qed.

Lemma split_lines_join ls :
  ls <> [] -> Forall one_line ls ->
  split_lines (join (String LF EmptyString) ls) = ls.
Proof.
  unfold join. induction ls as [|l r IH]; intros Hne Hall; [congruence|].
  inversion Hall as [|? ? Hl Hr]; subst.
  destruct r as [|l' r'].
  - simpl. now apply split_lines_one_line.
  - change (String.concat (String LF "") (l :: l' :: r'))
      with (l ++ String LF (String.concat (String LF "") (l' :: r')))%string.
    rewrite split_lines_app; auto. f_equal. apply IH; auto. discriminate.
Qed.



(** ** Lists *)

Lemma index_then_pop x l :
  In x l ->
  exists i, list_index x l = Ok i /\
            list_pop i l = Ok (x, remove_first x l).
Proof.
  induction l as [|y r IH]; intros Hin; [contradiction|].
  simpl. destruct (String.eqb_spec y x) as [->|Hne].
  - exists 0. auto.
  - destruct Hin as [Heq|Hin]; [congruence|].
    destruct (IH Hin) as [i [H1 H2]]. exists (S i).
    rewrite H1. simpl. now rewrite H2.
Qed.

Lemma remove_first_NoDup x l : NoDup l -> ~ In x (remove_first x l).
Proof.
  induction l as [|y r IH]; intros Hn; [auto|].
  inversion Hn; subst. simpl.
  destruct (String.eqb_spec y x) as [->|Hne]; [assumption|].
  intros [H|H]; [congruence | now apply IH].
Qed.

Lemma remove_first_In x l k :
  NoDup l -> (In k (remove_first x l) <-> In k l /\ k <> x).
Proof.
  induction l as [|y r IH]; intros Hnd; simpl.
  - tauto.
  - inversion Hnd as [|? ? Hnotin Hnd']; subst.
    destruct (String.eqb_spec y x) as [->|Hne].
    + split.
      * intros H. split; auto. intros ->. contradiction.
      * intros [[H|H] Hk]; [congruence | auto].
    + simpl. rewrite (IH Hnd'). split.
      * intros [->|[H Hk]]; auto.
      * intros [[->|H] Hk]; auto.
Qed.

Lemma remove_first_NoDup_kept x l : NoDup l -> NoDup (remove_first x l).
Proof.
  induction l as [|y r IH]; intros Hnd; simpl; auto.
  inversion Hnd as [|? ? Hnotin Hnd']; subst.
  destruct (String.eqb y x); auto.
  constructor; auto. rewrite (remove_first_In x r y Hnd'). tauto.
Qed.

Lemma list_index_absent x : forall l,
  ~ In x l -> list_index x l = Raise ValueError.
Proof.
  induction l as [|y r IH]; intros H; [reflexivity|].
  cbn [list_index In] in *.
  destruct (String.eqb_spec y x) as [->|Hne]; [tauto|].
  rewrite IH; tauto.
Qed.

Lemma list_index_nth x : forall l i,
  list_index x l = Ok i -> nth_error l i = Some x /\ i < length l.
Proof.
  induction l as [|y r IH]; intros i H; [discriminate|].
  cbn [list_index] in H. destruct (String.eqb_spec y x) as [->|Hne].
  - injection H as <-. cbn. split; [reflexivity | lia].
  - destruct (list_index x r) as [j|e]; [|discriminate].
    injection H as <-. destruct (IH j eq_refl). cbn. split; [assumption|lia].
Qed.


(** ** The file system *)

(** Induction over a tree: a property of a directory may use the property
    of every node listed in it. *)
Lemma node_induction (P : FS.node -> Prop) :
  (forall c, P (FS.File c)) ->
  P FS.Special ->
  (forall es, Forall (fun e => P (snd e)) es -> P (FS.Dir es)) ->
  forall n, P n.
Proof.
  intros HF HS HD. fix IH 1. intros [c|es|].
  - apply HF.
  - apply HD. induction es as [|[name c] r IHr]; constructor.
    + apply IH.
    + exact IHr.
  - exact HS.
Qed.

Lemma entry_named_set_entry name x es :
  FS.entry_named name (FS.set_entry name x es) = Some x.
Proof.
  induction es as [|[n y] r IH]; simpl.
  - now rewrite String.eqb_refl.
  - destruct (String.eqb n name) eqn:E; simpl; rewrite E; auto.
Qed.

Lemma entry_named_del_entry name es :
  FS.entry_named name (FS.del_entry name es) = None.
Proof.
  induction es as [|[n y] r IH]; simpl; auto.
  destruct (String.eqb n name) eqn:E; simpl; try rewrite E; auto.
Qed.

Lemma entry_named_app_new name x es :
  FS.entry_named name es = None ->
  FS.entry_named name (es ++ [(name, x)]) = Some x.
Proof.
  induction es as [|[n y] r IH]; simpl; intros H.
  - now rewrite String.eqb_refl.
  - destruct (String.eqb n name); [discriminate | auto].
Qed.

(** When [in_dir f] goes through, [cs] named a directory that [f]
    accepted, and names the directory [f] returned afterwards. *)
Lemma in_dir_inv f cs : forall n n',
  FS.in_dir f n cs = Some n' ->
  exists es es',
    FS.walk n cs = Some (FS.Dir es) /\ f es = Some es' /\
    FS.walk n' cs = Some (FS.Dir es').
Proof.
  induction cs as [|c r IH]; intros n n' Hi.
  - destruct n as [?|ds|]; simpl in Hi; try discriminate.
    destruct (f ds) as [ds'|] eqn:E; simpl in Hi; try discriminate.
    injection Hi as <-. exists ds, ds'. auto.
  - destruct n as [?|ds|]; simpl in Hi; try discriminate.
    destruct (FS.entry_named c ds) as [x|] eqn:E; try discriminate.
    destruct (FS.in_dir f x r) as [x'|] eqn:E'; try discriminate.
    injection Hi as <-. destruct (IH _ _ E') as [es [es' [H1 [H2 H3]]]].
    exists es, es'. simpl. rewrite E, entry_named_set_entry. auto.
Qed.

(** [in_dir f] goes through as soon as [cs] names a directory that [f]
    accepts. *)
Lemma in_dir_defined f cs : forall n es es',
  FS.walk n cs = Some (FS.Dir es) ->
  f es = Some es' ->
  exists n', FS.in_dir f n cs = Some n'.
Proof.
  induction cs as [|c r IH]; intros n es es' Hw Hf.
  - simpl in Hw. injection Hw as ->. simpl. rewrite Hf. simpl. eauto.
  - destruct n as [?|ds|]; simpl in Hw; try discriminate.
    simpl. destruct (FS.entry_named c ds) as [x|] eqn:E; try discriminate.
    destruct (IH _ _ _ Hw Hf) as [x' ->]. eauto.
Qed.

Lemma walk_app cs name : forall n es,
  FS.walk n cs = Some (FS.Dir es) ->
  FS.walk n (cs ++ [name]) = FS.entry_named name es.
Proof.
  induction cs as [|c r IH]; intros n es Hw.
  - simpl in Hw. injection Hw as ->. simpl.
    now destruct (FS.entry_named name es).
  - destruct n as [?|ds|]; simpl in Hw |- *; try discriminate.
    destruct (FS.entry_named c ds); [auto | discriminate].
Qed.

Lemma walk_app_inv cs name : forall n x,
  FS.walk n (cs ++ [name]) = Some x ->
  exists es, FS.walk n cs = Some (FS.Dir es) /\
             FS.entry_named name es = Some x.
Proof.
  induction cs as [|c r IH]; intros n x Hw.
  - destruct n as [?|ds|]; simpl in Hw; try discriminate.
    exists ds. split; auto.
    destruct (FS.entry_named name ds); [exact Hw | discriminate].
  - destruct n as [?|ds|]; simpl in Hw |- *; try discriminate.
    destruct (FS.entry_named c ds); [auto | discriminate].
Qed.

Lemma components_parent p parent name :
  FS.parent_and_name p = Some (parent, name) ->
  FS.components p = parent ++ [name].
Proof.
  unfold FS.parent_and_name. intros H.
  destruct (rev (FS.components p)) as [|x l] eqn:E; try discriminate.
  injection H as <- <-.
  rewrite <- (rev_involutive (FS.components p)), E. reflexivity.
Qed.

(** [os.mkdir] of a missing name in an existing directory creates an
    empty directory there. *)
Lemma mkdir_creates p parent name es fs :
  FS.parent_and_name p = Some (parent, name) ->
  FS.walk fs parent = Some (FS.Dir es) ->
  FS.lookup fs p = None ->
  exists fs', FS.mkdir p fs = (Ok tt, fs') /\
              FS.lookup fs' p = Some (FS.Dir []).
Proof.
  intros Hp Hw Hl. unfold FS.mkdir. rewrite Hp.
  pose proof (components_parent _ _ _ Hp) as Hc.
  unfold FS.lookup in *. rewrite Hc in *.
  rewrite (walk_app _ _ _ _ Hw) in Hl.
  set (f := fun es0 : list (string * FS.node) =>
              match FS.entry_named name es0 with
              | Some _ => None
              | None => Some (es0 ++ [(name, FS.Dir [])])
              end).
  assert (Hf : f es = Some (es ++ [(name, FS.Dir [])])).
  { unfold f. now rewrite Hl. }
  destruct (in_dir_defined f parent fs es _ Hw Hf) as [fs' Hi].
  rewrite Hi. exists fs'. split; auto.
  destruct (in_dir_inv f parent fs fs' Hi) as [es0 [es' [H1 [H2 H3]]]].
  rewrite Hw in H1. injection H1 as <-. rewrite Hf in H2. injection H2 as <-.
  rewrite (walk_app _ _ _ _ H3).
  now apply entry_named_app_new.
Qed.

Lemma mkdir_raises_OSError p fs e fs' :
  FS.mkdir p fs = (Raise e, fs') -> e = OSError.
Proof.
  unfold FS.mkdir. destruct (FS.parent_and_name p) as [[parent name]|].
  - destruct (FS.in_dir _ fs parent); intros H; [discriminate|].
    now injection H as <- _.
  - intros H. now injection H as <- _.
Qed.

Lemma write_file_lookup p text fs fs' :
  FS.write_file p text fs = (Ok tt, fs') ->
  FS.lookup fs' p = Some (FS.File text).
Proof.
  unfold FS.write_file.
  destruct (FS.parent_and_name p) as [[parent name]|] eqn:Hp;
    [|discriminate].
  destruct (FS.in_dir _ fs parent) as [x|] eqn:Hi; [|discriminate].
  intros H. injection H as <-.
  destruct (in_dir_inv _ parent fs x Hi) as [es [es' [H1 [H2 H3]]]].
  unfold FS.lookup. rewrite (components_parent _ _ _ Hp).
  rewrite (walk_app _ _ _ _ H3).
  destruct (FS.entry_named name es) as [[?|?|]|]; try discriminate;
    injection H2 as <-; apply entry_named_set_entry.
Qed.

(** [os.remove] of a regular file succeeds and leaves no entry of that
    name. *)
Lemma remove_file p content fs :
  FS.isdir fs "/" = true ->
  FS.lookup fs p = Some (FS.File content) ->
  exists fs', FS.remove p fs = (Ok tt, fs') /\ FS.lookup fs' p = None.
Proof.
  intros Hroot Hl. unfold FS.remove.
  destruct (FS.parent_and_name p) as [[parent name]|] eqn:Hp.
  - pose proof (components_parent _ _ _ Hp) as Hc.
    unfold FS.lookup in *. rewrite Hc in *.
    destruct (walk_app_inv _ _ _ _ Hl) as [es [Hw He]].
    set (f := fun es0 : list (string * FS.node) =>
                match FS.entry_named name es0 with
                | Some (FS.Dir _) | None => None
                | Some _ => Some (FS.del_entry name es0)
                end).
    assert (Hf : f es = Some (FS.del_entry name es)).
    { unfold f. now rewrite He. }
    destruct (in_dir_defined f parent fs es _ Hw Hf) as [fs' Hi].
    rewrite Hi. exists fs'. split; auto.
    destruct (in_dir_inv f parent fs fs' Hi) as [es0 [es' [H1 [H2 H3]]]].
    rewrite Hw in H1. injection H1 as <-. rewrite Hf in H2.
    injection H2 as <-.
    rewrite (walk_app _ _ _ _ H3). apply entry_named_del_entry.
  - unfold FS.parent_and_name in Hp. unfold FS.lookup, FS.isdir in *.
    destruct (rev (FS.components p)) eqn:E; try discriminate.
    apply (f_equal (@rev string)) in E. rewrite rev_involutive in E.
    simpl in E. rewrite E in Hl. simpl in Hl. injection Hl as ->.
    discriminate.
Qed.


(** ** Paths *)

(** A separator ends the piece being read. *)
Lemma fields_from_sep sep c t : forall s cur,
  sep c = true ->
  fields_from sep cur (s ++ String c t)
  = fields_from sep cur s ++ fields_from sep EmptyString t.
Proof.
  induction s as [|d r IH]; intros cur Hc.
  - cbn [append fields_from]. rewrite Hc. now destruct cur.
  - cbn [append fields_from]. destruct (sep d).
    + destruct cur; cbn [app]; now rewrite IH.
    + now apply IH.
Qed.

(** A text without separator is one piece, or none when it is empty. *)
Lemma fields_from_no_sep sep : forall s cur,
  str_existsb sep s = false ->
  fields_from sep cur s
  = match (cur ++ s)%string with EmptyString => [] | p => [p] end.
Proof.
  induction s as [|d r IH]; intros cur H.
  - cbn [fields_from]. rewrite append_empty_r. now destruct cur.
  - cbn [str_existsb] in H. apply orb_false_iff in H as [Hd Hr].
    cbn [fields_from]. rewrite Hd. rewrite IH; auto.
    now rewrite append_assoc.
Qed.

(** A text with a character that is no separator has a component. *)
Lemma fields_from_some sep : forall s cur,
  str_forallb sep s = false -> fields_from sep cur s <> [].
Proof.
  induction s as [|c r IH]; intros cur H; [discriminate|].
  cbn [str_forallb fields_from] in *. destruct (sep c) eqn:Hc.
  - cbn [andb] in H. destruct cur; [now apply IH|discriminate].
  - clear H. clear IH. revert cur.
    assert (G : forall s cur, cur <> EmptyString ->
                  fields_from sep cur s <> []).
    { clear. induction s as [|c r IH]; intros cur Hne.
      - cbn [fields_from]. destruct cur; [congruence|discriminate].
      - cbn [fields_from]. destruct (sep c).
        + destruct cur; [congruence|discriminate].
        + apply IH. destruct cur; discriminate. }
    intros cur. apply G. destruct cur; discriminate.
Qed.

Lemma str_forallb_app_r p s t :
  str_forallb p t = false -> str_forallb p (s ++ t) = false.
Proof.
  intros H. induction s as [|c r IH]; cbn [append str_forallb]; auto.
  rewrite IH. apply andb_false_r.
Qed.

Lemma endswith_sep a :
  endswith a "/" = true -> exists a', a = (a' ++ "/")%string.
Proof.
  unfold endswith. cbn [String.length].
  induction a as [|c r IH]; [discriminate|].
  destruct r as [|d r'].
  - cbn. destruct (Ascii.eqb_spec c "/"); [|discriminate].
    subst c. intros _. now exists EmptyString.
  - intros H. destruct IH as [a' Ha'].
    + cbn [String.length] in *.
      replace (S (S (String.length r')) - 1) with (S (String.length r'))
        in H by lia.
      replace (S (String.length r') - 1) with (String.length r') by lia.
      apply andb_true_iff in H as [_ H]. cbn [substring] in H.
      apply andb_true_iff. split; [reflexivity|].
      destruct (String.length r'); exact H.
    + exists (String c a'). cbn [append]. now rewrite Ha'.
Qed.

Lemma startswith_sep b :
  startswith b "/" = true -> exists b', b = String FS.SEP b'.
Proof.
  unfold startswith. destruct b as [|c r]; [discriminate|].
  change (String.prefix "/" (String c r))
    with (if ascii_dec "/" c then String.prefix "" r else false).
  destruct (ascii_dec "/" c) as [<-|]; [|discriminate]. eauto.
Qed.

Lemma startswith_no_sep b :
  str_existsb (Ascii.eqb FS.SEP) b = false -> startswith b "/" = false.
Proof.
  intros H. destruct (startswith b "/") eqn:E; auto.
  apply startswith_sep in E as [b' ->]. cbn [str_existsb] in H.
  rewrite Ascii.eqb_refl in H. discriminate.
Qed.

Lemma no_sep_not_all_sep s :
  s <> EmptyString -> str_existsb (Ascii.eqb FS.SEP) s = false ->
  str_forallb (Ascii.eqb FS.SEP) s = false.
Proof.
  destruct s as [|c r]; [congruence|]. intros _ H.
  cbn [str_existsb str_forallb] in *. apply orb_false_iff in H as [-> _].
  reflexivity.
Qed.

Lemma startswith_app s t :
  str_existsb (Ascii.eqb FS.SEP) s = false ->
  startswith t "/" = false ->
  startswith (s ++ t) "/" = false.
Proof.
  intros Hs Ht. destruct s as [|c r]; [exact Ht|].
  destruct (startswith (String c r ++ t) "/") eqn:E; auto.
  apply startswith_sep in E as [b' E]. cbn [append] in E.
  injection E as -> _. cbn [str_existsb] in Hs.
  rewrite Ascii.eqb_refl in Hs. discriminate.
Qed.

(** The components of a joined path are those of its two parts, unless
    the second part starts at the root. *)
Lemma components_path_join a b :
  startswith b "/" = false ->
  FS.components (FS.path_join a b) = FS.components a ++ FS.components b.
Proof.
  intros Hb. unfold FS.path_join, FS.components. rewrite Hb.
  destruct (String.eqb_spec a "") as [->|Hne]; [reflexivity|].
  cbn [orb]. destruct (endswith a "/") eqn:He.
  - apply endswith_sep in He as [a' ->]. rewrite append_assoc.
    cbn [append]. rewrite !fields_from_sep by reflexivity.
    cbn [fields_from]. now rewrite app_nil_r.
  - cbn [append]. now rewrite fields_from_sep by reflexivity.
Qed.

Lemma components_name b :
  str_existsb (Ascii.eqb FS.SEP) b = false -> b <> EmptyString ->
  FS.components b = [b].
Proof.
  intros H Hne. unfold FS.components. rewrite fields_from_no_sep; auto.
  cbn [append]. destruct b; congruence.
Qed.

Lemma components_join_name a b :
  str_existsb (Ascii.eqb FS.SEP) b = false -> b <> EmptyString ->
  FS.components (FS.path_join a b) = FS.components a ++ [b].
Proof.
  intros H Hne. rewrite components_path_join by now apply startswith_no_sep.
  rewrite (components_name b H Hne). reflexivity.
Qed.

Lemma parent_and_name_app cs name p :
  FS.components p = cs ++ [name] ->
  FS.parent_and_name p = Some (cs, name).
Proof.
  intros H. unfold FS.parent_and_name. rewrite H, rev_app_distr. cbn.
  now rewrite rev_involutive.
Qed.

Lemma append_inj_l s : forall t t',
  (s ++ t)%string = (s ++ t')%string -> t = t'.
Proof.
  induction s as [|c r IH]; intros t t' H; [exact H|].
  cbn [append] in H. injection H as H. now apply IH.
Qed.

Lemma path_join_inj a b b' :
  startswith b "/" = false -> startswith b' "/" = false ->
  FS.path_join a b = FS.path_join a b' -> b = b'.
Proof.
  intros Hb Hb'. unfold FS.path_join. rewrite Hb, Hb'.
  destruct (String.eqb a "" || endswith a "/"); intros H.
  - now apply append_inj_l in H.
  - apply append_inj_l in H. cbn [append] in H. now injection H.
Qed.

(** ** The last component of a path, and its extension *)

Lemma rfind_char_bounds c s :
  (-1 <= rfind_char c s < Z.of_nat (String.length s))%Z.
Proof.
  induction s as [|d r IH]; cbn [rfind_char String.length]; [lia|].
  destruct (Z.leb_spec 0 (rfind_char c r)); [lia|].
  destruct (Ascii.eqb d c); lia.
Qed.

Lemma rfind_char_none c s :
  rfind_char c s = (-1)%Z -> str_existsb (Ascii.eqb c) s = false.
Proof.
  induction s as [|d r IH]; cbn [rfind_char str_existsb]; auto.
  pose proof (rfind_char_bounds c r).
  destruct (Z.leb_spec 0 (rfind_char c r)); [lia|].
  rewrite (Ascii.eqb_sym c d).
  destruct (Ascii.eqb d c); [lia|]. intros _. apply IH. lia.
Qed.

Lemma rfind_char_absent c s :
  str_existsb (Ascii.eqb c) s = false -> rfind_char c s = (-1)%Z.
Proof.
  induction s as [|d r IH]; cbn [rfind_char str_existsb]; auto.
  rewrite (Ascii.eqb_sym c d). intros H.
  apply orb_false_iff in H as [Hd Hr]. rewrite (IH Hr), Hd. reflexivity.
Qed.

(** The last occurrence of [c] in [s ++ c :: t], where [t] holds no [c],
    is the one in the middle. *)
Lemma rfind_char_last c t : forall s,
  str_existsb (Ascii.eqb c) t = false ->
  rfind_char c (s ++ String c t) = Z.of_nat (String.length s).
Proof.
  intros s Ht. induction s as [|d r IH].
  - cbn [append rfind_char String.length].
    rewrite (rfind_char_absent _ _ Ht), Ascii.eqb_refl. reflexivity.
  - cbn [append rfind_char String.length]. rewrite IH.
    destruct (Z.leb_spec 0 (Z.of_nat (String.length r))); lia.
Qed.

Lemma drop_app s t :
  drop (String.length s) (s ++ t) = t.
Proof.
  unfold drop. induction s as [|c r IH]; cbn [append String.length].
  - rewrite Nat.sub_0_r. apply substring_full.
  - cbn [substring]. exact IH.
Qed.

Lemma take_app s t :
  take (String.length s) (s ++ t) = s.
Proof.
  unfold take. induction s as [|c r IH]; cbn [append String.length substring].
  - now destruct t.
  - now rewrite IH.
Qed.

Lemma length_append s t :
  String.length (s ++ t) = String.length s + String.length t.
Proof.
  induction s as [|c r IH]; cbn [append String.length]; [reflexivity|].
  now rewrite IH.
Qed.

Lemma substring_no p : forall s n m,
  str_existsb p s = false -> str_existsb p (substring n m s) = false.
Proof.
  induction s as [|c r IH]; intros n m H.
  - destruct n, m; reflexivity.
  - cbn [str_existsb] in H. apply orb_false_iff in H as [Hc Hr].
    destruct n as [|n]; cbn [substring].
    + destruct m as [|m]; [reflexivity|]. cbn [str_existsb].
      now rewrite Hc, IH.
    + now apply IH.
Qed.

(** [os.path.basename] returns a single component. *)
Lemma basename_no_sep p :
  str_existsb (Ascii.eqb FS.SEP) (FS.basename p) = false.
Proof.
  unfold FS.basename, drop. induction p as [|d r IH]; [reflexivity|].
  cbn [rfind_char String.length].
  pose proof (rfind_char_bounds FS.SEP r) as Hb.
  destruct (Z.leb_spec 0 (rfind_char FS.SEP r)) as [Hk|Hk].
  - replace (Z.to_nat (rfind_char FS.SEP r + 1 + 1))
      with (S (Z.to_nat (rfind_char FS.SEP r + 1))) by lia.
    cbn [substring Nat.sub]. exact IH.
  - assert (Hr : str_existsb (Ascii.eqb FS.SEP) r = false)
      by (apply rfind_char_none; lia).
    destruct (Ascii.eqb d FS.SEP) eqn:Hd.
    + cbn [Z.add Z.to_nat Pos.to_nat Pos.iter_op Nat.add substring Nat.sub].
      now apply substring_no.
    + apply substring_no. cbn [str_existsb].
      now rewrite (Ascii.eqb_sym FS.SEP d), Hd.
Qed.

Lemma slice_to_minus_no p s n :
  str_existsb p s = false -> str_existsb p (slice_to_minus s n) = false.
Proof.
  intros H. unfold slice_to_minus, take. apply substring_no.
  now destruct n.
Qed.

(** Cutting the extension off a name that ends with it leaves the stem. *)
Lemma slice_to_minus_app stem ext :
  ext <> EmptyString ->
  slice_to_minus (stem ++ ext) (String.length ext) = stem.
Proof.
  intros Hne. unfold slice_to_minus.
  destruct (String.length ext) eqn:E;
    [destruct ext; [congruence|discriminate]|].
  rewrite <- E, length_append, Nat.add_sub. apply take_app.
Qed.

(** The last component of a path joined with a name is that name. *)
Lemma basename_path_join a name :
  str_existsb (Ascii.eqb FS.SEP) name = false ->
  FS.basename (FS.path_join a name) = name.
Proof.
  intros Hn.
  assert (Hmid : forall s, FS.basename (s ++ String FS.SEP name) = name).
  { intros s. unfold FS.basename. rewrite (rfind_char_last _ _ s Hn).
    replace (Z.to_nat (Z.of_nat (String.length s) + 1))
      with (String.length (s ++ "/")) by (rewrite length_append; cbn; lia).
    replace (s ++ String FS.SEP name)%string with ((s ++ "/") ++ name)%string
      by (now rewrite append_assoc).
    apply drop_app. }
  unfold FS.path_join. rewrite (startswith_no_sep _ Hn).
  destruct (String.eqb_spec a "") as [->|Hne].
  - cbn [orb append]. unfold FS.basename.
    rewrite (rfind_char_absent _ _ Hn). cbn [Z.add Z.to_nat].
    unfold drop. rewrite Nat.sub_0_r. apply substring_full.
  - cbn [orb]. destruct (endswith a "/") eqn:He.
    + apply endswith_sep in He as [a' ->]. rewrite append_assoc. apply Hmid.
    + apply Hmid.
Qed.

(** [os.path.splitext] of a file name that ends with a dot and an
    extension without dot, after a stem that is not made of dots only. *)
Lemma splitext_stem stem ext :
  str_existsb (Ascii.eqb "."%char) ext = false ->
  str_existsb (Ascii.eqb FS.SEP) (stem ++ String "." ext) = false ->
  str_forallb (Ascii.eqb "."%char) stem = false ->
  FS.splitext (stem ++ String "." ext) = (stem, String "." ext).
Proof.
  intros Hext Hsep Hdots. unfold FS.splitext.
  rewrite (rfind_char_absent _ _ Hsep), (rfind_char_last _ _ stem Hext).
  destruct (Z.ltb_spec (-1) (Z.of_nat (String.length stem))); [|lia].
  replace (Z.to_nat (-1 + 1)) with 0 by reflexivity.
  replace (Z.to_nat (Z.of_nat (String.length stem) - (-1 + 1)))
    with (String.length stem) by lia.
  rewrite Nat2Z.id.
  change (substring 0 (String.length stem) (stem ++ String "." ext))
    with (take (String.length stem) (stem ++ String "." ext)).
  now rewrite take_app, Hdots, drop_app.
Qed.

Lemma splitext_no_sep p :
  str_existsb (Ascii.eqb FS.SEP) p = false ->
  str_existsb (Ascii.eqb FS.SEP) (fst (FS.splitext p)) = false.
Proof.
  intros H. unfold FS.splitext.
  destruct (_ <? _)%Z; [|exact H].
  destruct (str_forallb _ _); [exact H|].
  cbn [fst]. unfold take. now apply substring_no.
Qed.

(** For a file name, what [os.path.splitext] returns first is the whole
    name, or a part of it that is not made of dots only. *)
Lemma splitext_name p :
  str_existsb (Ascii.eqb FS.SEP) p = false ->
  fst (FS.splitext p) = p \/
  str_forallb (Ascii.eqb "."%char) (fst (FS.splitext p)) = false.
Proof.
  intros H. unfold FS.splitext. rewrite (rfind_char_absent _ _ H).
  destruct (_ <? _)%Z; [|now left].
  replace (Z.to_nat (-1 + 1)) with 0 by reflexivity.
  replace (rfind_char "." p - (-1 + 1))%Z with (rfind_char "." p) by lia.
  destruct (str_forallb _ _) eqn:Hd; [now left|]. right. exact Hd.
Qed.

(** ** Changes in a folder and below it *)

Lemma walk_app_gen l2 : forall l1 n,
  FS.walk n (l1 ++ l2)
  = match FS.walk n l1 with Some m => FS.walk m l2 | None => None end.
Proof.
  induction l1 as [|c r IH]; intros n; [reflexivity|].
  cbn [app FS.walk]. destruct n as [?|es|]; auto.
  destruct (FS.entry_named c es); auto.
Qed.

Lemma entry_named_app_old name x l : forall es,
  FS.entry_named name es = Some x -> FS.entry_named name (es ++ l) = Some x.
Proof.
  induction es as [|[n y] r IH]; cbn [FS.entry_named app]; [discriminate|].
  destruct (String.eqb n name); auto.
Qed.

Lemma entry_named_set_other d1 d2 x : forall es,
  d1 <> d2 ->
  FS.entry_named d1 (FS.set_entry d2 x es) = FS.entry_named d1 es.
Proof.
  intros es Hne.
  induction es as [|[n y] r IH]; cbn [FS.set_entry FS.entry_named].
  - destruct (String.eqb_spec d2 d1); [congruence | reflexivity].
  - destruct (String.eqb_spec n d2) as [->|Hn]; cbn [FS.entry_named].
    + destruct (String.eqb_spec d2 d1); [congruence | reflexivity].
    + now rewrite IH.
Qed.

Lemma In_set_entry name x : forall es, In (name, x) (FS.set_entry name x es).
Proof.
  induction es as [|[n y] r IH]; cbn [FS.set_entry]; [now left|].
  destruct (String.eqb_spec n name) as [->|Hne]; [now left | now right].
Qed.

Lemma names_ok_set_entry name x : forall es,
  name <> EmptyString -> FS.names_ok x = true ->
  FS.names_ok (FS.Dir es) = true ->
  FS.names_ok (FS.Dir (FS.set_entry name x es)) = true.
Proof.
  intros es Hne Hx. cbn [FS.names_ok].
  induction es as [|[n y] r IH]; cbn [FS.set_entry forallb fst snd].
  - intros _. destruct (String.eqb_spec name ""); [congruence|].
    now rewrite Hx.
  - intros H. apply andb_true_iff in H as [H1 H2].
    destruct (String.eqb_spec n name) as [->|Hn]; cbn [forallb fst snd].
    + apply andb_true_iff in H1 as [H1 _]. now rewrite H1, Hx, H2.
    + now rewrite H1, IH.
Qed.

Lemma del_entry_absent name : forall es,
  ~ In name (map fst es) -> FS.del_entry name es = es.
Proof.
  induction es as [|[n y] r IH]; intros H; [reflexivity|].
  cbn [FS.del_entry map fst In] in *.
  destruct (String.eqb_spec n name) as [->|Hne]; [tauto|].
  rewrite IH; tauto.
Qed.

Lemma entry_named_NoDup name x : forall es,
  NoDup (map fst es) -> In (name, x) es -> FS.entry_named name es = Some x.
Proof.
  induction es as [|[n y] r IH]; intros Hnd Hin; [contradiction|].
  inversion Hnd as [|? ? Hnot Hnd']; subst. cbn [FS.entry_named].
  destruct Hin as [Heq|Hin].
  - injection Heq as -> ->. now rewrite String.eqb_refl.
  - destruct (String.eqb_spec n name) as [->|Hne]; [|auto].
    exfalso. apply Hnot. apply (in_map fst) in Hin. exact Hin.
Qed.

Lemma names_ok_del_entry name : forall es,
  FS.names_ok (FS.Dir es) = true ->
  FS.names_ok (FS.Dir (FS.del_entry name es)) = true.
Proof.
  cbn [FS.names_ok]. induction es as [|[n y] r IH]; intros H; [reflexivity|].
  cbn [forallb FS.del_entry] in *. apply andb_true_iff in H as [H1 H2].
  destruct (String.eqb n name); cbn [forallb]; [auto|]. now rewrite H1, IH.
Qed.

Lemma in_dir_is_dir f x r x' :
  FS.in_dir f x r = Some x' ->
  exists s s', x = FS.Dir s /\ x' = FS.Dir s'.
Proof.
  destruct x as [?|s|]; try (destruct r; discriminate).
  destruct r as [|c r]; cbn [FS.in_dir].
  - destruct (f s) as [s'|]; [|discriminate]. intros H. injection H as <-.
    eauto.
  - destruct (FS.entry_named c s) as [y|]; [|discriminate].
    destruct (FS.in_dir f y r) as [y'|]; [|discriminate].
    intros H. injection H as <-. eauto.
Qed.

(** A change made below the entry [d] of the directory [lv] replaces that
    entry, a directory, by a directory. *)
Lemma in_dir_below f d r : forall lv n n',
  FS.in_dir f n (lv ++ d :: r) = Some n' ->
  exists es s s',
    FS.walk n lv = Some (FS.Dir es) /\
    FS.entry_named d es = Some (FS.Dir s) /\
    FS.walk n' lv = Some (FS.Dir (FS.set_entry d (FS.Dir s') es)).
Proof.
  induction lv as [|c lv IH]; intros n n' H.
  - destruct n as [?|es|]; cbn [app FS.in_dir] in H; try discriminate.
    destruct (FS.entry_named d es) as [x|] eqn:He; [|discriminate].
    destruct (FS.in_dir f x r) as [x'|] eqn:Hx; [|discriminate].
    injection H as <-.
    destruct (in_dir_is_dir _ _ _ _ Hx) as [s [s' [-> ->]]].
    exists es, s, s'. auto.
  - destruct n as [?|ds|]; cbn [app FS.in_dir] in H; try discriminate.
    destruct (FS.entry_named c ds) as [y|] eqn:He; [|discriminate].
    destruct (FS.in_dir f y (lv ++ d :: r)) as [y'|] eqn:Hy; [|discriminate].
    injection H as <-. destruct (IH _ _ Hy) as [es [s [s' [H1 [H2 H3]]]]].
    exists es, s, s'. cbn [FS.walk]. rewrite He, entry_named_set_entry. auto.
Qed.

(** When [os.mkdir] returns, the path names an empty directory, put last
    in the listing of its parent. *)
Lemma mkdir_ok p fs fs' :
  FS.mkdir p fs = (Ok tt, fs') ->
  FS.lookup fs' p = Some (FS.Dir []) /\
  exists parent name es,
    FS.components p = parent ++ [name] /\
    FS.walk fs parent = Some (FS.Dir es) /\
    FS.walk fs' parent = Some (FS.Dir (es ++ [(name, FS.Dir [])])).
Proof.
  unfold FS.mkdir.
  destruct (FS.parent_and_name p) as [[parent name]|] eqn:Hp; [|discriminate].
  destruct (FS.in_dir _ fs parent) as [x|] eqn:Hi; [|discriminate].
  intros H. injection H as <-.
  destruct (in_dir_inv _ _ _ _ Hi) as [es [es' [H1 [H2 H3]]]].
  destruct (FS.entry_named name es) eqn:He; [discriminate|].
  injection H2 as <-. pose proof (components_parent _ _ _ Hp) as Hc.
  split.
  - unfold FS.lookup. rewrite Hc, (walk_app _ _ _ _ H3).
    now apply entry_named_app_new.
  - exists parent, name, es. auto.
Qed.

(** [os.remove] of a regular file takes its name out of the listing of
    its folder. *)
Lemma remove_in_dir p parent name es c fs :
  FS.parent_and_name p = Some (parent, name) ->
  FS.walk fs parent = Some (FS.Dir es) ->
  FS.entry_named name es = Some (FS.File c) ->
  exists fs', FS.remove p fs = (Ok tt, fs') /\
              FS.walk fs' parent = Some (FS.Dir (FS.del_entry name es)).
Proof.
  intros Hp Hw He. unfold FS.remove. rewrite Hp.
  set (f := fun es0 : list (string * FS.node) =>
              match FS.entry_named name es0 with
              | Some (FS.Dir _) | None => None
              | Some _ => Some (FS.del_entry name es0)
              end).
  assert (Hf : f es = Some (FS.del_entry name es)).
  { unfold f. now rewrite He. }
  destruct (in_dir_defined f parent fs es _ Hw Hf) as [fs' Hi].
  rewrite Hi. exists fs'. split; auto.
  destruct (in_dir_inv f parent fs fs' Hi) as [es0 [es' [H1 [H2 H3]]]].
  rewrite Hw in H1. injection H1 as <-. rewrite Hf in H2.
  now injection H2 as <-.
Qed.

(** [shutil.rmtree] of a directory that is not the root leaves nothing
    under its name. *)
Lemma rmtree_dir p parent name sub fs :
  FS.parent_and_name p = Some (parent, name) ->
  FS.lookup fs p = Some (FS.Dir sub) ->
  exists fs', FS.rmtree p fs = (Ok tt, fs') /\ FS.lookup fs' p = None.
Proof.
  intros Hp Hl. unfold FS.rmtree. rewrite Hl, Hp.
  pose proof (components_parent _ _ _ Hp) as Hc.
  unfold FS.lookup in *. rewrite Hc in *.
  destruct (walk_app_inv _ _ _ _ Hl) as [es [Hw He]].
  destruct (in_dir_defined (fun es0 => Some (FS.del_entry name es0))
              parent fs es _ Hw eq_refl) as [fs' Hi].
  rewrite Hi. exists fs'. split; auto.
  destruct (in_dir_inv _ parent fs fs' Hi) as [es0 [es' [H1 [H2 H3]]]].
  injection H2 as <-.
  rewrite (walk_app _ _ _ _ H3). apply entry_named_del_entry.
Qed.

(** A write below the entry [d2] of a folder leaves what lies below
    another entry of that folder as it is. *)
Lemma write_file_other lv d1 r1 d2 rest2 p2 text fs r fs' :
  FS.components p2 = lv ++ d2 :: rest2 -> rest2 <> [] -> d1 <> d2 ->
  FS.write_file p2 text fs = (r, fs') ->
  FS.walk fs' (lv ++ d1 :: r1) = FS.walk fs (lv ++ d1 :: r1).
Proof.
  intros Hc Hrest Hne. destruct (exists_last Hrest) as [rest' [name ->]].
  assert (Hp : FS.parent_and_name p2 = Some (lv ++ d2 :: rest', name)).
  { apply parent_and_name_app. rewrite Hc, <- app_assoc. reflexivity. }
  unfold FS.write_file. rewrite Hp.
  destruct (FS.in_dir _ fs _) as [x|] eqn:Hi; intros H; injection H as _ <-;
    [|reflexivity].
  destruct (in_dir_below _ _ _ _ _ _ Hi) as [es [s [s' [H1 [H2 H3]]]]].
  rewrite !walk_app_gen, H1, H3. cbn [FS.walk].
  now rewrite entry_named_set_other.
Qed.

(* ===================================================================== *)
(** * configuration.search_folder_recursively                              *)
(* ===================================================================== *)

Section Scanner.

Variable EXTENSION : string.

Lemma not_hidden_named elem :
  elem <> EmptyString -> not_hidden elem = Ok (negb (hidden elem)).
Proof.
  destruct elem as [|c r]; [congruence | intros _].
  unfold hidden, startswith, not_hidden.
  change (String.prefix "." (String c r))
    with (if ascii_dec "." c then String.prefix "" r else false).
  destruct (ascii_dec "." c) as [<-|Hne].
  - destruct r; reflexivity.
  - destruct (Ascii.eqb_spec c "."); [congruence | reflexivity].
Qed.

Lemma direct_notebooks_cons elem child rest :
  direct_notebooks EXTENSION ((elem, child) :: rest) =
  (match child with
   | FS.File _ => if valid_notebook_name EXTENSION elem then [elem] else []
   | _ => []
   end) ++ direct_notebooks EXTENSION rest.
Proof.
  unfold direct_notebooks. simpl.
  destruct child; simpl; auto.
  destruct (valid_notebook_name EXTENSION elem); reflexivity.
Qed.

Lemma direct_folders_cons main elem child rest :
  direct_folders EXTENSION main ((elem, child) :: rest) =
  (match child with
   | FS.Dir _ =>
       if negb (hidden elem) && holds_notebooks EXTENSION child
       then [FS.path_join main elem] else []
   | _ => []
   end) ++ direct_folders EXTENSION main rest.
Proof.
  unfold direct_folders. simpl.
  destruct child; simpl; auto.
  destruct (negb (hidden elem) && _); reflexivity.
Qed.

(** The loop returns the two lists it was given, extended by the valid
    files and the non-empty visible folders of the listing, as long as the
    call on a sub-folder returns that folder's own valid files. *)
Lemma search_loop_spec rec main : forall es notebooks folders,
  Forall (fun e =>
            forall sub, snd e = FS.Dir sub ->
              exists f, rec (FS.path_join main (fst e)) (snd e)
                        = Ok (direct_notebooks EXTENSION sub, f)) es ->
  Forall (fun e => fst e <> EmptyString) es ->
  search_loop EXTENSION rec main es notebooks folders =
  Ok (notebooks ++ direct_notebooks EXTENSION es,
      folders ++ direct_folders EXTENSION main es).
Proof.
  induction es as [|[elem child] rest IH]; intros nbs flds Hrec Hnames.
  - simpl. unfold direct_notebooks, direct_folders. simpl.
    now rewrite !app_nil_r.
  - inversion Hrec as [|? ? Hc Hrec']; subst.
    inversion Hnames as [|? ? Hn Hnames']; subst.
    rewrite direct_notebooks_cons, direct_folders_cons.
    simpl in Hc, Hn. destruct child as [c|sub|]; simpl.
    + destruct (valid_notebook_name EXTENSION elem); rewrite IH; auto.
      now rewrite <- app_assoc.
    + rewrite (not_hidden_named elem Hn).
      destruct (hidden elem); simpl; [now rewrite IH|].
      destruct (Hc sub eq_refl) as [f ->].
      destruct (direct_notebooks EXTENSION sub); rewrite IH; auto.
      now rewrite <- app_assoc.
    + now rewrite IH.
Qed.

Lemma names_ok_entries es :
  FS.names_ok (FS.Dir es) = true ->
  Forall (fun e => fst e <> EmptyString /\ FS.names_ok (snd e) = true) es.
Proof.
  simpl. rewrite forallb_forall. intros H. apply Forall_forall.
  intros e He. specialize (H e He). apply andb_true_iff in H as [H1 H2].
  split; [|exact H2]. intros Heq. rewrite Heq in H1. discriminate.
Qed.

(** On a directory whose names are well formed, the scan returns the
    valid files and the non-empty visible sub-folders listed in it. *)
Lemma search_node_spec : forall n main es,
  n = FS.Dir es ->
  FS.names_ok n = true ->
  search_node EXTENSION main n =
  Ok (direct_notebooks EXTENSION es, direct_folders EXTENSION main es).
Proof.
  induction n as [c| |ds IH] using node_induction; intros main es Heq Hok;
    try discriminate.
  injection Heq as ->. apply names_ok_entries in Hok.
  simpl. rewrite search_loop_spec; auto.
  - rewrite Forall_forall in *. intros e He sub Hsub.
    eexists. apply IH; auto. apply Hok; auto.
  - rewrite Forall_forall in *. intros e He. apply Hok; auto.
Qed.

Lemma In_direct_notebooks es x :
  In x (direct_notebooks EXTENSION es) <->
  exists c, In (x, FS.File c) es /\ valid_notebook_name EXTENSION x = true.
Proof.
  unfold direct_notebooks. rewrite in_map_iff. split.
  - intros [[elem child] [<- H]]. apply filter_In in H as [H1 H2].
    simpl in *. destruct child; try discriminate. eauto.
  - intros [c [H1 H2]]. exists (x, FS.File c). split; auto.
    apply filter_In. auto.
Qed.

Lemma In_direct_folders main es f :
  In f (direct_folders EXTENSION main es) <->
  exists d sub,
    In (d, FS.Dir sub) es /\ hidden d = false /\
    direct_notebooks EXTENSION sub <> [] /\ f = FS.path_join main d.
Proof.
  unfold direct_folders. rewrite in_map_iff. split.
  - intros [[elem child] [<- H]]. apply filter_In in H as [H1 H2].
    simpl in *. destruct child as [|sub|]; try discriminate.
    apply andb_true_iff in H2 as [H2 H3]. exists elem, sub.
    repeat split; auto.
    + now destruct (hidden elem).
    + simpl in H3. destruct (direct_notebooks EXTENSION sub);
        [discriminate | congruence].
  - intros [d [sub [H1 [H2 [H3 ->]]]]]. exists (d, FS.Dir sub). split; auto.
    apply filter_In. split; auto. simpl. rewrite H2. simpl.
    destruct (direct_notebooks EXTENSION sub); congruence.
Qed.


End Scanner.




(** C2: a file whose name holds EXTENSION in the middle is returned as a
    notebook although its name does not end with EXTENSION. *)
Theorem search_folder_recursively_takes_inner_extension :
  endswith "a.md.bak" ".md" = false /\
  FS.isfile example_disk "/home/notes/a.md.bak" = true /\
  exists folders,
    search_folder_recursively ".md" "/home/notes" example_disk
      = (Ok ("a.md.bak" :: ["b.md"], folders), example_disk).
Proof. repeat split. eexists. reflexivity. Qed.


(** ** Names that end with the extension *)

Lemma endswith_valid_notebook_name EXTENSION elem :
  endswith elem EXTENSION = true ->
  valid_notebook_name EXTENSION elem = true.
Proof.
  unfold endswith, valid_notebook_name, find. intros H.
  apply andb_true_iff in H as [_ H]. apply String.eqb_eq in H.
  destruct (String.index 0 EXTENSION elem) as [k|] eqn:Hi.
  - destruct (Z.eqb_spec (Z.of_nat k) (-1)); [lia | reflexivity].
  - exfalso. destruct EXTENSION as [|c r].
    + apply String.index_correct4 in Hi. lia.
    + apply (String.index_correct3 0
               (String.length elem - String.length (String c r))) in Hi;
        [contradiction | discriminate | lia].
Qed.

(** X1. No notebook is missed: every regular file directly in [main] whose
    name ends with EXTENSION is among the notebooks the scan returns, a
    hidden file included. *)
Theorem notebooks_with_extension_are_found (EXTENSION main : string)
  (fs0 : FS.node) (es : list (string * FS.node)) (elem content : string) :
  FS.lookup fs0 main = Some (FS.Dir es) ->
  FS.names_ok (FS.Dir es) = true ->
  In (elem, FS.File content) es ->
  endswith elem EXTENSION = true ->
  exists notebooks folders,
    search_folder_recursively EXTENSION main fs0
    = (Ok (notebooks, folders), fs0) /\
    In elem notebooks.
Proof.
  intros Hl Hok Hin Hend.
  exists (direct_notebooks EXTENSION es), (direct_folders EXTENSION main es).
  split.
  - unfold search_folder_recursively. rewrite Hl.
    now rewrite (search_node_spec EXTENSION _ main es eq_refl Hok).
  - apply In_direct_notebooks. exists content. split; [exact Hin|].
    now apply endswith_valid_notebook_name.
Qed.

Lemma notebooks_with_extension_are_found_witness :
  exists notebooks folders,
    search_folder_recursively ".md" "/home/notes" example_disk
    = (Ok (notebooks, folders), example_disk) /\
    In "b.md" notebooks.
Proof.
  exact (notebooks_with_extension_are_found ".md" "/home/notes" example_disk
           notes_listing "b.md" "" eq_refl eq_refl
           (or_intror (or_introl eq_refl)) eq_refl).
Defined.

(** ** The first start *)

(** X2. On the first start the folder [.noteorganiser] is created in the
    home directory and no notebook is returned; a second start finds the
    folder, returns the same and leaves the disk alone. *)
Theorem initialise_creates_then_finds (EXTENSION home : string)
  (es : list (string * FS.node)) (fs : FS.node) :
  FS.lookup fs home = Some (FS.Dir es) ->
  FS.entry_named ".noteorganiser" es = None ->
  let main := FS.path_join home ".noteorganiser" in
  exists fs',
    initialise EXTENSION home fs = (Ok (main, [], []), fs') /\
    FS.lookup fs' main = Some (FS.Dir []) /\
    initialise EXTENSION home fs' = (Ok (main, [], []), fs').
Proof.
  intros Hhome Hnew main.
  assert (Hc : FS.components main = FS.components home ++ [".noteorganiser"])
    by (apply components_join_name; [reflexivity | discriminate]).
  assert (Hl : FS.lookup fs main = None).
  { unfold FS.lookup. rewrite Hc. now rewrite (walk_app _ _ _ _ Hhome). }
  destruct (mkdir_creates main _ _ es fs (parent_and_name_app _ _ _ Hc)
              Hhome Hl) as [fs' [Hm Hl']].
  exists fs'. split; [|split; [exact Hl'|]].
  - unfold initialise, search_folder_recursively, bind. fold main.
    rewrite Hl. unfold bind. now rewrite Hm.
  - unfold initialise, search_folder_recursively, bind. fold main.
    now rewrite Hl'.
Qed.

Lemma initialise_creates_then_finds_witness :
  exists fs',
    initialise ".md" "/home" example_disk
    = (Ok ("/home/.noteorganiser", [], []), fs') /\
    FS.lookup fs' "/home/.noteorganiser" = Some (FS.Dir []) /\
    initialise ".md" "/home" fs'
    = (Ok ("/home/.noteorganiser", [], []), fs').
Proof.
  exact (initialise_creates_then_finds ".md" "/home"
           [("notes", FS.Dir notes_listing)] example_disk eq_refl eq_refl).
Defined.

(** ** What the scanner does not see, and what a change of the folder
    changes *)

Section Listings.

Variable EXTENSION : string.

Lemma hidden_not_hidden elem :
  hidden elem = true -> not_hidden elem = Ok false.
Proof.
  intros H. destruct elem as [|c r]; [discriminate|].
  rewrite not_hidden_named by discriminate. now rewrite H.
Qed.

(** The loop gives the same lists for a listing and for the listing
    without its hidden folders. *)
Lemma search_loop_visible rec main : forall es notebooks folders,
  search_loop EXTENSION rec main es notebooks folders
  = search_loop EXTENSION rec main (visible es) notebooks folders.
Proof.
  induction es as [|[elem child] rest IH]; intros nbs flds; [reflexivity|].
  unfold visible. cbn [filter snd fst]. fold (visible rest).
  destruct child as [c|sub|].
  - cbn [search_loop]. destruct (valid_notebook_name EXTENSION elem); apply IH.
  - destruct (hidden elem) eqn:Hh; cbn [negb].
    + cbn [search_loop]. rewrite (hidden_not_hidden _ Hh). apply IH.
    + cbn [search_loop]. destruct (not_hidden elem) as [[|]|e]; auto.
      destruct (rec _ _) as [[temp ?]|e]; auto. destruct temp; apply IH.
  - cbn [search_loop]. apply IH.
Qed.

Lemma visible_app_hidden es d x :
  hidden d = true -> visible (es ++ [(d, FS.Dir x)]) = visible es.
Proof.
  intros H. unfold visible. rewrite filter_app. cbn [filter snd fst].
  rewrite H. cbn [negb]. now rewrite app_nil_r.
Qed.

Lemma visible_set_entry d s s' : forall es,
  hidden d = true ->
  FS.entry_named d es = Some (FS.Dir s) ->
  visible (FS.set_entry d (FS.Dir s') es) = visible es.
Proof.
  induction es as [|[n y] r IH]; intros Hh He; [discriminate|].
  cbn [FS.entry_named FS.set_entry] in *.
  destruct (String.eqb_spec n d) as [->|Hne].
  - injection He as ->. unfold visible. cbn [filter snd fst].
    now rewrite Hh.
  - unfold visible. cbn [filter snd fst]. fold (visible r).
    fold (visible (FS.set_entry d (FS.Dir s') r)). now rewrite IH.
Qed.

(** Two disks on which [main] names directories with the same visible
    entries give the scanner the same lists. *)
Lemma scan_visible main fs fs' es es' :
  FS.lookup fs main = Some (FS.Dir es) ->
  FS.lookup fs' main = Some (FS.Dir es') ->
  visible es' = visible es ->
  fst (search_folder_recursively EXTENSION main fs')
  = fst (search_folder_recursively EXTENSION main fs).
Proof.
  intros H H' Hv. unfold search_folder_recursively. rewrite H, H'.
  cbn [fst search_node].
  rewrite (search_loop_visible _ main es'), (search_loop_visible _ main es).
  now rewrite Hv.
Qed.

(** Writing a regular file into a listing adds its name to the notebooks
    the listing holds, if the name is valid, and changes no folder. *)
Lemma direct_notebooks_set_file name text : forall es,
  valid_notebook_name EXTENSION name = true ->
  (forall s, FS.entry_named name es <> Some (FS.Dir s)) ->
  In name (direct_notebooks EXTENSION (FS.set_entry name (FS.File text) es)) /\
  incl (direct_notebooks EXTENSION es)
       (direct_notebooks EXTENSION (FS.set_entry name (FS.File text) es)).
Proof.
  intros es Hv. induction es as [|[n y] r IH]; intros Hnd.
  - cbn [FS.set_entry]. rewrite direct_notebooks_cons, Hv.
    split; [now left | intros x []].
  - cbn [FS.set_entry FS.entry_named] in *.
    destruct (String.eqb_spec n name) as [->|Hne].
    + rewrite !direct_notebooks_cons, Hv. split; [now left|].
      destruct y; [apply incl_refl | | ]; now apply incl_tl.
    + destruct (IH Hnd) as [H1 H2]. rewrite !direct_notebooks_cons. split.
      * apply in_or_app. now right.
      * apply incl_app; [apply incl_appl, incl_refl | now apply incl_appr].
Qed.

Lemma direct_folders_set_file main name text : forall es,
  (forall s, FS.entry_named name es <> Some (FS.Dir s)) ->
  direct_folders EXTENSION main (FS.set_entry name (FS.File text) es)
  = direct_folders EXTENSION main es.
Proof.
  induction es as [|[n y] r IH]; intros Hnd; [reflexivity|].
  cbn [FS.set_entry FS.entry_named] in *.
  destruct (String.eqb_spec n name) as [->|Hne].
  - rewrite !direct_folders_cons.
    destruct y as [?|s|]; auto. now destruct (Hnd s).
  - rewrite !direct_folders_cons. now rewrite IH.
Qed.

(** In a listing without repeated names, taking the file [name] out takes
    its first occurrence out of the notebooks and changes no folder. *)
Lemma direct_notebooks_del_entry name c : forall es,
  NoDup (map fst es) -> In (name, FS.File c) es ->
  valid_notebook_name EXTENSION name = true ->
  direct_notebooks EXTENSION (FS.del_entry name es)
  = remove_first name (direct_notebooks EXTENSION es).
Proof.
  induction es as [|[n y] r IH]; intros Hnd Hin Hv; [contradiction|].
  inversion Hnd as [|? ? Hnot Hnd']; subst.
  cbn [FS.del_entry]. destruct (String.eqb_spec n name) as [->|Hne].
  - assert (y = FS.File c) as ->.
    { destruct Hin as [Heq|Hin]; [congruence|]. exfalso. apply Hnot.
      apply (in_map fst) in Hin. exact Hin. }
    rewrite (del_entry_absent _ _ Hnot), direct_notebooks_cons, Hv.
    cbn [app remove_first]. now rewrite String.eqb_refl.
  - destruct Hin as [Heq|Hin]; [congruence|].
    rewrite !direct_notebooks_cons, (IH Hnd' Hin Hv).
    destruct y as [?| |]; cbn [app]; auto.
    destruct (valid_notebook_name EXTENSION n); cbn [app remove_first]; auto.
    destruct (String.eqb_spec n name); [congruence | reflexivity].
Qed.

Lemma direct_folders_del_entry main name c : forall es,
  NoDup (map fst es) -> In (name, FS.File c) es ->
  direct_folders EXTENSION main (FS.del_entry name es)
  = direct_folders EXTENSION main es.
Proof.
  induction es as [|[n y] r IH]; intros Hnd Hin; [contradiction|].
  inversion Hnd as [|? ? Hnot Hnd']; subst.
  cbn [FS.del_entry]. destruct (String.eqb_spec n name) as [->|Hne].
  - assert (y = FS.File c) as ->.
    { destruct Hin as [Heq|Hin]; [congruence|]. exfalso. apply Hnot.
      apply (in_map fst) in Hin. exact Hin. }
    now rewrite (del_entry_absent _ _ Hnot), direct_folders_cons.
  - destruct Hin as [Heq|Hin]; [congruence|].
    now rewrite !direct_folders_cons, (IH Hnd' Hin).
Qed.

(** A write below the hidden entry [d] of the folder [main] does not
    change what the scanner returns for [main]. *)
Lemma write_file_scan main d rest p text fs r fs' :
  FS.components p = FS.components main ++ d :: rest ->
  rest <> [] -> hidden d = true ->
  FS.write_file p text fs = (r, fs') ->
  fst (search_folder_recursively EXTENSION main fs')
  = fst (search_folder_recursively EXTENSION main fs).
Proof.
  intros Hc Hrest Hd. destruct (exists_last Hrest) as [rest' [name ->]].
  assert (Hp : FS.parent_and_name p
               = Some (FS.components main ++ d :: rest', name)).
  { apply parent_and_name_app. rewrite Hc, <- app_assoc. reflexivity. }
  unfold FS.write_file. rewrite Hp.
  destruct (FS.in_dir _ fs _) as [x|] eqn:Hi; intros H; injection H as _ <-;
    [|reflexivity].
  destruct (in_dir_below _ _ _ _ _ _ Hi) as [es [s [s' [H1 [H2 H3]]]]].
  apply (scan_visible main fs x es _ H1 H3).
  now apply (visible_set_entry d s s').
Qed.

(** Creating the hidden folder [d] in [main] does not change it either. *)
Lemma mkdir_scan main d p fs r fs' :
  FS.components p = FS.components main ++ [d] ->
  hidden d = true ->
  FS.mkdir p fs = (r, fs') ->
  fst (search_folder_recursively EXTENSION main fs')
  = fst (search_folder_recursively EXTENSION main fs).
Proof.
  intros Hc Hd. unfold FS.mkdir. rewrite (parent_and_name_app _ _ _ Hc).
  destruct (FS.in_dir _ fs _) as [x|] eqn:Hi; intros H; injection H as _ <-;
    [|reflexivity].
  destruct (in_dir_inv _ _ _ _ Hi) as [es [es' [H1 [H2 H3]]]].
  destruct (FS.entry_named d es); [discriminate|]. injection H2 as <-.
  apply (scan_visible main fs x es _ H1 H3).
  now apply visible_app_hidden.
Qed.

End Listings.

(* ===================================================================== *)
(** * The note format: emitting and parsing back                           *)
(* ===================================================================== *)

























(* ===================================================================== *)
(** * Shelves                                                              *)
(* ===================================================================== *)

(** ** The folder operations *)

Lemma with_fs_same a : with_fs (fs a) a = a.
Proof. now destruct a. Qed.

(** A call with three arguments stops at the binding of the parameters. *)
Lemma call_with_three_arguments EXTENSION x y z fs :
  call_search_folder_recursively EXTENSION [x; y; z] fs
  = (Raise TypeError, fs).
Proof. reflexivity. Qed.

Lemma read_folder_raises EXTENSION folder_path a :
  read_folder EXTENSION folder_path a = (Raise TypeError, a).
Proof.
  unfold read_folder, bind, get_state, on_fs.
  rewrite call_with_three_arguments. now rewrite with_fs_same.
Qed.

(** C8. Every call of [search_folder_recursively] from the Shelves passes
    three arguments to a function of two parameters, so the operation
    stops there with [TypeError]: always for [toggleDisplayEmpty] (after
    the flag was flipped), [folderClicked] and [upFolder]; for
    [createFolder] once its dialog was accepted and [info.folders] holds
    the new name, which is when it reaches the call. No listing is
    stored. *)
Theorem folder_operations_raise_TypeError (EXTENSION : string) (a : App) :
  toggleDisplayEmpty EXTENSION a =
    (Raise TypeError,
     with_info (fun i => set_display_empty (negb (display_empty i)) i) a) /\
  (forall label, folderClicked EXTENSION label a = (Raise TypeError, a)) /\
  upFolder EXTENSION a = (Raise TypeError, a) /\
  (forall NewFolder info' folder_name,
      NewFolder (info a) = (true, info') ->
      last_item (folders info') = Ok folder_name ->
      exists a',
        createFolder EXTENSION NewFolder a = (Raise TypeError, a') /\
        info a' = info') /\
  (forall x y z fs,
      call_search_folder_recursively EXTENSION [x; y; z] fs
      = (Raise TypeError, fs)).
Proof.
  split; [|split; [|split; [|split]]].
  - unfold toggleDisplayEmpty, bind, modify, get_state.
    now rewrite read_folder_raises.
  - intros label. unfold folderClicked, bind, get_state.
    now rewrite read_folder_raises.
  - unfold upFolder, bind, get_state. now rewrite read_folder_raises.
  - intros NewFolder info' folder_name Hd Hl.
    unfold createFolder, bind at 1, get_state. rewrite Hd.
    unfold bind at 1, modify. unfold bind at 1, lift. rewrite Hl.
    unfold bind at 1.
    destruct (try_except _ _ _ _) as [[u|e] a1] eqn:Ht.
    + unfold bind at 1. rewrite read_folder_raises. exists a1. split; auto.
      unfold try_except, on_fs in Ht.
      destruct (FS.mkdir _ _) as [[u'|e] x]; simpl in Ht.
      * injection Ht as _ <-. reflexivity.
      * destruct (exn_eqb e OSError); simpl in Ht;
          [injection Ht as _ <- | discriminate]; reflexivity.
    + unfold try_except, on_fs in Ht.
      destruct (FS.mkdir _ _) as [[u'|e0] x] eqn:Hm; simpl in Ht;
        try discriminate.
      apply mkdir_raises_OSError in Hm as ->. discriminate.
  - intros x y z fs0. apply call_with_three_arguments.
Qed.

Lemma folder_operations_raise_TypeError_witness :
  exists a',
    createFolder ".md" (accept_folder "recipes") shelf_app
    = (Raise TypeError, a') /\
    folders (info a') = ["recipes"].
Proof.
  destruct (proj1 (proj2 (proj2 (proj2
              (folder_operations_raise_TypeError ".md" shelf_app))))
              (accept_folder "recipes")
              (set_listing (notebooks shelf_info)
                 (folders shelf_info ++ ["recipes"]) shelf_info)
              "recipes" eq_refl eq_refl) as [a' [H1 H2]].
  exists a'. split; [exact H1|]. now rewrite H2.
Defined.


(** ** Removing a notebook *)

(** C10. For a notebook that is a regular file of the current folder and
    is listed in [info.notebooks]: the question is asked exactly when the
    file is not empty; when the file is empty or the answer is Yes, the
    file is gone from the disk and the first occurrence of its name is
    gone from [info.notebooks]; when the answer is No, the disk and
    [info] are as before. *)
Theorem removeNotebook_spec (EXTENSION : string) (answer : Reply)
  (notebook content : string) (a : App) :
  let name := (notebook ++ EXTENSION)%string in
  let path := FS.path_join (level (info a)) name in
  let question :=
    ("Are you sure you want to delete " ++ notebook ++ "?")%string in
  FS.isdir (fs a) "/" = true ->
  FS.lookup (fs a) path = Some (FS.File content) ->
  In name (notebooks (info a)) ->
  exists a',
    removeNotebook EXTENSION answer notebook a = (Ok tt, a') /\
    (content = EmptyString -> dialogs a' = dialogs a) /\
    (content <> EmptyString -> dialogs a' = dialogs a ++ [question]) /\
    (content = EmptyString \/ answer = Yes ->
       FS.lookup (fs a') path = None /\
       notebooks (info a') = remove_first name (notebooks (info a)) /\
       folders (info a') = folders (info a)) /\
    (content <> EmptyString -> answer = No ->
       fs a' = fs a /\ info a' = info a).
Proof.
  intros name path question Hroot Hl Hin.
  destruct (remove_file path content (fs a) Hroot Hl) as [fs' [Hr Hl']].
  destruct (index_then_pop name _ Hin) as [i [Hi Hp]].
  assert (Hsize : FS.st_size (fs a) path = Ok (String.length content)).
  { unfold FS.st_size. now rewrite Hl. }
  unfold removeNotebook, bind at 1, get_state.
  fold name. fold path. unfold bind at 1, lift. rewrite Hsize.
  destruct content as [|c r]; simpl String.length; simpl negb.
  - (* empty file: no question *)
    unfold bind, modify, get_state, on_fs, lift, refresh. simpl.
    rewrite Hr. simpl. fold name. rewrite Hi, Hp. simpl.
    eexists. split; [reflexivity|]. simpl.
    repeat split; auto; try congruence.
  - destruct answer.
    + unfold bind, modify, get_state, on_fs, lift, refresh, show_dialog.
      simpl. rewrite Hr. simpl. fold name. rewrite Hi, Hp. simpl.
      eexists. split; [reflexivity|]. simpl.
      repeat split; auto; try congruence.
    + unfold bind, modify, get_state, on_fs, lift, refresh, show_dialog.
      simpl. eexists. split; [reflexivity|]. simpl.
      split; [intros H; discriminate|].
      split; [reflexivity|].
      split; [intros [H|H]; discriminate|].
      intros _ _. split; [reflexivity | now destruct a as [[]]].
Qed.

Lemma removeNotebook_spec_witness :
  exists a',
    removeNotebook ".md" Yes "todo" shelf_app = (Ok tt, a') /\
    dialogs a' = ["Are you sure you want to delete todo?"] /\
    FS.lookup (fs a') "/home/notes/todo.md" = None /\
    notebooks (info a') = ["empty.md"].
Proof.
  destruct (removeNotebook_spec ".md" Yes "todo" todo_text shelf_app
              eq_refl eq_refl (or_introl eq_refl))
    as [a' [H1 [_ [H2 [H3 _]]]]].
  exists a'. split; [exact H1|].
  split; [apply H2; discriminate|].
  destruct (H3 (or_intror eq_refl)) as [H4 [H5 _]].
  split; [exact H4 | exact H5].
Defined.


(** ** The first lines of a new notebook *)






(** ** The shelves and the scanner *)

(** X3. A notebook made by [createNotebook] is found by the next scan of the
    current folder, beside the notebooks found before, and the folders found
    are the same; here the new name is a single path component holding
    EXTENSION, and the names in the folder are well formed. *)
Theorem created_notebook_is_found (EXTENSION : string)
  (NewNotebook : Information -> bool * Information) (a a' : App)
  (info' : Information) (name : string) (es : list (string * FS.node)) :
  NewNotebook (info a) = (true, info') ->
  last_item (notebooks info') = Ok name ->
  name <> EmptyString ->
  str_existsb (Ascii.eqb FS.SEP) name = false ->
  valid_notebook_name EXTENSION name = true ->
  FS.lookup (fs a) (level info') = Some (FS.Dir es) ->
  FS.names_ok (FS.Dir es) = true ->
  createNotebook NewNotebook a = (Ok tt, a') ->
  exists found,
    search_folder_recursively EXTENSION (level info') (fs a')
    = (Ok (found, direct_folders EXTENSION (level info') es), fs a') /\
    In name found /\
    incl (direct_notebooks EXTENSION es) found.
Proof.
  intros Hd Hl Hne Hsep Hv Hlook Hok H.
  unfold createNotebook in H. unfold bind at 1, get_state in H.
  rewrite Hd in H. unfold bind at 1, modify in H.
  unfold bind at 1, lift in H. rewrite Hl in H.
  unfold bind at 1, on_fs in H. cbn [fs with_info] in H.
  destruct (FS.write_file _ _ (fs a)) as [[[]|e] x] eqn:Hw; [|discriminate].
  unfold refresh, modify in H. injection H as <-.
  cbn [fs with_refreshes with_fs].
  pose proof (components_join_name (level info') name Hsep Hne) as Hc.
  unfold FS.write_file in Hw. rewrite (parent_and_name_app _ _ _ Hc) in Hw.
  destruct (FS.in_dir _ (fs a) _) as [x'|] eqn:Hi; [|discriminate].
  injection Hw as <-.
  destruct (in_dir_inv _ _ _ _ Hi) as [es0 [es' [H1 [H2 H3]]]].
  unfold FS.lookup in Hlook. rewrite Hlook in H1. injection H1 as <-.
  assert (Hnd : forall s, FS.entry_named name es <> Some (FS.Dir s)).
  { intros s Hs. rewrite Hs in H2. discriminate. }
  assert (He' : es' = FS.set_entry name (FS.File (initial_content name)) es).
  { destruct (FS.entry_named name es) as [[?|s|]|]; congruence. }
  subst es'.
  exists (direct_notebooks EXTENSION
            (FS.set_entry name (FS.File (initial_content name)) es)).
  destruct (direct_notebooks_set_file EXTENSION name (initial_content name)
              es Hv Hnd) as [Hin Hincl].
  split; [|split; assumption].
  unfold search_folder_recursively, FS.lookup. rewrite H3.
  rewrite (search_node_spec EXTENSION _ (level info') _ eq_refl).
  - now rewrite direct_folders_set_file.
  - now apply names_ok_set_entry.
Qed.

Lemma created_notebook_is_found_witness :
  exists found,
    search_folder_recursively ".md" "/home/notes"
      (fs (snd (createNotebook (accept_notebook "shopping list.md")
                  shelf_app)))
    = (Ok (found, []),
       fs (snd (createNotebook (accept_notebook "shopping list.md")
                  shelf_app))) /\
    In "shopping list.md" found /\
    incl ["todo.md"; "empty.md"] found.
Proof.
  exact (created_notebook_is_found ".md"
           (accept_notebook "shopping list.md") shelf_app
           (snd (createNotebook (accept_notebook "shopping list.md")
                   shelf_app))
           (set_listing (notebooks shelf_info ++ ["shopping list.md"])
              (folders shelf_info) shelf_info)
           "shopping list.md"
           [("todo.md", FS.File todo_text);
            ("empty.md", FS.File "");
            (".website", FS.Dir []);
            (".temp", FS.Dir [])]
           eq_refl eq_refl ltac:(discriminate) eq_refl eq_refl eq_refl
           eq_refl eq_refl).
Defined.

(** X4. [removeNotebook] keeps [info] in step with the disk. If the lists in
    [info] are what a scan of the current folder returns, and the user
    agrees, then after the removal of a listed notebook they are again what
    a scan returns, and the notebook is no longer among them. Here the names
    in the folder are well formed and distinct, and the notebook's file name
    is a single path component. *)
Theorem removeNotebook_keeps_listing_in_step (EXTENSION notebook : string)
  (a : App) (es : list (string * FS.node)) :
  let name := (notebook ++ EXTENSION)%string in
  FS.lookup (fs a) (level (info a)) = Some (FS.Dir es) ->
  FS.names_ok (FS.Dir es) = true ->
  NoDup (map fst es) ->
  search_folder_recursively EXTENSION (level (info a)) (fs a)
  = (Ok (notebooks (info a), folders (info a)), fs a) ->
  In name (notebooks (info a)) ->
  str_existsb (Ascii.eqb FS.SEP) name = false ->
  exists a',
    removeNotebook EXTENSION Yes notebook a = (Ok tt, a') /\
    search_folder_recursively EXTENSION (level (info a')) (fs a')
    = (Ok (notebooks (info a'), folders (info a')), fs a') /\
    ~ In name (notebooks (info a')) /\
    level (info a') = level (info a).
Proof.
  intros name Hlook Hok Hnd Hstep Hin Hsep.
  unfold search_folder_recursively in Hstep. rewrite Hlook in Hstep.
  rewrite (search_node_spec EXTENSION _ _ es eq_refl Hok) in Hstep.
  injection Hstep as Hn Hf.
  rewrite <- Hn in Hin. apply In_direct_notebooks in Hin as [c [Hc Hv]].
  assert (Hne : name <> EmptyString).
  { apply names_ok_entries in Hok. rewrite Forall_forall in Hok.
    apply (Hok _ Hc). }
  pose proof (components_join_name (level (info a)) name Hsep Hne) as Hcomp.
  pose proof (entry_named_NoDup _ _ _ Hnd Hc) as He.
  destruct (remove_in_dir _ _ _ es c (fs a)
              (parent_and_name_app _ _ _ Hcomp) Hlook He) as [fs' [Hr Hw]].
  assert (Hin' : In name (notebooks (info a))).
  { rewrite <- Hn. apply In_direct_notebooks. eauto. }
  destruct (index_then_pop name _ Hin') as [i [Hi Hp]].
  assert (Hsize : FS.st_size (fs a) (FS.path_join (level (info a)) name)
                  = Ok (String.length c)).
  { unfold FS.st_size, FS.lookup. rewrite Hcomp.
    now rewrite (walk_app _ _ _ _ Hlook), He. }
  assert (Hrun : exists d,
             removeNotebook EXTENSION Yes notebook a
             = (Ok tt,
                with_refreshes (S (refreshes a))
                  (with_info (fun i => set_listing
                                         (remove_first name (notebooks i))
                                         (folders i) i)
                     (with_fs fs' (with_reply Yes (with_dialogs d a)))))).
  { unfold removeNotebook, bind at 1, get_state. fold name.
    unfold bind at 1, lift. rewrite Hsize.
    destruct (String.length c).
    - exists (dialogs a).
      unfold bind, modify, get_state, on_fs, lift, refresh. simpl.
      rewrite Hr. simpl. fold name. rewrite Hi, Hp. simpl.
      now destruct a.
    - eexists.
      unfold bind, modify, get_state, on_fs, lift, refresh, show_dialog.
      simpl. rewrite Hr. simpl. fold name. rewrite Hi, Hp. simpl.
      reflexivity. }
  destruct Hrun as [d Hrun]. eexists. split; [exact Hrun|].
  cbn [info fs with_refreshes with_info with_fs with_reply with_dialogs
         level notebooks folders set_listing].
  split; [|split; [|reflexivity]].
  - unfold search_folder_recursively, FS.lookup. rewrite Hw.
    rewrite (search_node_spec EXTENSION _ _ _ eq_refl
               (names_ok_del_entry name es Hok)).
    rewrite (direct_notebooks_del_entry EXTENSION name c es Hnd Hc Hv).
    rewrite (direct_folders_del_entry EXTENSION _ name c es Hnd Hc).
    now rewrite Hn, Hf.
  - rewrite <- Hn.
    rewrite <- (direct_notebooks_del_entry EXTENSION name c es Hnd Hc Hv).
    intros H. apply In_direct_notebooks in H as [c' [H _]].
    apply (in_map fst) in H. cbn [fst] in H.
    assert (Hgone : FS.entry_named name (FS.del_entry name es) = None)
      by apply entry_named_del_entry.
    clear - H Hgone. induction (FS.del_entry name es) as [|[n y] r IH];
      [contradiction|].
    cbn [FS.entry_named map fst In] in *.
    destruct (String.eqb_spec n name) as [->|Hne]; [discriminate|].
    destruct H; [congruence | auto].
Qed.

Lemma removeNotebook_keeps_listing_in_step_witness :
  exists a',
    removeNotebook ".md" Yes "todo" shelf_app = (Ok tt, a') /\
    search_folder_recursively ".md" (level (info a')) (fs a')
    = (Ok (notebooks (info a'), folders (info a')), fs a') /\
    ~ In "todo.md" (notebooks (info a')) /\
    level (info a') = "/home/notes".
Proof.
  refine (removeNotebook_keeps_listing_in_step ".md" "todo" shelf_app
            [("todo.md", FS.File todo_text);
             ("empty.md", FS.File "");
             (".website", FS.Dir []);
             (".temp", FS.Dir [])]
            eq_refl eq_refl _ eq_refl (or_introl eq_refl) eq_refl).
  cbn [map fst].
  repeat (constructor; [cbn [In]; intuition discriminate|]). constructor.
Defined.

(** ** Removing what is not listed *)

(** X5. [removeNotebook] asks the disk first and the list last. For a name
    that names no file, [os.stat] raises and nothing has changed. For a file
    that [info.notebooks] does not list (and that is empty, or that the user
    agrees to delete), the file is deleted from the disk before [list.index]
    raises [ValueError]: [info] is as before and the shelves are not
    refreshed. *)
Theorem removeNotebook_errors (EXTENSION : string) (answer : Reply)
  (notebook : string) (a : App) :
  let name := (notebook ++ EXTENSION)%string in
  let path := FS.path_join (level (info a)) name in
  (FS.lookup (fs a) path = None ->
   removeNotebook EXTENSION answer notebook a = (Raise OSError, a)) /\
  (forall content,
     FS.isdir (fs a) "/" = true ->
     FS.lookup (fs a) path = Some (FS.File content) ->
     ~ In name (notebooks (info a)) ->
     content = EmptyString \/ answer = Yes ->
     exists a',
       removeNotebook EXTENSION answer notebook a = (Raise ValueError, a') /\
       FS.lookup (fs a') path = None /\
       info a' = info a /\ refreshes a' = refreshes a).
Proof.
  intros name path. split.
  - intros Hl. unfold removeNotebook, bind at 1, get_state.
    fold name. fold path. unfold bind at 1, lift, FS.st_size.
    now rewrite Hl.
  - intros content Hroot Hl Hnot Hyes.
    destruct (remove_file path content (fs a) Hroot Hl) as [fs' [Hr Hl']].
    pose proof (list_index_absent name _ Hnot) as Hi.
    assert (Hsize : FS.st_size (fs a) path = Ok (String.length content)).
    { unfold FS.st_size. now rewrite Hl. }
    unfold removeNotebook, bind at 1, get_state.
    fold name. fold path. unfold bind at 1, lift. rewrite Hsize.
    destruct content as [|c r]; simpl String.length; simpl negb.
    + unfold bind, modify, get_state, on_fs, lift, refresh. simpl.
      rewrite Hr. simpl. fold name. rewrite Hi.
      eexists. split; [reflexivity|]. simpl. auto.
    + destruct Hyes as [Hyes| ->]; [discriminate|].
      unfold bind, modify, get_state, on_fs, lift, refresh, show_dialog.
      simpl. rewrite Hr. simpl. fold name. rewrite Hi.
      eexists. split; [reflexivity|]. simpl. auto.
Qed.

Lemma removeNotebook_errors_witness :
  removeNotebook ".md" Yes "nothing" stale_app = (Raise OSError, stale_app) /\
  exists a',
    removeNotebook ".md" Yes "b" stale_app = (Raise ValueError, a') /\
    FS.lookup (fs a') "/home/notes/b.md" = None /\
    refreshes a' = 0.
Proof.
  split.
  - exact (proj1 (removeNotebook_errors ".md" Yes "nothing" stale_app)
             eq_refl).
  - destruct (proj2 (removeNotebook_errors ".md" Yes "b" stale_app)
                "" eq_refl eq_refl ltac:(intros []) (or_introl eq_refl))
      as [a' [H1 [H2 [_ H3]]]].
    exists a'. split; [exact H1|]. split; [exact H2 | exact H3].
Defined.

(** ** A folder that is made and never entered *)

(** X6. [createFolder] makes the folder before it reads it. Once the dialog
    is accepted with a new name, the empty folder exists on the disk under
    the current level when the call of the scanner raises [TypeError]; the
    level is not changed and the shelves are not refreshed. *)
Theorem createFolder_leaves_folder (EXTENSION : string)
  (NewFolder : Information -> bool * Information) (a : App)
  (info' : Information) (name : string) (es : list (string * FS.node)) :
  NewFolder (info a) = (true, info') ->
  last_item (folders info') = Ok name ->
  name <> EmptyString ->
  str_existsb (Ascii.eqb FS.SEP) name = false ->
  FS.lookup (fs a) (level info') = Some (FS.Dir es) ->
  FS.entry_named name es = None ->
  exists a',
    createFolder EXTENSION NewFolder a = (Raise TypeError, a') /\
    FS.lookup (fs a') (FS.path_join (level info') name) = Some (FS.Dir []) /\
    info a' = info' /\ refreshes a' = refreshes a.
Proof.
  intros Hd Hl Hne Hsep Hlook Hnew.
  pose proof (components_join_name (level info') name Hsep Hne) as Hc.
  assert (Hmiss : FS.lookup (fs a) (FS.path_join (level info') name) = None).
  { unfold FS.lookup. rewrite Hc. now rewrite (walk_app _ _ _ _ Hlook). }
  destruct (mkdir_creates _ _ _ es (fs a) (parent_and_name_app _ _ _ Hc)
              Hlook Hmiss) as [fs' [Hm Hl']].
  unfold createFolder, bind at 1, get_state. rewrite Hd.
  unfold bind at 1, modify. unfold bind at 1, lift. rewrite Hl.
  unfold bind at 1. unfold try_except, on_fs. cbn [fs with_info].
  rewrite Hm. unfold bind at 1. rewrite read_folder_raises.
  eexists. split; [reflexivity|]. cbn. auto.
Qed.

Lemma createFolder_leaves_folder_witness :
  exists a',
    createFolder ".md" (accept_folder "recipes") shelf_app
    = (Raise TypeError, a') /\
    FS.lookup (fs a') "/home/notes/recipes" = Some (FS.Dir []) /\
    level (info a') = "/home/notes".
Proof.
  destruct (createFolder_leaves_folder ".md" (accept_folder "recipes")
              shelf_app
              (set_listing (notebooks shelf_info)
                 (folders shelf_info ++ ["recipes"]) shelf_info)
              "recipes"
              [("todo.md", FS.File todo_text);
               ("empty.md", FS.File "");
               (".website", FS.Dir []);
               (".temp", FS.Dir [])]
              eq_refl eq_refl ltac:(discriminate) eq_refl eq_refl eq_refl)
    as [a' [H1 [H2 [H3 _]]]].
  exists a'. split; [exact H1|]. split; [exact H2|]. now rewrite H3.
Defined.

(** ** The labels on the shelves *)

(** X7. The button [createLines] makes for a notebook is labelled with the
    file name up to its last dot, and the slots for a label put EXTENSION
    after it. For a file name without path separator, where EXTENSION is a
    dot followed by characters other than dots, the path [previewNotebook]
    builds from the label is the notebook's own exactly when the file name
    ends with EXTENSION after a stem that is not made of dots only. *)
Theorem shelf_label_addresses_notebook (EXTENSION ext : string)
  (i : Information) (notebook : string) :
  EXTENSION = String "." ext ->
  str_existsb (Ascii.eqb "."%char) ext = false ->
  str_existsb (Ascii.eqb FS.SEP) notebook = false ->
  In notebook (notebooks i) ->
  let label := fst (FS.splitext notebook) in
  In (label, "notebook") (createLines i) /\
  (previewNotebook EXTENSION i label = FS.path_join (level i) notebook <->
   exists stem,
     notebook = (stem ++ EXTENSION)%string /\
     str_forallb (Ascii.eqb "."%char) stem = false).
Proof.
  intros -> Hext Hsep Hin label. split.
  - unfold createLines. apply in_or_app. left.
    apply in_map_iff. exists notebook. auto.
  - unfold previewNotebook. split.
    + intros H. apply path_join_inj in H.
      2:{ apply startswith_app; [now apply splitext_no_sep | reflexivity]. }
      2:{ now apply startswith_no_sep. }
      exists label. split; [now rewrite H|].
      destruct (splitext_name notebook Hsep) as [Hw|Hd]; [|exact Hd].
      fold label in Hw. rewrite Hw in H.
      apply (f_equal String.length) in H.
      rewrite length_append in H. cbn [String.length] in H. lia.
    + intros [stem [-> Hd]]. unfold label.
      now rewrite (splitext_stem stem ext Hext Hsep Hd).
Qed.

Lemma shelf_label_addresses_notebook_witness :
  In ("todo", "notebook") (createLines shelf_info) /\
  previewNotebook ".md" shelf_info "todo" = "/home/notes/todo.md".
Proof.
  destruct (shelf_label_addresses_notebook ".md" "md" shelf_info "todo.md"
              eq_refl eq_refl eq_refl (or_introl eq_refl)) as [H1 H2].
  split; [exact H1|].
  apply (proj2 H2). exists "todo". split; reflexivity.
Defined.

(** X8. Every folder a scan of [main] returns gets a button labelled with
    the folder's own name: the name of a directory listed in [main] that is
    not hidden and holds a notebook. Joined to [main], the path under which
    [removeFolder] looks a label up when [main] is the current level, the
    label gives the folder's path back. Here file names hold no path
    separator. *)
Theorem folder_labels_name_folders (EXTENSION main : string) (fs0 : FS.node)
  (es : list (string * FS.node)) (i : Information) (f : string) :
  FS.lookup fs0 main = Some (FS.Dir es) ->
  FS.names_ok (FS.Dir es) = true ->
  Forall (fun e => str_existsb (Ascii.eqb FS.SEP) (fst e) = false) es ->
  fst (search_folder_recursively EXTENSION main fs0)
  = Ok (notebooks i, folders i) ->
  In f (folders i) ->
  In (FS.basename f, "folder") (createLines i) /\
  FS.path_join main (FS.basename f) = f /\
  hidden (FS.basename f) = false /\
  exists sub,
    In (FS.basename f, FS.Dir sub) es /\
    direct_notebooks EXTENSION sub <> [].
Proof.
  intros Hl Hok Hsep Hscan Hin.
  unfold search_folder_recursively in Hscan. rewrite Hl in Hscan.
  cbn [fst] in Hscan.
  rewrite (search_node_spec EXTENSION _ main es eq_refl Hok) in Hscan.
  injection Hscan as _ Hf. pose proof Hin as Hin'.
  rewrite <- Hf in Hin'.
  apply In_direct_folders in Hin' as [d [sub [Hd [Hh [Hn ->]]]]].
  rewrite Forall_forall in Hsep. pose proof (Hsep _ Hd) as Hds.
  cbn [fst] in Hds. rewrite (basename_path_join _ _ Hds).
  split; [|split; [reflexivity|split; [exact Hh|eauto]]].
  unfold createLines. apply in_or_app. right. apply in_map_iff.
  exists (FS.path_join main d). split; [|exact Hin].
  now rewrite (basename_path_join _ _ Hds).
Qed.

Lemma folder_labels_name_folders_witness :
  In ("sub", "folder") (createLines library_info) /\
  FS.path_join "/home/notes" "sub" = "/home/notes/sub" /\
  exists sub,
    In ("sub", FS.Dir sub) notes_listing /\ direct_notebooks ".md" sub <> [].
Proof.
  destruct (folder_labels_name_folders ".md" "/home/notes" example_disk
              notes_listing library_info "/home/notes/sub"
              eq_refl eq_refl)
    as [H1 [H2 [_ H3]]].
  - repeat constructor.
  - reflexivity.
  - now left.
  - split; [exact H1|]. split; [exact H2 | exact H3].
Defined.

(** ** Removing a folder *)

Lemma all_hidden_folders_spec cwd fs : forall names,
  Forall (fun e => e <> EmptyString) names ->
  all_hidden_folders cwd fs names
  = Ok (forallb (fun e => FS.isdir fs (FS.path_join cwd e) && hidden e)
          names).
Proof.
  induction names as [|e r IH]; intros H; [reflexivity|].
  inversion H as [|? ? He Hr]; subst. cbn [all_hidden_folders forallb].
  destruct (FS.isdir fs (FS.path_join cwd e)); [|reflexivity].
  destruct e as [|c s]; [congruence|]. cbn [andb].
  unfold hidden, startswith.
  change (String.prefix "." (String c s))
    with (if ascii_dec "." c then String.prefix "" s else false).
  destruct (Ascii.eqb_spec c "."%char) as [->|Hne].
  - destruct (ascii_dec "." "."); [|congruence].
    rewrite (IH Hr). now destruct s.
  - destruct (ascii_dec "." c); [congruence | reflexivity].
Qed.

(** X9. [removeFolder] for a folder of the current level that [info.folders]
    lists. The question is asked unless every name in the folder is also the
    name of a hidden directory of the working directory, which is where
    [os.path.isdir] looks for the bare names; so it is skipped for a folder
    that lists nothing. When the question is skipped or answered with Yes,
    the folder is gone from the disk with all it held and the first
    occurrence of its path is gone from [info.folders]; when the answer is
    No, the disk and [info] are as before. *)
Theorem removeFolder_spec (cwd : string) (answer : Reply) (folder : string)
  (sub : list (string * FS.node)) (a : App) :
  let path := FS.path_join (level (info a)) folder in
  let question :=
    (folder ++ " still contains notebooks, "
       ++ "are you sure you want to delete it?")%string in
  let looks_empty :=
    forallb (fun e => FS.isdir (fs a) (FS.path_join cwd e) && hidden e)
      (map fst sub) in
  folder <> EmptyString ->
  str_existsb (Ascii.eqb FS.SEP) folder = false ->
  FS.lookup (fs a) path = Some (FS.Dir sub) ->
  FS.names_ok (FS.Dir sub) = true ->
  In path (folders (info a)) ->
  exists a',
    removeFolder cwd answer folder a = (Ok tt, a') /\
    (looks_empty = true -> dialogs a' = dialogs a) /\
    (looks_empty = false -> dialogs a' = dialogs a ++ [question]) /\
    (looks_empty = true \/ answer = Yes ->
       FS.lookup (fs a') path = None /\
       folders (info a') = remove_first path (folders (info a)) /\
       notebooks (info a') = notebooks (info a) /\
       refreshes a' = S (refreshes a)) /\
    (looks_empty = false -> answer = No ->
       fs a' = fs a /\ info a' = info a /\ refreshes a' = refreshes a).
Proof.
  intros path question looks_empty Hne Hsep Hl Hok Hin.
  pose proof (components_join_name (level (info a)) folder Hsep Hne) as Hc.
  destruct (rmtree_dir path _ _ sub (fs a) (parent_and_name_app _ _ _ Hc) Hl)
    as [fs' [Hr Hl']].
  destruct (index_then_pop path _ Hin) as [i [Hi Hp]].
  assert (Hnames : all_hidden_folders cwd (fs a) (map fst sub)
                   = Ok looks_empty).
  { apply all_hidden_folders_spec. apply names_ok_entries in Hok.
    rewrite Forall_forall in *. intros e He. apply in_map_iff in He.
    destruct He as [x [<- Hx]]. now apply Hok. }
  unfold removeFolder, bind at 1, get_state. fold path.
  unfold bind at 1, lift, FS.listdir. rewrite Hl.
  unfold bind at 1. rewrite Hnames.
  destruct looks_empty; cbn [negb].
  - unfold bind, modify, get_state, on_fs, lift, refresh. simpl.
    rewrite Hr. simpl. fold path. rewrite Hi, Hp. simpl.
    eexists. split; [reflexivity|]. simpl.
    repeat split; auto; try congruence.
  - destruct answer.
    + unfold bind, modify, get_state, on_fs, lift, refresh, show_dialog.
      simpl. rewrite Hr. simpl. fold path. rewrite Hi, Hp. simpl.
      eexists. split; [reflexivity|]. simpl.
      repeat split; auto; try congruence.
    + unfold bind, modify, get_state, on_fs, lift, refresh, show_dialog.
      simpl. eexists. split; [reflexivity|]. simpl.
      split; [intros H; discriminate|].
      split; [reflexivity|].
      split; [intros [H|H]; discriminate|].
      intros _ _. split; [reflexivity|]. split; [now destruct a as [[]]|].
      reflexivity.
Qed.

Lemma removeFolder_spec_witness :
  exists a',
    removeFolder "/home" Yes "sub" library_app = (Ok tt, a') /\
    dialogs a'
    = ["sub still contains notebooks, are you sure you want to delete it?"] /\
    FS.lookup (fs a') "/home/notes/sub" = None /\
    folders (info a') = [].
Proof.
  destruct (removeFolder_spec "/home" Yes "sub" [("c.md", FS.File "")]
              library_app ltac:(discriminate) eq_refl eq_refl eq_refl
              (or_introl eq_refl))
    as [a' [H1 [_ [H2 [H3 _]]]]].
  exists a'. split; [exact H1|].
  split; [apply H2; reflexivity|].
  destruct (H3 (or_intror eq_refl)) as [H4 [H5 _]].
  split; [exact H4 | exact H5].
Defined.

(** X10. [removeFolder] deletes before it looks the folder up in [info]. For
    a folder on the disk whose path [info.folders] does not list, once the
    question is skipped or answered with Yes, the folder is gone with all it
    held when [list.index] raises [ValueError]; [info] is as before and the
    shelves are not refreshed. A folder name that names no directory raises
    [OSError] at once, nothing being changed. *)
Theorem removeFolder_errors (cwd : string) (answer : Reply) (folder : string)
  (a : App) :
  let path := FS.path_join (level (info a)) folder in
  (FS.isdir (fs a) path = false ->
   removeFolder cwd answer folder a = (Raise OSError, a)) /\
  (forall sub,
     folder <> EmptyString ->
     str_existsb (Ascii.eqb FS.SEP) folder = false ->
     FS.lookup (fs a) path = Some (FS.Dir sub) ->
     FS.names_ok (FS.Dir sub) = true ->
     ~ In path (folders (info a)) ->
     sub = [] \/ answer = Yes ->
     exists a',
       removeFolder cwd answer folder a = (Raise ValueError, a') /\
       FS.lookup (fs a') path = None /\
       info a' = info a /\ refreshes a' = refreshes a).
Proof.
  intros path. split.
  - intros Hd. unfold removeFolder, bind at 1, get_state. fold path.
    unfold bind at 1, lift, FS.listdir. unfold FS.isdir in Hd.
    destruct (FS.lookup (fs a) path) as [[?|?|]|]; try reflexivity.
    discriminate.
  - intros sub Hne Hsep Hl Hok Hnot Hyes.
    pose proof (components_join_name (level (info a)) folder Hsep Hne) as Hc.
    destruct (rmtree_dir path _ _ sub (fs a) (parent_and_name_app _ _ _ Hc)
                Hl) as [fs' [Hr Hl']].
    pose proof (list_index_absent path _ Hnot) as Hi.
    assert (Hnames : all_hidden_folders cwd (fs a) (map fst sub)
                     = Ok (forallb (fun e => FS.isdir (fs a)
                                               (FS.path_join cwd e)
                                             && hidden e) (map fst sub))).
    { apply all_hidden_folders_spec. apply names_ok_entries in Hok.
      rewrite Forall_forall in *. intros e He. apply in_map_iff in He.
      destruct He as [x [<- Hx]]. now apply Hok. }
    unfold removeFolder, bind at 1, get_state. fold path.
    unfold bind at 1, lift, FS.listdir. rewrite Hl.
    unfold bind at 1. rewrite Hnames.
    destruct (forallb _ _) eqn:Hempty; cbn [negb].
    + unfold bind, modify, get_state, on_fs, lift, refresh. simpl.
      rewrite Hr. simpl. fold path. rewrite Hi.
      eexists. split; [reflexivity|]. simpl. auto.
    + destruct Hyes as [-> | ->]; [discriminate|].
      unfold bind, modify, get_state, on_fs, lift, refresh, show_dialog.
      simpl. rewrite Hr. simpl. fold path. rewrite Hi.
      eexists. split; [reflexivity|]. simpl. auto.
Qed.

Lemma removeFolder_errors_witness :
  removeFolder "/home" Yes "nothing" stale_app = (Raise OSError, stale_app) /\
  exists a',
    removeFolder "/home" Yes "sub" stale_app = (Raise ValueError, a') /\
    FS.lookup (fs a') "/home/notes/sub" = None /\
    refreshes a' = 0.
Proof.
  split.
  - exact (proj1 (removeFolder_errors "/home" Yes "nothing" stale_app)
             eq_refl).
  - destruct (proj2 (removeFolder_errors "/home" Yes "sub" stale_app)
                [("c.md", FS.File "")] ltac:(discriminate) eq_refl eq_refl
                eq_refl ltac:(intros []) (or_intror eq_refl))
      as [a' [H1 [H2 [_ H3]]]].
    exists a'. split; [exact H1|]. split; [exact H2 | exact H3].
Defined.

(* ===================================================================== *)
(** * The tabs of the Editing frame                                        *)
(* ===================================================================== *)

Lemma initUI_tabs_from : forall (l : list string) t,
  Editing.count (fold_left (fun t _ => Editing.addTab t) l t)
  = Editing.count t + length l /\
  Editing.currentIndex (fold_left (fun t _ => Editing.addTab t) l t)
  = match Editing.count t, l with
    | O, _ :: _ => 0%Z
    | _, _ => Editing.currentIndex t
    end.
Proof.
  induction l as [|x r IH]; intros t; cbn [fold_left length].
  - split; [lia | now destruct (Editing.count t)].
  - destruct (IH (Editing.addTab t)) as [H1 H2]. rewrite H1, H2.
    cbn [Editing.addTab Editing.count Editing.currentIndex].
    split; [lia | now destruct (Editing.count t)].
Qed.

(** X11. Switching to a notebook and asking for its preview. With as many
    tabs as [info.notebooks] has names, as [Editing.initUI] leaves them,
    [switchNotebook] followed by [preview] emits the file name of the
    notebook asked for, if it is listed; for a notebook that is not listed
    [switchNotebook] raises [ValueError]. Right after [initUI] the preview
    is that of the first notebook, and with no notebook at all [preview]
    raises [IndexError]. *)
Theorem switchNotebook_then_preview (EXTENSION : string) (i : Information)
  (notebook : string) :
  let name := (notebook ++ EXTENSION)%string in
  Editing.count (Editing.initUI_tabs i) = length (notebooks i) /\
  Editing.preview i (Editing.initUI_tabs i)
  = match notebooks i with
    | [] => Raise IndexError
    | first :: _ => Ok first
    end /\
  (forall tabs,
     Editing.count tabs = length (notebooks i) ->
     In name (notebooks i) ->
     exists tabs',
       Editing.switchNotebook EXTENSION i notebook tabs = Ok tabs' /\
       Editing.preview i tabs' = Ok name) /\
  (forall tabs,
     ~ In name (notebooks i) ->
     Editing.switchNotebook EXTENSION i notebook tabs = Raise ValueError).
Proof.
  intros name.
  destruct (initUI_tabs_from (notebooks i) Editing.new_QTabWidget)
    as [Hcount Hcur].
  split; [exact Hcount|]. split; [|split].
  - unfold Editing.preview, Editing.initUI_tabs. rewrite Hcur.
    cbn [Editing.count Editing.currentIndex Editing.new_QTabWidget].
    destruct (notebooks i) as [|first rest]; [reflexivity|].
    unfold list_get. cbn [length Z.ltb Z.compare].
    destruct (Z.ltb_spec 0 (Z.of_nat (S (length rest)))); [|lia].
    reflexivity.
  - intros tabs Htabs Hin.
    destruct (index_then_pop name _ Hin) as [idx [Hidx _]].
    destruct (list_index_nth _ _ _ Hidx) as [Hnth Hlt].
    unfold Editing.switchNotebook. fold name. rewrite Hidx.
    eexists. split; [reflexivity|].
    unfold Editing.preview, Editing.setCurrentIndex. rewrite Htabs.
    destruct (Z.leb_spec 0 (Z.of_nat idx)); [|lia].
    destruct (Z.ltb_spec (Z.of_nat idx) (Z.of_nat (length (notebooks i))));
      [|lia].
    cbn [andb Editing.currentIndex]. unfold list_get.
    destruct (Z.ltb_spec (Z.of_nat idx) 0); [lia|].
    destruct (Z.leb_spec 0 (Z.of_nat idx)); [|lia].
    destruct (Z.ltb_spec (Z.of_nat idx) (Z.of_nat (length (notebooks i))));
      [|lia].
    cbn [andb]. now rewrite Nat2Z.id, Hnth.
  - intros tabs Hnot. unfold Editing.switchNotebook. fold name.
    now rewrite (list_index_absent _ _ Hnot).
Qed.

(* ===================================================================== *)
(** * Preview                                                              *)
(* ===================================================================== *)

(** ** The line ends of the page *)





(** ** A conversion that fails *)

Lemma ensure_dir_inv path a r a' :
  ensure_dir path a = (r, a') -> exists x, a' = with_fs x a.
Proof.
  unfold ensure_dir, bind, get_state, on_fs, ret.
  destruct (FS.isdir (fs a) path).
  - intros H. injection H as _ <-. exists (fs a). now destruct a.
  - destruct (FS.mkdir path (fs a)) as [r0 x]. intros H.
    injection H as _ <-. now exists x.
Qed.

Lemma initLogic_inv a a1 :
  initLogic a = (Ok tt, a1) ->
  info a1 = info a /\ web a1 = web a /\ tagButtons a1 = tagButtons a /\
  remaining_tags a1 = remaining_tags a /\ dialogs a1 = dialogs a /\
  extracted_tags a1 = [] /\ filters a1 = [].
Proof.
  unfold initLogic. unfold bind at 1, get_state.
  unfold bind at 1, modify. unfold bind at 1.
  destruct (ensure_dir _ _) as [[u|e] a2] eqn:H2; [|discriminate].
  unfold bind at 1.
  destruct (ensure_dir _ a2) as [[u'|e] a3] eqn:H3; [|discriminate].
  unfold bind. intros H. injection H as <-.
  apply ensure_dir_inv in H2 as [x2 ->]. apply ensure_dir_inv in H3 as [x3 ->].
  simpl. auto 10.
Qed.





(** ** The conversion and the tag buttons *)

Lemma same_widgets_refl a : same_widgets a a.
Proof. unfold same_widgets. auto 10. Qed.

Lemma same_widgets_trans a b c :
  same_widgets a b -> same_widgets b c -> same_widgets a c.
Proof.
  unfold same_widgets. intros [? [? [? [? [? ?]]]]] [? [? [? [? [? ?]]]]].
  repeat split; congruence.
Qed.

Lemma on_fs_same_widgets {A} (m : M FS.node A) a r a' :
  on_fs m a = (r, a') -> same_widgets a a' /\ dialogs a' = dialogs a.
Proof.
  unfold on_fs. destruct (m (fs a)) as [r0 x]. intros H.
  injection H as _ <-. unfold same_widgets. simpl. auto 10.
Qed.


Section Conversion.

Variable EXTENSION : string.
Variable from_notes_to_markdown :
  FS.node -> string -> list string -> result (list string * od).
Variable popup_exec : bool.
Variable pandoc : string -> list string -> result string.

(** The [try] statement changes nothing but the dialogs shown, and what it
    binds is what the note converter returned. *)
Lemma try_from_notes_to_markdown_inv path tags a r a' :
  try_from_notes_to_markdown from_notes_to_markdown popup_exec path tags a
    = (r, a') ->
  same_widgets a a' /\ fs a' = fs a /\
  forall markdown remaining,
    r = Ok (Some (markdown, remaining)) ->
    from_notes_to_markdown (fs a) path tags = Ok (markdown, remaining).
Proof.
  unfold try_from_notes_to_markdown, try_except, bind, get_state, lift.
  destruct (from_notes_to_markdown (fs a) path tags) as [[md rem]|e].
  - unfold ret. intros H. injection H as <- <-.
    split; [apply same_widgets_refl|]. split; auto.
    intros ? ? H. now injection H as <- <-.
  - destruct e; simpl; destruct popup_exec; simpl;
      unfold show_dialog, modify, raise, ret; intros H;
      injection H as <- <-;
      (split; [unfold same_widgets; simpl; auto 10|]);
      (split; [reflexivity|]); intros ? ? H; discriminate.
Qed.

(** [convert] changes the disk and the dialogs shown, nothing else; when
    it returns, the remaining tags are the ones the note converter
    returned for these tags. *)
Lemma convert_inv path tags a r a' :
  convert EXTENSION from_notes_to_markdown popup_exec pandoc path tags a
    = (r, a') ->
  same_widgets a a' /\
  forall url remaining,
    r = Ok (url, remaining) ->
    exists markdown,
      from_notes_to_markdown (fs a) path tags = Ok (markdown, remaining).
Proof.
  unfold convert. unfold bind at 1.
  destruct (try_from_notes_to_markdown _ _ _ _ _) as [[bound|e] a1] eqn:Ht.
  - apply try_from_notes_to_markdown_inv in Ht as [Hs [Hfs Htp]].
    unfold bind at 1, get_state.
    destruct bound as [[markdown rem]|].
    + specialize (Htp _ _ eq_refl).
      unfold bind at 1.
      destruct (on_fs _ a1) as [[u|e] a2] eqn:H2.
      * apply on_fs_same_widgets in H2 as [H2 _].
        unfold bind at 1, lift.
        destruct (pandoc _ _) as [html|e].
        -- unfold bind at 1.
           destruct (on_fs _ a2) as [[u'|e] a3] eqn:H3;
             apply on_fs_same_widgets in H3 as [H3 _];
             unfold ret; intros H; injection H as <- <-.
           ++ split.
              ** eapply same_widgets_trans; [exact Hs|].
                 eapply same_widgets_trans; eauto.
              ** intros ? ? H. injection H as _ <-. eauto.
           ++ split.
              ** eapply same_widgets_trans; [exact Hs|].
                 eapply same_widgets_trans; eauto.
              ** intros ? ? H. discriminate.
        -- intros H. injection H as <- <-. split.
           ++ eapply same_widgets_trans; eauto.
           ++ intros ? ? H. discriminate.
      * apply on_fs_same_widgets in H2 as [H2 _].
        intros H. injection H as <- <-. split.
        -- eapply same_widgets_trans; eauto.
        -- intros ? ? H. discriminate.
    + unfold bind at 1.
      destruct (on_fs _ a1) as [[u|e] a2] eqn:H2;
        apply on_fs_same_widgets in H2 as [H2 _];
        unfold raise; intros H; injection H as <- <-;
        (split; [eapply same_widgets_trans; eauto|]);
        intros ? ? H; discriminate.
  - apply try_from_notes_to_markdown_inv in Ht as [Hs _].
    intros H. injection H as <- <-. split; auto.
    intros ? ? H. discriminate.
Qed.

(** What a filter evaluation does: it fails and leaves the widgets as
    they are, or it stores the remaining tags the note converter returned
    for the present filters and greys the buttons by them. *)
Lemma evaluate_filters_inv a r a' :
  evaluate_filters EXTENSION from_notes_to_markdown popup_exec pandoc a
    = (r, a') ->
  filters a' = filters a /\
  ((exists e, r = Raise e /\ tagButtons a' = tagButtons a) \/
   (r = Ok tt /\
    exists markdown,
      from_notes_to_markdown (fs a) (notebook_path a) (filters a)
        = Ok (markdown, remaining_tags a') /\
      tagButtons a' = grey_out (remaining_tags a') (tagButtons a))).
Proof.
  unfold evaluate_filters. unfold bind at 1, get_state.
  unfold bind at 1.
  destruct (convert _ _ _ _ _ _ a) as [[[url rem]|e] a1] eqn:Hc;
    apply convert_inv in Hc as [[Hi [Hf [Hb [Hr [Hw He]]]]] Htp].
  - destruct (Htp _ _ eq_refl) as [markdown Hm].
    unfold bind, modify, setWebpage. intros H. injection H as <- <-.
    simpl. split; auto. right. split; auto. exists markdown.
    rewrite Hb. auto.
  - intros H. injection H as <- <-. split; auto. left. eauto.
Qed.


End Conversion.

Lemma enableButton_state b :
  flat (enableButton b) = false /\ checkable (enableButton b) = true.
Proof. destruct b as [f [] c]; split; reflexivity. Qed.

Lemma disableButton_state b :
  flat (disableButton b) = true /\ checkable (disableButton b) = false.
Proof. destruct b as [f [] c]; split; reflexivity. Qed.

Lemma grey_out_greyed_by remaining buttons :
  greyed_by remaining (grey_out remaining buttons).
Proof.
  intros key b Hin. unfold grey_out in Hin. apply in_map_iff in Hin.
  destruct Hin as [[k b0] [Heq Hin]]. simpl in Heq.
  injection Heq as -> <-.
  destruct (od_mem key remaining); split; intros H; try discriminate.
  - apply enableButton_state.
  - apply disableButton_state.
Qed.

Lemma grey_out_keys remaining buttons :
  map fst (grey_out remaining buttons) = map fst buttons.
Proof. unfold grey_out. rewrite map_map. reflexivity. Qed.




(** ** The filter list and the checked buttons *)

Lemma toggle_at_keys i : forall buttons,
  map fst (toggle_at i buttons) = map fst buttons.
Proof.
  induction i as [|i IH]; intros [|[k b] r]; simpl; auto.
  now rewrite IH.
Qed.

Lemma toggle_at_nth i : forall buttons k b,
  nth_error buttons i = Some (k, b) ->
  nth_error (toggle_at i buttons) i = Some (k, toggled b).
Proof.
  induction i as [|i IH]; intros [|[k0 b0] r] k b H; simpl in *;
    try discriminate.
  - now injection H as -> ->.
  - now apply IH.
Qed.

Lemma toggle_at_missing i : forall buttons,
  nth_error buttons i = None -> toggle_at i buttons = buttons.
Proof.
  induction i as [|i IH]; intros [|[k0 b0] r] H; simpl in *;
    try discriminate; auto.
  now rewrite IH.
Qed.

Lemma toggle_at_fixed i : forall buttons k b,
  nth_error buttons i = Some (k, b) -> toggled b = b ->
  toggle_at i buttons = buttons.
Proof.
  induction i as [|i IH]; intros [|[k0 b0] r] k b H Hb; simpl in *;
    try discriminate.
  - injection H as -> ->. now rewrite Hb.
  - f_equal. eapply IH; eauto.
Qed.

(** With distinct labels, the buttons after a click are the clicked one,
    toggled, and the others as they were. *)
Lemma toggle_at_In i : forall buttons text b,
  NoDup (map fst buttons) ->
  nth_error buttons i = Some (text, b) ->
  forall k b',
    In (k, b') (toggle_at i buttons) <->
    (k = text /\ b' = toggled b) \/ (k <> text /\ In (k, b') buttons).
Proof.
  induction i as [|i IH]; intros [|[k0 b0] r] text b Hnd H k b';
    simpl in *; try discriminate.
  - injection H as -> ->. inversion Hnd as [|? ? Hnotin Hnd']; subst.
    split.
    + intros [Heq|Hin].
      * injection Heq as <- <-. auto.
      * right. split; [|auto]. intros ->. apply Hnotin.
        apply (in_map fst) in Hin. exact Hin.
    + intros [[-> ->]|[Hne [Heq|Hin]]]; auto.
      injection Heq as -> _. congruence.
  - inversion Hnd as [|? ? Hnotin Hnd']; subst.
    rewrite (IH r text b Hnd' H). split.
    + intros [Heq|[[-> ->]|[Hne Hin]]]; auto.
      injection Heq as <- <-. right. split; auto.
      intros ->. apply Hnotin. apply nth_error_In in H.
      apply (in_map fst) in H. exact H.
    + intros [[-> ->]|[Hne [Heq|Hin]]]; auto.
Qed.

Lemma toggled_checkable b :
  checkable b = true ->
  flat (toggled b) = flat b /\ checkable (toggled b) = true /\
  checked (toggled b) = negb (checked b).
Proof. intros H. unfold toggled. rewrite H. simpl. auto. Qed.

(** Checking an enabled button and appending its label keeps the
    invariant. *)
Lemma buttons_ok_check i buttons selected text b :
  buttons_ok buttons selected ->
  nth_error buttons i = Some (text, b) ->
  flat b = false -> checked b = false ->
  buttons_ok (toggle_at i buttons) (selected ++ [text]).
Proof.
  intros [Hk [Hs [Hb Hincl]]] Hnth Hflat Hchecked.
  pose proof (nth_error_In _ _ Hnth) as Hin.
  destruct (Hb _ _ Hin) as [Hiff [Hfc Hcc]].
  assert (Hcheckable : checkable b = true).
  { rewrite Hflat in Hfc. now destruct (checkable b). }
  assert (Hnew : ~ In text selected).
  { intros H. apply Hiff in H. congruence. }
  destruct (toggled_checkable b Hcheckable) as [Tf [Tc Tch]].
  split; [now rewrite toggle_at_keys|]. split.
  { apply NoDup_app; auto.
    - constructor; [intros [] | constructor].
    - intros x Hx [<-|[]]. contradiction. }
  split.
  - intros key b' H. apply (toggle_at_In i buttons text b Hk Hnth) in H.
    destruct H as [[-> ->]|[Hne H]].
    + rewrite Tf, Tc, Tch, Hflat, Hchecked. simpl.
      split; [split; auto | split; [reflexivity | discriminate]].
      intros _. apply in_or_app. right. now left.
    + destruct (Hb _ _ H) as [Hiff' [Hfc' Hcc']].
      split; [split | split; auto].
      * intros Hc. apply in_or_app. left. now apply Hiff'.
      * intros Hi. apply in_app_or in Hi as [Hi|[Hi|[]]];
          [now apply Hiff' | congruence].
  - intros key H. rewrite toggle_at_keys.
    apply in_app_or in H as [H|[<-|[]]]; auto.
    apply (in_map fst) in Hin. exact Hin.
Qed.

(** Unchecking an enabled button and removing its label keeps the
    invariant. *)
Lemma buttons_ok_uncheck i buttons selected text b :
  buttons_ok buttons selected ->
  nth_error buttons i = Some (text, b) ->
  flat b = false -> checked b = true ->
  buttons_ok (toggle_at i buttons) (remove_first text selected).
Proof.
  intros [Hk [Hs [Hb Hincl]]] Hnth Hflat Hchecked.
  pose proof (nth_error_In _ _ Hnth) as Hin.
  destruct (Hb _ _ Hin) as [Hiff [Hfc Hcc]].
  assert (Hcheckable : checkable b = true).
  { rewrite Hflat in Hfc. now destruct (checkable b). }
  destruct (toggled_checkable b Hcheckable) as [Tf [Tc Tch]].
  split; [now rewrite toggle_at_keys|].
  split; [now apply remove_first_NoDup_kept|]. split.
  - intros key b' H. apply (toggle_at_In i buttons text b Hk Hnth) in H.
    rewrite (remove_first_In text selected key Hs).
    destruct H as [[-> ->]|[Hne H]].
    + rewrite Tf, Tc, Tch, Hflat, Hchecked. simpl.
      split; [split | split; [reflexivity | discriminate]].
      * discriminate.
      * intros [_ H]. congruence.
    + destruct (Hb _ _ H) as [Hiff' [Hfc' Hcc']].
      split; [split | split; auto].
      * intros Hc. split; [now apply Hiff' | exact Hne].
      * intros [Hi _]. now apply Hiff'.
  - intros key H. rewrite toggle_at_keys.
    apply (remove_first_In text selected key Hs) in H as [H _]. auto.
Qed.

(** Greying the buttons by a map that names every selected tag keeps the
    invariant: no check mark is lost. *)
Lemma buttons_ok_grey_out remaining buttons selected :
  buttons_ok buttons selected ->
  (forall x, In x selected -> od_mem x remaining = true) ->
  buttons_ok (grey_out remaining buttons) selected.
Proof.
  intros [Hk [Hs [Hb Hincl]]] Hkeep.
  split; [now rewrite grey_out_keys|]. split; auto. split.
  - intros key b' H. unfold grey_out in H. apply in_map_iff in H.
    destruct H as [[k b0] [Heq H]]. simpl in Heq. injection Heq as -> <-.
    destruct (Hb _ _ H) as [Hiff [Hfc Hcc]].
    destruct (od_mem key remaining) eqn:Hm.
    + destruct b0 as [f c ch]. simpl in *.
      unfold enableButton, setCheckable, setFlat. simpl.
      destruct c; simpl.
      * split; [exact Hiff | split; [reflexivity | discriminate]].
      * rewrite (Hcc eq_refl) in Hiff.
        split; [exact Hiff | split; [reflexivity | discriminate]].
    + assert (Hnot : ~ In key selected).
      { intros Hi. apply Hkeep in Hi. congruence. }
      assert (Hch : checked b0 = false).
      { destruct (checked b0) eqn:E; auto. exfalso. apply Hnot.
        now apply Hiff. }
      destruct b0 as [f c ch]. simpl in *. subst ch.
      unfold disableButton, setCheckable, setFlat. simpl.
      destruct c; simpl;
        (split; [exact Hiff | split; [reflexivity | reflexivity]]).
  - intros key H. rewrite grey_out_keys. auto.
Qed.

Lemma fresh_preview_buttons_ok a :
  fresh_preview a -> buttons_ok (tagButtons a) (filters a).
Proof.
  intros [Hf [Hk Hnew]]. rewrite Hf. split; auto.
  split; [constructor|]. split.
  - intros key b H. rewrite Forall_forall in Hnew.
    specialize (Hnew _ H). simpl in Hnew. subst b.
    split; [split; [discriminate | intros []] | split; auto].
  - intros key [].
Qed.

Lemma buttons_ok_match a :
  buttons_ok (tagButtons a) (filters a) -> filters_match_buttons a.
Proof.
  intros [Hk [Hs [Hb Hincl]]]. split; auto.
  intros key. unfold label_checked. split.
  - intros H. pose proof (Hincl _ H) as Hi. apply in_map_iff in Hi.
    destruct Hi as [[k b] [Heq Hi]]. simpl in Heq. subst k.
    exists b. split; auto. now apply (Hb _ _ Hi).
  - intros [b [Hi Hc]]. now apply (Hb _ _ Hi).
Qed.

(** One click keeps the invariant, whatever the conversion does, as long
    as a conversion that returns names every selected tag. *)
Lemma click_keeps_buttons_ok (EXTENSION : string) (e : Event) (a : App)
  r a' :
  buttons_ok (tagButtons a) (filters a) ->
  conversion_keeps_selection e a ->
  click EXTENSION (ev_from_notes_to_markdown e) (ev_popup_exec e)
    (ev_pandoc e) (ev_button e) a = (r, a') ->
  buttons_ok (tagButtons a') (filters a').
Proof.
  intros Hok Hkeep H. unfold conversion_keeps_selection in Hkeep.
  unfold click_converts, selected_after_click in Hkeep.
  set (i := ev_button e) in *.
  unfold click in H. unfold bind at 1, modify in H.
  unfold addFilter in H. unfold bind at 1, get_state in H.
  cbn [tagButtons with_tagButtons filters] in H.
  assert (Hmid : forall selected a0,
             buttons_ok (toggle_at i (tagButtons a)) selected ->
             (forall markdown remaining,
                 ev_from_notes_to_markdown e (fs a) (notebook_path a)
                   selected = Ok (markdown, remaining) ->
                 forall x, In x selected -> od_mem x remaining = true) ->
             tagButtons a0 = toggle_at i (tagButtons a) ->
             filters a0 = selected ->
             fs a0 = fs a -> info a0 = info a ->
             evaluate_filters EXTENSION (ev_from_notes_to_markdown e)
               (ev_popup_exec e) (ev_pandoc e) a0 = (r, a') ->
             buttons_ok (tagButtons a') (filters a')).
  { intros selected a0 Hok0 Hk0 Hb0 Hf0 Hfs0 Hi0 He.
    apply evaluate_filters_inv in He as [Hf1 [[ex [_ Hb1]]|[_ H1]]].
    - now rewrite Hb1, Hf1, Hb0, Hf0.
    - destruct H1 as [markdown [Htp Hb1]].
      rewrite Hb1, Hf1, Hb0, Hf0.
      apply buttons_ok_grey_out; auto.
      unfold notebook_path in Htp. rewrite Hfs0, Hi0, Hf0 in Htp.
      eapply Hk0. exact Htp. }
  destruct (nth_error (tagButtons a) i) as [[text b]|] eqn:Hnth.
  - rewrite (toggle_at_nth _ _ _ _ Hnth) in H.
    pose proof (nth_error_In _ _ Hnth) as Hin.
    pose proof Hok as [Hk [Hs [Hb Hincl]]].
    destruct (Hb _ _ Hin) as [Hiff [Hfc Hcc]].
    destruct (flat b) eqn:Hflat.
    + (* a greyed button: nothing toggles, nothing is evaluated *)
      assert (Hc : checkable b = false) by (now destruct (checkable b)).
      assert (Ht : toggled b = b) by (unfold toggled; now rewrite Hc).
      rewrite Ht, Hflat in H. cbn [negb] in H. unfold ret in H.
      injection H as _ <-. cbn [tagButtons with_tagButtons filters].
      now rewrite (toggle_at_fixed _ _ _ _ Hnth Ht).
    + assert (Hc : checkable b = true) by (now destruct (checkable b)).
      destruct (toggled_checkable b Hc) as [Tf [Tc Tch]].
      rewrite Tf, Tch, Hflat in *. cbn [negb] in *.
      specialize (Hkeep eq_refl).
      destruct (checked b) eqn:Hchecked; cbn [negb] in *.
      * (* the button was checked: its label leaves the list *)
        assert (Hsel : In text (filters a)) by (now apply Hiff).
        destruct (index_then_pop text _ Hsel) as [i0 [Hi0 Hp0]].
        unfold bind at 1 in H. unfold bind at 1, lift in H.
        rewrite Hi0 in H. unfold bind at 1 in H. rewrite Hp0 in H.
        unfold modify in H.
        apply (Hmid (remove_first text (filters a))) in H; auto.
        eapply buttons_ok_uncheck; eauto.
      * (* the button was unchecked: its label joins the list *)
        unfold bind at 1, modify in H.
        apply (Hmid (filters a ++ [text])) in H; auto.
        eapply buttons_ok_check; eauto.
  - rewrite (toggle_at_missing _ _ Hnth), Hnth in H. unfold ret in H.
    injection H as _ <-. exact Hok.
Qed.

(** A load that succeeds leaves a fresh Preview: no filter, and one new
    button per key of the tags it stored (the keys of an ordered
    dictionary are distinct). *)
Lemma loadNotebook_fresh_preview (EXTENSION : string)
  (from_notes_to_markdown :
     FS.node -> string -> list string -> result (list string * od))
  (popup_exec : bool) (pandoc : string -> list string -> result string)
  (notebook : string) (a a' : App) :
  loadNotebook EXTENSION from_notes_to_markdown popup_exec pandoc notebook a
    = (Ok true, a') ->
  NoDup (od_keys (extracted_tags a')) ->
  fresh_preview a'.
Proof.
  unfold loadNotebook. unfold bind at 1.
  destruct (initLogic a) as [[u|e] a1] eqn:Hinit; [|discriminate].
  destruct u. apply initLogic_inv in Hinit as [_ [_ [_ [_ [_ [_ Hf]]]]]].
  unfold bind at 1, modify. unfold bind at 1, get_state.
  unfold bind at 1. unfold try_except at 1. unfold bind at 1.
  destruct (convert _ _ _ _ _ _ _) as [[[url tags]|e] a3] eqn:Hc.
  - apply convert_inv in Hc as [[_ [Hf3 _]] _]. cbn [filters with_info] in Hf3.
    unfold ret, bind, modify, clearUI, initUI, setWebpage, get_state.
    intros H. injection H as <-. intros Hnd.
    cbn [filters tagButtons extracted_tags with_web with_tagButtons
           with_extracted_tags] in *.
    unfold fresh_preview. simpl. split; [congruence|]. split.
    + rewrite map_map. exact Hnd.
    + apply Forall_forall. intros kb Hin. apply in_map_iff in Hin.
      destruct Hin as [kv [<- _]]. reflexivity.
  - destruct (exn_eqb e ValueError || exn_eqb e SyntaxError);
      unfold ret; intros H; discriminate.
Qed.

Lemma shelf_app_fresh : fresh_preview shelf_app.
Proof.
  split; [reflexivity|]. split.
  - cbn [map fst tagButtons shelf_app].
    repeat (constructor; [cbn [In]; intuition discriminate|]). constructor.
  - repeat constructor.
Qed.

(** C7, as the code has it. From a Preview that was just loaded, after
    any sequence of clicks on tag buttons in which every conversion that
    returns names all the selected tags among the remaining ones (so that
    no checked button is greyed out), [self.filters] has no repetition and
    holds exactly the labels of the checked tag buttons. *)
Theorem filters_follow_checked_buttons (EXTENSION : string)
  (events : list Event) : forall a : App,
  fresh_preview a ->
  conversions_keep_selection EXTENSION events a ->
  filters_match_buttons (run_clicks EXTENSION events a).
Proof.
  intros a Hfresh Hkeep. apply buttons_ok_match.
  apply fresh_preview_buttons_ok in Hfresh.
  revert a Hfresh Hkeep.
  induction events as [|e r IH]; intros a Hok Hkeep; simpl.
  - exact Hok.
  - destruct Hkeep as [He Hr]. apply IH; auto.
    destruct (click _ _ _ _ _ a) as [r0 a0] eqn:Hc.
    eapply click_keeps_buttons_ok; eauto.
Qed.

Lemma filters_follow_checked_buttons_witness :
  filters_match_buttons
    (run_clicks ".md"
       [click_answered 0 [("work", 1); ("urgent", 1)];
        click_answered 1 [("work", 1); ("urgent", 1)];
        click_answered 0 [("urgent", 1)]]
       shelf_app).
Proof.
  apply filters_follow_checked_buttons.
  - exact shelf_app_fresh.
  - cbn [conversions_keep_selection].
    split; [|split; [|split; [|exact I]]].
    + intros _ markdown remaining H. vm_compute in H. injection H as _ <-.
      intros x Hx. vm_compute in Hx.
      repeat (destruct Hx as [<-|Hx]; [reflexivity|]); contradiction.
    + intros _ markdown remaining H. vm_compute in H. injection H as _ <-.
      intros x Hx. vm_compute in Hx.
      repeat (destruct Hx as [<-|Hx]; [reflexivity|]); contradiction.
    + intros _ markdown remaining H. vm_compute in H. injection H as _ <-.
      intros x Hx. vm_compute in Hx.
      repeat (destruct Hx as [<-|Hx]; [reflexivity|]); contradiction.
Defined.

(** C7 as stated fails when a conversion returns a map without a selected
    tag (the notebook no longer holds an entry with it): the checked
    button is greyed out and loses its check mark, while its label stays
    in [self.filters]. *)
Lemma greyed_out_button_stays_in_filters :
  fresh_preview shelf_app /\
  filters (run_clicks ".md" [click_answered 0 []] shelf_app) = ["work"] /\
  ~ label_checked
      (tagButtons (run_clicks ".md" [click_answered 0 []] shelf_app))
      "work" /\
  ~ filters_match_buttons
      (run_clicks ".md" [click_answered 0 []] shelf_app).
Proof.
  assert (Ef : filters (run_clicks ".md" [click_answered 0 []] shelf_app)
               = ["work"]) by (vm_compute; reflexivity).
  assert (Eb : tagButtons (run_clicks ".md" [click_answered 0 []] shelf_app)
               = [("work", disableButton new_tag_button);
                  ("urgent", disableButton new_tag_button);
                  ("personal", disableButton new_tag_button)])
    by (vm_compute; reflexivity).
  assert (Hno : ~ label_checked
                  (tagButtons
                     (run_clicks ".md" [click_answered 0 []] shelf_app))
                  "work").
  { rewrite Eb. intros [b [Hin Hc]].
    destruct Hin as [Heq|[Heq|[Heq|[]]]];
      inversion Heq; subst b; discriminate Hc. }
  split; [exact shelf_app_fresh|]. split; [exact Ef|].
  split; [exact Hno|].
  intros [_ H]. apply Hno. apply (proj1 (H "work")). rewrite Ef. now left.
Qed.

(** ** A load that succeeds *)

(** The address [convert] returns names a file it has written. *)
Lemma convert_page_file (EXTENSION : string)
  (from_notes_to_markdown :
     FS.node -> string -> list string -> result (list string * od))
  (popup_exec : bool) (pandoc : string -> list string -> result string)
  (path : string) (tags : list string) (a a' : App) (url : string)
  (remaining : od) :
  convert EXTENSION from_notes_to_markdown popup_exec pandoc path tags a
    = (Ok (url, remaining), a') ->
  exists page, FS.lookup (fs a') url = Some (FS.File page).
Proof.
  unfold convert. unfold bind at 1.
  destruct (try_from_notes_to_markdown _ _ _ _ _) as [[bound|e] a1];
    [|discriminate].
  unfold bind at 1, get_state.
  destruct bound as [[markdown rem]|].
  - unfold bind at 1.
    destruct (on_fs (FS.write_file _ _) a1) as [[u|e] a2]; [|discriminate].
    unfold bind at 1, lift.
    destruct (pandoc _ _) as [html|e]; [|discriminate].
    unfold bind at 1, on_fs.
    destruct (FS.write_file _ (page_text html) (fs a2)) as [[[]|e] x] eqn:Hw;
      [|discriminate].
    unfold ret. intros H. injection H as <- <- <-.
    exists (page_text html). cbn [fs with_fs].
    now apply write_file_lookup in Hw.
  - unfold bind at 1.
    destruct (on_fs (FS.write_file _ _) a1) as [[u|e] a2]; discriminate.
Qed.

(** X12. When [loadNotebook] returns True, the tags the note converter found
    for the notebook, read without filter, are stored; there is one new
    button per tag, in the order of the tags, enabled and unchecked; no
    filter is in force; and the page shown is the one [convert] wrote. *)
Theorem loadNotebook_success (EXTENSION : string)
  (from_notes_to_markdown :
     FS.node -> string -> list string -> result (list string * od))
  (popup_exec : bool) (pandoc : string -> list string -> result string)
  (notebook : string) (a a' : App) :
  loadNotebook EXTENSION from_notes_to_markdown popup_exec pandoc notebook a
    = (Ok true, a') ->
  exists a1 markdown url page,
    initLogic a = (Ok tt, a1) /\
    from_notes_to_markdown (fs a1) (FS.path_join (level (info a)) notebook) []
    = Ok (markdown, extracted_tags a') /\
    tagButtons a' = map (fun kv => (fst kv, new_tag_button))
                      (extracted_tags a') /\
    filters a' = [] /\
    current_notebook (info a') = notebook /\
    web a' = Some url /\
    FS.lookup (fs a') url = Some (FS.File page).
Proof.
  unfold loadNotebook. unfold bind at 1.
  destruct (initLogic a) as [[u|e] a1] eqn:Hinit; [|discriminate].
  destruct u.
  destruct (initLogic_inv _ _ Hinit) as [Hi [_ [_ [_ [_ [_ Hf]]]]]].
  unfold bind at 1, modify. unfold bind at 1, get_state.
  unfold bind at 1. unfold try_except at 1. unfold bind at 1.
  destruct (convert _ _ _ _ _ _ _) as [[[url tags]|e] a3] eqn:Hc.
  - pose proof Hc as Hpage.
    apply convert_page_file in Hpage as [page Hpage].
    apply convert_inv in Hc as [[Hi3 [Hf3 _]] Htp].
    destruct (Htp _ _ eq_refl) as [markdown Hm].
    cbn [fs info with_info level set_current_notebook filters] in *.
    rewrite Hi in Hm.
    unfold ret, bind, modify, clearUI, initUI, setWebpage, get_state.
    intros H. injection H as <-.
    exists a1, markdown, url, page. cbn. rewrite Hi3. cbn.
    repeat split; auto. congruence.
  - destruct (exn_eqb e ValueError || exn_eqb e SyntaxError);
      unfold ret; intros H; discriminate.
Qed.

Lemma loadNotebook_success_witness :
  exists a1 markdown url page,
    initLogic shelf_app = (Ok tt, a1) /\
    converter_returning ["x"] [("work", 1)] (fs a1) "/home/notes/todo.md" []
    = Ok (markdown,
          extracted_tags
            (snd (loadNotebook ".md" (converter_returning ["x"] [("work", 1)])
                    true wrapping_pandoc "todo.md" shelf_app))) /\
    tagButtons
      (snd (loadNotebook ".md" (converter_returning ["x"] [("work", 1)])
              true wrapping_pandoc "todo.md" shelf_app))
    = [("work", new_tag_button)] /\
    filters
      (snd (loadNotebook ".md" (converter_returning ["x"] [("work", 1)])
              true wrapping_pandoc "todo.md" shelf_app)) = [] /\
    current_notebook
      (info (snd (loadNotebook ".md"
                    (converter_returning ["x"] [("work", 1)])
                    true wrapping_pandoc "todo.md" shelf_app))) = "todo.md" /\
    web (snd (loadNotebook ".md" (converter_returning ["x"] [("work", 1)])
                true wrapping_pandoc "todo.md" shelf_app)) = Some url /\
    FS.lookup
      (fs (snd (loadNotebook ".md" (converter_returning ["x"] [("work", 1)])
                  true wrapping_pandoc "todo.md" shelf_app))) url
    = Some (FS.File page).
Proof.
  exact (loadNotebook_success ".md" (converter_returning ["x"] [("work", 1)])
           true wrapping_pandoc "todo.md" shelf_app
           (snd (loadNotebook ".md" (converter_returning ["x"] [("work", 1)])
                   true wrapping_pandoc "todo.md" shelf_app))
           eq_refl).
Defined.

(** ** A dialog that returns nothing *)



(** ** Tags that do not remain, and filters that stay *)

Lemma with_tagButtons_same a : with_tagButtons (tagButtons a) a = a.
Proof. now destruct a. Qed.

(** X14. A click on a tag button that is greyed out changes nothing: the
    filter list, the buttons, the page and the disk are as before, and no
    conversion is run. After a reload, that is the case of every button
    whose tag is not among the remaining ones. *)
Theorem click_on_greyed_button (EXTENSION : string)
  (from_notes_to_markdown from_notes_to_markdown' :
     FS.node -> string -> list string -> result (list string * od))
  (popup_exec popup_exec' : bool)
  (pandoc pandoc' : string -> list string -> result string)
  (a a1 : App) (i : nat) (key : string) (b : Button) :
  reload EXTENSION from_notes_to_markdown popup_exec pandoc a = (Ok tt, a1) ->
  nth_error (tagButtons a1) i = Some (key, b) ->
  od_mem key (remaining_tags a1) = false ->
  click EXTENSION from_notes_to_markdown' popup_exec' pandoc' i a1
  = (Ok tt, a1).
Proof.
  intros Hr Hnth Hmem.
  apply evaluate_filters_inv in Hr as [_ [[e [H _]]|[_ [md [_ Hb]]]]];
    [discriminate|].
  pose proof (grey_out_greyed_by (remaining_tags a1) (tagButtons a)) as Hg.
  rewrite <- Hb in Hg.
  destruct (Hg key b (nth_error_In _ _ Hnth)) as [_ Hoff].
  destruct (Hoff Hmem) as [Hflat Hcheck].
  assert (Ht : toggled b = b) by (unfold toggled; now rewrite Hcheck).
  unfold click, bind at 1, modify.
  rewrite (toggle_at_fixed _ _ _ _ Hnth Ht), with_tagButtons_same.
  unfold addFilter, bind, get_state. rewrite Hnth, Hflat. reflexivity.
Qed.

Lemma click_on_greyed_button_witness :
  click ".md" (converter_raising ValueError) true wrapping_pandoc 2
    (snd (reload ".md"
            (converter_returning ["x"] [("work", 1); ("urgent", 1)])
            true wrapping_pandoc shelf_app))
  = (Ok tt,
     snd (reload ".md"
            (converter_returning ["x"] [("work", 1); ("urgent", 1)])
            true wrapping_pandoc shelf_app)).
Proof.
  exact (click_on_greyed_button ".md"
           (converter_returning ["x"] [("work", 1); ("urgent", 1)])
           (converter_raising ValueError) true true
           wrapping_pandoc wrapping_pandoc shelf_app
           (snd (reload ".md"
                   (converter_returning ["x"] [("work", 1); ("urgent", 1)])
                   true wrapping_pandoc shelf_app))
           2 "personal" (disableButton new_tag_button)
           eq_refl eq_refl eq_refl).
Defined.

Lemma enableButton_enabled b :
  flat b = false -> checkable b = true -> enableButton b = b.
Proof. destruct b as [f c ch]. simpl. intros -> ->. reflexivity. Qed.

(** X15. [reload] keeps the filters in force. Whatever the outcome, the
    filter list is the one from before; when the conversion fails the
    buttons and the page are untouched; when it succeeds, every enabled
    button whose tag remains is exactly as it was, check mark included. *)
Theorem reload_keeps_filters (EXTENSION : string)
  (from_notes_to_markdown :
     FS.node -> string -> list string -> result (list string * od))
  (popup_exec : bool) (pandoc : string -> list string -> result string)
  (a : App) :
  let r := fst (reload EXTENSION from_notes_to_markdown popup_exec pandoc a) in
  let a' := snd (reload EXTENSION from_notes_to_markdown popup_exec pandoc a) in
  filters a' = filters a /\
  (forall e, r = Raise e -> tagButtons a' = tagButtons a /\ web a' = web a) /\
  (r = Ok tt ->
   forall i key b,
     nth_error (tagButtons a) i = Some (key, b) ->
     flat b = false -> checkable b = true ->
     od_mem key (remaining_tags a') = true ->
     nth_error (tagButtons a') i = Some (key, b)).
Proof.
  cbn zeta. unfold reload.
  destruct (evaluate_filters _ _ _ _ a) as [r a'] eqn:He. cbn [fst snd].
  pose proof He as Hinv.
  apply evaluate_filters_inv in Hinv as [Hf Hcases]. split; [exact Hf|].
  split.
  - intros e ->. destruct Hcases as [[e' [_ Hb]]|[H _]]; [|discriminate].
    split; [exact Hb|].
    unfold evaluate_filters in He. unfold bind at 1, get_state in He.
    unfold bind at 1 in He.
    destruct (convert _ _ _ _ _ _ a) as [[[url rem]|e0] a1] eqn:Hc.
    + unfold bind, modify, setWebpage in He. discriminate.
    + injection He as _ <-.
      now apply convert_inv in Hc as [[_ [_ [_ [_ [Hw _]]]]] _].
  - intros ->. destruct Hcases as [[e' [H _]]|[_ [md [_ Hb]]]];
      [discriminate|].
    intros i key b Hnth Hflat Hcheck Hmem. rewrite Hb. unfold grey_out.
    rewrite nth_error_map, Hnth. cbn [option_map fst snd].
    now rewrite Hmem, enableButton_enabled.
Qed.

(** X16. A checked, enabled button whose label is not in the filter list, as
    a load that failed leaves it ([initLogic] has emptied the list, the
    buttons are the old ones): a click takes the check mark away and
    [addFilter] stops at [list.index] with [ValueError], before any
    conversion. The filter list, the page and the disk are as before. *)
Theorem click_unchecks_then_raises (EXTENSION : string)
  (from_notes_to_markdown :
     FS.node -> string -> list string -> result (list string * od))
  (popup_exec : bool) (pandoc : string -> list string -> result string)
  (a : App) (i : nat) (text : string) (b : Button) :
  nth_error (tagButtons a) i = Some (text, b) ->
  flat b = false -> checkable b = true -> checked b = true ->
  ~ In text (filters a) ->
  exists a' b',
    click EXTENSION from_notes_to_markdown popup_exec pandoc i a
    = (Raise ValueError, a') /\
    nth_error (tagButtons a') i = Some (text, b') /\ checked b' = false /\
    filters a' = filters a /\ fs a' = fs a /\ web a' = web a /\
    dialogs a' = dialogs a.
Proof.
  intros Hnth Hflat Hcheckable Hchecked Hnot.
  destruct (toggled_checkable b Hcheckable) as [Tf [_ Tch]].
  exists (with_tagButtons (toggle_at i (tagButtons a)) a), (toggled b).
  split.
  - unfold click, bind at 1, modify. unfold addFilter, bind at 1, get_state.
    cbn [tagButtons with_tagButtons filters].
    rewrite (toggle_at_nth _ _ _ _ Hnth), Tf, Hflat, Tch, Hchecked.
    cbn [negb]. unfold bind, lift.
    now rewrite (list_index_absent _ _ Hnot).
  - cbn. rewrite (toggle_at_nth _ _ _ _ Hnth), Tch, Hchecked. auto 10.
Qed.

Lemma click_unchecks_then_raises_witness :
  exists a' b',
    click ".md" (converter_returning ["x"] [("work", 1)]) true
      wrapping_pandoc 0
      (snd (loadNotebook ".md" (converter_raising ValueError) true
              wrapping_pandoc "todo.md"
              (run_clicks ".md"
                 [click_answered 0 [("work", 1); ("urgent", 1)]]
                 shelf_app)))
    = (Raise ValueError, a') /\
    nth_error (tagButtons a') 0 = Some ("work", b') /\ checked b' = false /\
    filters a' = [].
Proof.
  destruct (click_unchecks_then_raises ".md"
              (converter_returning ["x"] [("work", 1)]) true wrapping_pandoc
              (snd (loadNotebook ".md" (converter_raising ValueError) true
                      wrapping_pandoc "todo.md"
                      (run_clicks ".md"
                         [click_answered 0 [("work", 1); ("urgent", 1)]]
                         shelf_app)))
              0 "work"
              {| flat := false; checkable := true; checked := true |}
              eq_refl eq_refl eq_refl eq_refl ltac:(intros []))
    as [a' [b' [H1 [H2 [H3 [H4 _]]]]]].
  exists a', b'. split; [exact H1|]. split; [exact H2|].
  split; [exact H3 | exact H4].
Defined.

(** ** The two hidden folders of the Preview *)

Lemma ensure_dir_ok path a a' :
  ensure_dir path a = (Ok tt, a') -> FS.isdir (fs a') path = true.
Proof.
  unfold ensure_dir, bind, get_state, on_fs, ret.
  destruct (FS.isdir (fs a) path) eqn:Hd.
  - intros H. now injection H as <-.
  - destruct (FS.mkdir path (fs a)) as [[[]|e] x] eqn:Hm; [|discriminate].
    intros H. injection H as <-. cbn [fs with_fs].
    apply mkdir_ok in Hm as [Hl _]. unfold FS.isdir. now rewrite Hl.
Qed.

(** A directory stays one when another name is made beside it. *)
Lemma ensure_dir_keeps_dir lv d d' p p' a a' :
  FS.components p = lv ++ [d] -> FS.components p' = lv ++ [d'] ->
  FS.isdir (fs a) p = true ->
  ensure_dir p' a = (Ok tt, a') ->
  FS.isdir (fs a') p = true.
Proof.
  intros Hc Hc' Hd. unfold ensure_dir, bind, get_state, on_fs, ret.
  destruct (FS.isdir (fs a) p').
  - intros H. now injection H as <-.
  - destruct (FS.mkdir p' (fs a)) as [[[]|e] x] eqn:Hm; [|discriminate].
    intros H. injection H as <-. cbn [fs with_fs].
    apply mkdir_ok in Hm as [_ [parent [name [es [Hp [Hw Hw']]]]]].
    rewrite Hc' in Hp. apply app_inj_tail in Hp as [<- <-].
    unfold FS.isdir, FS.lookup in *. rewrite Hc in *.
    destruct (FS.walk (fs a) (lv ++ [d])) as [[?|sub|]|] eqn:Hl;
      try discriminate.
    rewrite (walk_app _ _ _ _ Hw) in Hl.
    rewrite (walk_app _ _ _ _ Hw').
    now rewrite (entry_named_app_old _ _ _ _ Hl).
Qed.

(** X17. When [initLogic] returns, the folders [.website] and [.temp] exist
    as directories in the current level, and the Preview has neither tags
    nor filters; running it again, as every [loadNotebook] does, changes
    nothing at all. *)
Theorem initLogic_makes_roots_once (a a1 : App) :
  initLogic a = (Ok tt, a1) ->
  website_root a1 = FS.path_join (level (info a)) ".website" /\
  temp_root a1 = FS.path_join (level (info a)) ".temp" /\
  FS.isdir (fs a1) (website_root a1) = true /\
  FS.isdir (fs a1) (temp_root a1) = true /\
  extracted_tags a1 = [] /\ filters a1 = [] /\
  initLogic a1 = (Ok tt, a1).
Proof.
  intros H.
  assert (Hw : FS.components (FS.path_join (level (info a)) ".website")
               = FS.components (level (info a)) ++ [".website"])
    by (apply components_join_name; [reflexivity | discriminate]).
  assert (Ht : FS.components (FS.path_join (level (info a)) ".temp")
               = FS.components (level (info a)) ++ [".temp"])
    by (apply components_join_name; [reflexivity | discriminate]).
  unfold initLogic in H. unfold bind at 1, get_state in H.
  unfold bind at 1, modify in H. unfold bind at 1 in H.
  destruct (ensure_dir _ _) as [[[]|e] a2] eqn:H2; [|discriminate].
  unfold bind at 1 in H.
  destruct (ensure_dir _ a2) as [[[]|e] a3] eqn:H3; [|discriminate].
  unfold bind, modify in H. injection H as <-.
  pose proof (ensure_dir_ok _ _ _ H2) as D2.
  pose proof (ensure_dir_keeps_dir _ _ _ _ _ _ _ Hw Ht D2 H3) as D2'.
  pose proof (ensure_dir_ok _ _ _ H3) as D3.
  apply ensure_dir_inv in H2 as [x2 ->]. apply ensure_dir_inv in H3 as [x3 ->].
  cbn in D2', D3 |- *.
  split; [reflexivity|]. split; [reflexivity|].
  split; [exact D2'|]. split; [exact D3|].
  split; [reflexivity|]. split; [reflexivity|].
  unfold initLogic, bind, get_state, modify, ensure_dir, ret. cbn.
  rewrite D2'. cbn. rewrite D3. reflexivity.
Qed.

Lemma initLogic_makes_roots_once_witness :
  FS.isdir (fs (snd (initLogic library_app))) "/home/notes/.website" = true /\
  FS.isdir (fs (snd (initLogic library_app))) "/home/notes/.temp" = true /\
  initLogic (snd (initLogic library_app))
  = (Ok tt, snd (initLogic library_app)).
Proof.
  destruct (initLogic_makes_roots_once library_app
              (snd (initLogic library_app)) eq_refl)
    as [_ [_ [H1 [H2 [_ [_ H3]]]]]].
  split; [exact H1|]. split; [exact H2 | exact H3].
Defined.

(** ** The files of a conversion *)

Section PreviewFiles.

Variable EXTENSION : string.
Variable from_notes_to_markdown :
  FS.node -> string -> list string -> result (list string * od).
Variable popup_exec : bool.
Variable pandoc : string -> list string -> result string.

Hypothesis EXTENSION_not_empty : EXTENSION <> EmptyString.
Hypothesis EXTENSION_no_sep :
  str_existsb (Ascii.eqb FS.SEP) EXTENSION = false.

Lemma ensure_dir_scan main d p a r a' :
  FS.components p = FS.components main ++ [d] ->
  hidden d = true ->
  ensure_dir p a = (r, a') ->
  fst (search_folder_recursively EXTENSION main (fs a'))
  = fst (search_folder_recursively EXTENSION main (fs a)) /\
  a' = with_fs (fs a') a.
Proof.
  intros Hc Hd. unfold ensure_dir, bind, get_state, on_fs, ret.
  destruct (FS.isdir (fs a) p).
  - intros H. injection H as _ <-. split; [reflexivity | now destruct a].
  - destruct (FS.mkdir p (fs a)) as [r0 x] eqn:Hm. intros H.
    injection H as _ <-. split; [|reflexivity].
    cbn [fs with_fs]. eapply mkdir_scan; eauto.
Qed.

(** [initLogic] leaves the scanner's lists for the current folder as they
    were, and sets the two roots below it. *)
Lemma initLogic_scan a r a' :
  initLogic a = (r, a') ->
  fst (search_folder_recursively EXTENSION (level (info a)) (fs a'))
  = fst (search_folder_recursively EXTENSION (level (info a)) (fs a)) /\
  info a' = info a /\
  (r = Ok tt ->
   website_root a' = FS.path_join (level (info a)) ".website" /\
   temp_root a' = FS.path_join (level (info a)) ".temp").
Proof.
  unfold initLogic. unfold bind at 1, get_state.
  unfold bind at 1, modify.
  set (w := FS.path_join (level (info a)) ".website").
  set (t := FS.path_join (level (info a)) ".temp").
  assert (Hw : FS.components w = FS.components (level (info a)) ++ [".website"])
    by (apply components_join_name; [reflexivity | discriminate]).
  assert (Ht : FS.components t = FS.components (level (info a)) ++ [".temp"])
    by (apply components_join_name; [reflexivity | discriminate]).
  unfold bind at 1.
  destruct (ensure_dir w _) as [[u|e] a2] eqn:H2;
    apply (ensure_dir_scan (level (info a)) ".website" w) in H2 as [S2 E2];
    auto; cbn [fs with_roots] in S2.
  - unfold bind at 1.
    destruct (ensure_dir t a2) as [[u'|e] a3] eqn:H3;
      apply (ensure_dir_scan (level (info a)) ".temp" t) in H3 as [S3 E3];
      auto.
    + unfold bind, modify. intros H. injection H as <- <-.
      cbn [fs with_filters with_extracted_tags info website_root temp_root].
      rewrite S3, S2. rewrite E3, E2. cbn. auto.
    + intros H. injection H as <- <-. rewrite S3, S2.
      rewrite E3, E2. cbn. split; [reflexivity|]. split; [reflexivity|].
      discriminate.
  - intros H. injection H as <- <-. rewrite S2. rewrite E2. cbn.
    split; [reflexivity|]. split; [reflexivity|]. discriminate.
Qed.

(** The [try] statement of [convert] changes the list of dialogs only. *)
Lemma try_from_notes_to_markdown_frame path tags a r a1 :
  try_from_notes_to_markdown from_notes_to_markdown popup_exec path tags a
    = (r, a1) ->
  exists d, a1 = with_dialogs d a.
Proof.
  unfold try_from_notes_to_markdown, try_except, bind, get_state, lift.
  destruct (from_notes_to_markdown (fs a) path tags) as [[md rem]|e].
  - unfold ret. intros H. injection H as _ <-. exists (dialogs a).
    now destruct a.
  - destruct e; simpl; destruct popup_exec; simpl;
      unfold show_dialog, modify, raise, ret; intros H;
      injection H as _ <-; eauto; exists (dialogs a); now destruct a.
Qed.

(** The name of the files [convert] writes: the notebook's name without
    its last characters, then the tags. It is read from the root it is
    joined to, and names something. *)
Lemma convert_file_name_relative path tags suffix :
  suffix <> EmptyString ->
  str_existsb (Ascii.eqb FS.SEP) suffix = false ->
  let base0 := slice_to_minus (FS.basename path) (String.length EXTENSION) in
  let base := match tags with
              | [] => base0
              | _ :: _ => (base0 ++ "_" ++ join "_" tags)%string
              end in
  startswith (base ++ suffix) "/" = false /\
  FS.components (base ++ suffix) <> [].
Proof.
  intros Hne Hs base0 base.
  assert (H0 : str_existsb (Ascii.eqb FS.SEP) base0 = false)
    by (apply slice_to_minus_no, basename_no_sep).
  split.
  - destruct tags as [|t ts]; unfold base.
    + apply startswith_app; auto. now apply startswith_no_sep.
    + rewrite append_assoc. apply startswith_app; auto.
  - unfold FS.components. apply fields_from_some.
    apply str_forallb_app_r. now apply no_sep_not_all_sep.
Qed.

(** [convert] changes the disk and the list of dialogs, nothing else;
    where the two roots are the hidden folders of [lvl], the scanner's
    lists for [lvl] stay as they are. *)
Lemma convert_scan lvl path tags a r a' :
  temp_root a = FS.path_join lvl ".temp" ->
  website_root a = FS.path_join lvl ".website" ->
  convert EXTENSION from_notes_to_markdown popup_exec pandoc path tags a
    = (r, a') ->
  fst (search_folder_recursively EXTENSION lvl (fs a'))
  = fst (search_folder_recursively EXTENSION lvl (fs a)) /\
  exists x d, a' = with_fs x (with_dialogs d a).
Proof.
  intros Htemp Hweb. unfold convert. unfold bind at 1.
  destruct (try_from_notes_to_markdown _ _ _ _ _) as [[bound|e] a1] eqn:Ht;
    apply try_from_notes_to_markdown_frame in Ht as [d1 ->].
  2:{ intros H. injection H as _ <-. cbn [fs with_dialogs].
      split; [reflexivity|]. exists (fs a), d1. now destruct a. }
  unfold bind at 1, get_state.
  set (base0 := slice_to_minus (FS.basename path) (String.length EXTENSION)).
  set (base := match tags with
               | [] => base0
               | _ :: _ => (base0 ++ "_" ++ join "_" tags)%string
               end).
  cbn [temp_root website_root with_dialogs].
  assert (Hroot : forall root d suffix text x r0 x',
             root = FS.path_join lvl d -> hidden d = true ->
             str_existsb (Ascii.eqb FS.SEP) d = false ->
             suffix <> EmptyString ->
             str_existsb (Ascii.eqb FS.SEP) suffix = false ->
             FS.write_file (FS.path_join root (base ++ suffix)) text x
               = (r0, x') ->
             fst (search_folder_recursively EXTENSION lvl x')
             = fst (search_folder_recursively EXTENSION lvl x)).
  { intros root d suffix text x r0 x' -> Hd Hds Hne Hs Hw.
    destruct (convert_file_name_relative path tags suffix Hne Hs)
      as [Hrel Hcomp].
    fold base0 in Hrel, Hcomp. fold base in Hrel, Hcomp.
    eapply (write_file_scan EXTENSION lvl d _ _ text x r0 x'); eauto.
    rewrite components_path_join by exact Hrel.
    rewrite components_join_name; auto.
    - now rewrite <- app_assoc.
    - intros ->. discriminate. }
  destruct bound as [[markdown rem]|].
  - unfold bind at 1. unfold on_fs at 1. cbn [fs with_dialogs].
    destruct (FS.write_file _ _ (fs a)) as [[u|e] x2] eqn:Hw2;
      (apply (Hroot (temp_root a) ".temp" EXTENSION) in Hw2; auto).
    + unfold bind at 1, lift.
      destruct (pandoc _ _) as [html|e].
      * unfold bind at 1. unfold on_fs at 1. cbn [fs with_fs].
        destruct (FS.write_file _ _ x2) as [[u'|e] x3] eqn:Hw3;
          (apply (Hroot (website_root a) ".website" ".html") in Hw3;
           [|assumption|reflexivity|reflexivity|discriminate|reflexivity]);
          unfold ret; intros H; injection H as _ <-; cbn [fs with_fs];
          (split; [congruence|]); exists x3, d1; reflexivity.
      * intros H. injection H as _ <-. cbn [fs with_fs].
        split; [congruence|]. exists x2, d1; reflexivity.
    + intros H. injection H as _ <-. cbn [fs with_fs].
      split; [congruence|]. exists x2, d1; reflexivity.
  - unfold bind at 1. unfold on_fs at 1. cbn [fs with_dialogs].
    destruct (FS.write_file _ _ (fs a)) as [[u|e] x2] eqn:Hw2;
      (apply (Hroot (temp_root a) ".temp" EXTENSION) in Hw2; auto);
      unfold raise; intros H; injection H as _ <-; cbn [fs with_fs];
      (split; [congruence|]); exists x2, d1; reflexivity.
Qed.

End PreviewFiles.

(** X18. The page of a notebook named stem + EXTENSION is written in the
    website root under the stem, followed by the filter tags joined with
    underscores, and [.html]; the address [convert] returns is that one. *)
Theorem convert_names_page (EXTENSION : string)
  (from_notes_to_markdown :
     FS.node -> string -> list string -> result (list string * od))
  (popup_exec : bool) (pandoc : string -> list string -> result string)
  (folder stem : string) (tags : list string) (a a' : App) (url : string)
  (remaining : od) :
  EXTENSION <> EmptyString ->
  str_existsb (Ascii.eqb FS.SEP) (stem ++ EXTENSION) = false ->
  convert EXTENSION from_notes_to_markdown popup_exec pandoc
    (FS.path_join folder (stem ++ EXTENSION)) tags a
  = (Ok (url, remaining), a') ->
  url = FS.path_join (website_root a)
          (match tags with
           | [] => stem
           | _ :: _ => stem ++ "_" ++ join "_" tags
           end ++ ".html") /\
  exists page, FS.lookup (fs a') url = Some (FS.File page).
Proof.
  intros Hne Hsep. unfold convert. unfold bind at 1.
  destruct (try_from_notes_to_markdown _ _ _ _ _) as [[bound|e] a1] eqn:Ht;
    [|discriminate].
  apply try_from_notes_to_markdown_frame in Ht as [d1 ->].
  unfold bind at 1, get_state.
  rewrite (basename_path_join _ _ Hsep), (slice_to_minus_app _ _ Hne).
  destruct bound as [[markdown rem]|].
  - unfold bind at 1.
    destruct (on_fs (FS.write_file _ _) _) as [[u|e] a2] eqn:H2;
      [|discriminate].
    unfold on_fs in H2.
    destruct (FS.write_file _ _ _) as [r2 x2]. injection H2 as _ <-.
    unfold bind at 1, lift.
    destruct (pandoc _ _) as [html|e]; [|discriminate].
    unfold bind at 1, on_fs.
    destruct (FS.write_file _ (page_text html) _) as [[[]|e] x] eqn:Hw;
      [|discriminate].
    unfold ret. intros H. injection H as <- <- <-.
    split; [reflexivity|]. exists (page_text html).
    cbn [fs with_fs]. now apply write_file_lookup in Hw.
  - unfold bind at 1.
    destruct (on_fs (FS.write_file _ _) _) as [[u|e] a2]; discriminate.
Qed.

Lemma convert_names_page_witness :
  fst (convert ".md" (converter_returning ["x"] []) true wrapping_pandoc
         "/home/notes/todo.md" ["work"; "urgent"] shelf_app)
  = Ok ("/home/notes/.website/todo_work_urgent.html", []) /\
  exists page,
    FS.lookup
      (fs (snd (convert ".md" (converter_returning ["x"] []) true
                  wrapping_pandoc "/home/notes/todo.md" ["work"; "urgent"]
                  shelf_app)))
      "/home/notes/.website/todo_work_urgent.html"
    = Some (FS.File page).
Proof.
  split; [reflexivity|].
  exact (proj2 (convert_names_page ".md" (converter_returning ["x"] []) true
                  wrapping_pandoc "/home/notes" "todo" ["work"; "urgent"]
                  shelf_app
                  (snd (convert ".md" (converter_returning ["x"] []) true
                          wrapping_pandoc "/home/notes/todo.md"
                          ["work"; "urgent"] shelf_app))
                  "/home/notes/.website/todo_work_urgent.html" []
                  ltac:(discriminate) eq_refl eq_refl)).
Defined.

(** X19. When [convert] returns, with the two roots where [initLogic] puts
    them, the temp file of the notebook holds the lines the note converter
    returned, joined by line feeds, beside the page in the other root; read
    back line by line it gives these lines, if there is one at least and
    none holds a line feed. *)
Theorem convert_writes_markdown (EXTENSION : string)
  (from_notes_to_markdown :
     FS.node -> string -> list string -> result (list string * od))
  (popup_exec : bool) (pandoc : string -> list string -> result string)
  (lvl path : string) (tags : list string) (a a' : App) (url : string)
  (remaining : od) :
  let base0 := slice_to_minus (FS.basename path) (String.length EXTENSION) in
  let base := match tags with
              | [] => base0
              | _ :: _ => (base0 ++ "_" ++ join "_" tags)%string
              end in
  let temp_path := FS.path_join (temp_root a) (base ++ EXTENSION)%string in
  EXTENSION <> EmptyString ->
  str_existsb (Ascii.eqb FS.SEP) EXTENSION = false ->
  temp_root a = FS.path_join lvl ".temp" ->
  website_root a = FS.path_join lvl ".website" ->
  convert EXTENSION from_notes_to_markdown popup_exec pandoc path tags a
    = (Ok (url, remaining), a') ->
  exists markdown,
    from_notes_to_markdown (fs a) path tags = Ok (markdown, remaining) /\
    FS.lookup (fs a') temp_path = Some (FS.File (join NEWLINE markdown)) /\
    (markdown <> [] -> Forall one_line markdown ->
     split_lines (join NEWLINE markdown) = markdown).
Proof.
  intros base0 base temp_path Hne Hsep Htemp Hweb Hconv.
  pose proof Hconv as Hinv.
  apply convert_inv in Hinv as [_ Htp].
  destruct (Htp _ _ eq_refl) as [markdown Hm]. exists markdown.
  split; [exact Hm|]. split; [|apply split_lines_join].
  destruct (convert_file_name_relative EXTENSION path tags EXTENSION Hne Hsep)
    as [Hrel1 Hcomp1].
  destruct (convert_file_name_relative EXTENSION path tags ".html"
              ltac:(discriminate) eq_refl) as [Hrel2 Hcomp2].
  fold base0 in Hrel1, Hcomp1, Hrel2, Hcomp2.
  fold base in Hrel1, Hcomp1, Hrel2, Hcomp2.
  assert (Hc1 : FS.components temp_path
                = FS.components lvl ++ ".temp"
                    :: FS.components (base ++ EXTENSION)).
  { unfold temp_path. rewrite Htemp.
    rewrite components_path_join by exact Hrel1.
    rewrite components_join_name by (reflexivity || discriminate).
    now rewrite <- app_assoc. }
  assert (Hc2 : FS.components
                  (FS.path_join (website_root a) (base ++ ".html"))
                = FS.components lvl ++ ".website"
                    :: FS.components (base ++ ".html")).
  { rewrite Hweb. rewrite components_path_join by exact Hrel2.
    rewrite components_join_name by (reflexivity || discriminate).
    now rewrite <- app_assoc. }
  unfold convert in Hconv. unfold bind at 1 in Hconv.
  unfold try_from_notes_to_markdown, try_except in Hconv.
  unfold bind at 1, get_state in Hconv. unfold bind at 1, lift in Hconv.
  rewrite Hm in Hconv. unfold ret in Hconv.
  unfold bind at 1, get_state in Hconv.
  fold base0 in Hconv. fold base in Hconv. fold temp_path in Hconv.
  unfold bind at 1, on_fs in Hconv.
  destruct (FS.write_file temp_path _ (fs a)) as [[[]|e] x2] eqn:Hw2;
    [|discriminate].
  unfold bind at 1, lift in Hconv.
  destruct (pandoc _ _) as [html|e]; [|discriminate].
  unfold bind at 1, on_fs in Hconv. cbn [fs with_fs website_root] in Hconv.
  destruct (FS.write_file _ (page_text html) x2) as [[[]|e] x3] eqn:Hw3;
    [|discriminate].
  apply (f_equal snd) in Hconv. cbn [snd] in Hconv. subst a'.
  cbn [fs with_fs].
  apply write_file_lookup in Hw2.
  unfold FS.lookup in *. rewrite Hc1 in *.
  rewrite (write_file_other (FS.components lvl) ".temp" _ ".website" _ _ _
             _ _ _ Hc2 Hcomp2 ltac:(discriminate) Hw3).
  exact Hw2.
Qed.

Lemma convert_writes_markdown_witness :
  exists markdown,
    converter_returning ["Title"; "-----"] [] shelf_disk
      "/home/notes/todo.md" ["work"]
    = Ok (markdown, []) /\
    FS.lookup
      (fs (snd (convert ".md" (converter_returning ["Title"; "-----"] [])
                  true wrapping_pandoc "/home/notes/todo.md" ["work"]
                  shelf_app)))
      "/home/notes/.temp/todo_work.md"
    = Some (FS.File (join NEWLINE markdown)) /\
    (markdown <> [] -> Forall one_line markdown ->
     split_lines (join NEWLINE markdown) = markdown).
Proof.
  exact (convert_writes_markdown ".md"
           (converter_returning ["Title"; "-----"] []) true wrapping_pandoc
           "/home/notes" "/home/notes/todo.md" ["work"] shelf_app
           (snd (convert ".md" (converter_returning ["Title"; "-----"] [])
                   true wrapping_pandoc "/home/notes/todo.md" ["work"]
                   shelf_app))
           "/home/notes/.website/todo_work.html" []
           ltac:(discriminate) eq_refl eq_refl eq_refl eq_refl).
Defined.

(** ** The Preview and the Library *)

(** What a filter evaluation changes besides the widgets: the disk, below
    the two roots, and the list of dialogs. *)
Lemma evaluate_filters_scan (EXTENSION : string)
  (from_notes_to_markdown :
     FS.node -> string -> list string -> result (list string * od))
  (popup_exec : bool) (pandoc : string -> list string -> result string)
  (a : App) r a' :
  EXTENSION <> EmptyString ->
  str_existsb (Ascii.eqb FS.SEP) EXTENSION = false ->
  temp_root a = FS.path_join (level (info a)) ".temp" ->
  website_root a = FS.path_join (level (info a)) ".website" ->
  evaluate_filters EXTENSION from_notes_to_markdown popup_exec pandoc a
    = (r, a') ->
  fst (search_folder_recursively EXTENSION (level (info a)) (fs a'))
  = fst (search_folder_recursively EXTENSION (level (info a)) (fs a)) /\
  info a' = info a /\ temp_root a' = temp_root a /\
  website_root a' = website_root a.
Proof.
  intros Hne Hsep Ht Hw. unfold evaluate_filters.
  unfold bind at 1, get_state. unfold bind at 1.
  destruct (convert _ _ _ _ _ _ a) as [[[url rem]|e] a1] eqn:Hc;
    apply (convert_scan EXTENSION _ _ _ Hne Hsep (level (info a))) in Hc
      as [Hs [x [d ->]]]; auto.
  - unfold bind, modify, setWebpage. intros H. injection H as _ <-.
    cbn in *. auto.
  - intros H. injection H as _ <-. cbn in *. auto.
Qed.

Lemma click_scan (EXTENSION : string) (e : Event) (a : App) r a' :
  EXTENSION <> EmptyString ->
  str_existsb (Ascii.eqb FS.SEP) EXTENSION = false ->
  temp_root a = FS.path_join (level (info a)) ".temp" ->
  website_root a = FS.path_join (level (info a)) ".website" ->
  click EXTENSION (ev_from_notes_to_markdown e) (ev_popup_exec e)
    (ev_pandoc e) (ev_button e) a = (r, a') ->
  fst (search_folder_recursively EXTENSION (level (info a)) (fs a'))
  = fst (search_folder_recursively EXTENSION (level (info a)) (fs a)) /\
  info a' = info a /\ temp_root a' = temp_root a /\
  website_root a' = website_root a.
Proof.
  intros Hne Hsep Ht Hw. unfold click. unfold bind at 1, modify.
  unfold addFilter. unfold bind at 1, get_state.
  cbn [tagButtons with_tagButtons filters].
  destruct (nth_error _ _) as [[text b]|];
    [|unfold ret; intros H; injection H as _ <-; cbn; auto].
  destruct (flat b); cbn [negb];
    [unfold ret; intros H; injection H as _ <-; cbn; auto|].
  unfold bind at 1.
  destruct (checked b).
  - unfold modify. intros H.
    apply evaluate_filters_scan in H; auto.
  - unfold bind at 1, lift.
    destruct (list_index _ _) as [i|ex];
      [|intros H; injection H as _ <-; cbn; auto].
    unfold bind at 1.
    destruct (list_pop _ _) as [p|ex];
      [|intros H; injection H as _ <-; cbn; auto].
    unfold modify. intros H.
    apply evaluate_filters_scan in H; auto.
Qed.

(** X20. Loading a notebook in the Preview leaves the Library's view of the
    current folder alone: whatever the outcome, the scanner returns for
    [info.level] the notebooks and folders it returned before, the files
    written being kept in the hidden folders [.website] and [.temp]. Here
    [EXTENSION] is a non-empty suffix without path separator. *)
Theorem loadNotebook_keeps_scan (EXTENSION : string)
  (from_notes_to_markdown :
     FS.node -> string -> list string -> result (list string * od))
  (popup_exec : bool) (pandoc : string -> list string -> result string)
  (notebook : string) (a : App) :
  EXTENSION <> EmptyString ->
  str_existsb (Ascii.eqb FS.SEP) EXTENSION = false ->
  fst (search_folder_recursively EXTENSION (level (info a))
         (fs (snd (loadNotebook EXTENSION from_notes_to_markdown popup_exec
                     pandoc notebook a))))
  = fst (search_folder_recursively EXTENSION (level (info a)) (fs a)).
Proof.
  intros Hne Hsep. unfold loadNotebook. unfold bind at 1.
  destruct (initLogic a) as [[u|e] a1] eqn:Hinit;
    apply (initLogic_scan EXTENSION) in Hinit as [Hs1 [Hi1 Hr1]];
    [|exact Hs1].
  destruct u. destruct (Hr1 eq_refl) as [Hw Ht].
  unfold bind at 1, modify. unfold bind at 1, get_state.
  unfold bind at 1. unfold try_except at 1. unfold bind at 1.
  destruct (convert _ _ _ _ _ _ _) as [[[url tags]|e] a3] eqn:Hc;
    apply (convert_scan EXTENSION _ _ _ Hne Hsep (level (info a))) in Hc
      as [Hs3 [x [d ->]]]; auto.
  - cbn in *. congruence.
  - destruct (exn_eqb e ValueError || exn_eqb e SyntaxError);
      cbn in *; congruence.
Qed.

Lemma loadNotebook_keeps_scan_witness :
  fst (search_folder_recursively ".md" "/home/notes"
         (fs (snd (loadNotebook ".md"
                     (converter_returning ["x"] [("work", 1)]) true
                     wrapping_pandoc "todo.md" shelf_app))))
  = Ok (["todo.md"; "empty.md"], []).
Proof.
  exact (loadNotebook_keeps_scan ".md"
           (converter_returning ["x"] [("work", 1)]) true wrapping_pandoc
           "todo.md" shelf_app ltac:(discriminate) eq_refl).
Defined.

(** X21. Filtering by tags and reloading leave the Library's view of the
    current folder alone as well: with the two roots where [initLogic] puts
    them, no sequence of clicks on tag buttons and no reload changes what
    the scanner returns for [info.level]. *)
Theorem filtering_keeps_scan (EXTENSION : string) (events : list Event)
  (from_notes_to_markdown :
     FS.node -> string -> list string -> result (list string * od))
  (popup_exec : bool) (pandoc : string -> list string -> result string)
  (a : App) :
  EXTENSION <> EmptyString ->
  str_existsb (Ascii.eqb FS.SEP) EXTENSION = false ->
  temp_root a = FS.path_join (level (info a)) ".temp" ->
  website_root a = FS.path_join (level (info a)) ".website" ->
  fst (search_folder_recursively EXTENSION (level (info a))
         (fs (run_clicks EXTENSION events a)))
  = fst (search_folder_recursively EXTENSION (level (info a)) (fs a)) /\
  fst (search_folder_recursively EXTENSION (level (info a))
         (fs (snd (reload EXTENSION from_notes_to_markdown popup_exec
                     pandoc a))))
  = fst (search_folder_recursively EXTENSION (level (info a)) (fs a)).
Proof.
  intros Hne Hsep Ht Hw. split.
  - revert a Ht Hw. induction events as [|e r IH]; intros a Ht Hw;
      [reflexivity|].
    cbn [run_clicks].
    destruct (click _ _ _ _ _ a) as [r0 a0] eqn:Hc. cbn [snd].
    apply click_scan in Hc as [Hs [Hi [Ht0 Hw0]]]; auto.
    rewrite <- Hs, <- Hi. apply IH; congruence.
  - unfold reload.
    destruct (evaluate_filters _ _ _ _ a) as [r0 a0] eqn:He. cbn [snd].
    now apply evaluate_filters_scan in He as [Hs _].
Qed.

Lemma filtering_keeps_scan_witness :
  fst (search_folder_recursively ".md" "/home/notes"
         (fs (run_clicks ".md"
                [click_answered 0 [("work", 1); ("urgent", 1)];
                 click_answered 1 [("work", 1); ("urgent", 1)]]
                shelf_app)))
  = Ok (["todo.md"; "empty.md"], []).
Proof.
  exact (proj1 (filtering_keeps_scan ".md"
                  [click_answered 0 [("work", 1); ("urgent", 1)];
                   click_answered 1 [("work", 1); ("urgent", 1)]]
                  (converter_returning ["x"] []) true wrapping_pandoc
                  shelf_app ltac:(discriminate) eq_refl eq_refl eq_refl)).
Defined.
